(** * Session synchronisation engine of next-ai-draw-io

    A shallow embedding of [hooks/use-session-manager.ts] (the session
    lifecycle controller) and of [lib/firestore-service.ts] (the remote
    backend adapter), with the properties of the specification stated and
    proved over it.

    Asynchronous TypeScript functions are embedded as finite programs over
    an effect signature: every call that leaves the function (a backend
    operation, a global that is read, a React state update) is a node of
    the program, and the function's own control flow is the Rocq term
    around those nodes.  Programs are run against an arbitrary environment,
    which answers the calls and may make any awaited call fail. *)

From Stdlib Require Import String List ZArith Bool Lia Ascii.
Import ListNotations.

Local Open Scope string_scope.
Local Open Scope Z_scope.

(* ================================================================== *)
(** * Thrown values and results *)
(* ================================================================== *)

(** A value thrown by a backend call.  The sources only ever look at
    [e?.code]. *)
Record ThrownError : Type := mkError {
  code : option string;
  message : string
}.

(** [e?.code === "permission-denied"] *)
Definition isPermissionDenied (e : ThrownError) : bool :=
  match code e with
  | Some c => String.eqb c "permission-denied"
  | None => false
  end.

(** What an awaited promise settles to. *)
Inductive result (A : Type) : Type :=
| Ok (a : A)
| Err (e : ThrownError).
Arguments Ok {A} a.
Arguments Err {A} e.

(** How a whole function ends. *)
Inductive Outcome (A : Type) : Type :=
| Returned (a : A)
| Thrown (e : ThrownError).
Arguments Returned {A} a.
Arguments Thrown {A} e.

(* ================================================================== *)
(** * Programs over an effect signature *)
(* ================================================================== *)

(** An effect signature: synchronous reads that cannot fail ([query]),
    awaited calls that settle to a [result] ([call]), and the mutable
    store the program owns ([store]). *)
Record Sig : Type := mkSig {
  query : Type;
  answer : query -> Type;
  call : Type;
  reply : call -> Type;
  store : Type
}.

Section Free.
Context {sg : Sig}.

Inductive Prog (A : Type) : Type :=
| Ret (a : A)
| Throw (e : ThrownError)
| Read (q : query sg) (k : answer sg q -> Prog A)
| Await (c : call sg) (k : result (reply sg c) -> Prog A)
| GetSt (k : store sg -> Prog A)
| ModSt (f : store sg -> store sg) (k : Prog A).

Arguments Ret {A} a.
Arguments Throw {A} e.
Arguments Read {A} q k.
Arguments Await {A} c k.
Arguments GetSt {A} k.
Arguments ModSt {A} f k.

Fixpoint bind {A B : Type} (p : Prog A) (f : A -> Prog B) : Prog B :=
  match p with
  | Ret a => f a
  | Throw e => Throw e
  | Read q k => Read q (fun x => bind (k x) f)
  | Await c k => Await c (fun r => bind (k r) f)
  | GetSt k => GetSt (fun s => bind (k s) f)
  | ModSt g k => ModSt g (bind k f)
  end.

(** [try { p } catch (e) { h e }] *)
Fixpoint try_catch {A : Type} (p : Prog A) (h : ThrownError -> Prog A)
  : Prog A :=
  match p with
  | Ret a => Ret a
  | Throw e => h e
  | Read q k => Read q (fun x => try_catch (k x) h)
  | Await c k => Await c (fun r => try_catch (k r) h)
  | GetSt k => GetSt (fun s => try_catch (k s) h)
  | ModSt g k => ModSt g (try_catch k h)
  end.

(** [await f(...)]: a rejected promise is rethrown at the await. *)
Definition await (c : call sg) : Prog (reply sg c) :=
  Await c (fun r => match r with Ok a => Ret a | Err e => Throw e end).

Definition read (q : query sg) : Prog (answer sg q) := Read q Ret.
Definition getSt : Prog (store sg) := GetSt Ret.
Definition modSt (f : store sg -> store sg) : Prog unit := ModSt f (Ret tt).

(** ** Traces and environments *)

Inductive event : Type :=
| EvRead (q : query sg) (a : answer sg q)
| EvAwait (c : call sg) (r : result (reply sg c)).

(** The environment: any deterministic machine that answers reads and
    settles awaited calls. *)
Record Env : Type := mkEnv {
  world : Type;
  on_read : forall q : query sg, world -> answer sg q * world;
  on_await : forall c : call sg, world -> result (reply sg c) * world
}.

Record Run (W A : Type) : Type := mkRun {
  outcome : Outcome A;
  final : store sg;
  after : W;
  trace : list event
}.
Arguments mkRun {W A}.
Arguments outcome {W A}.
Arguments final {W A}.
Arguments after {W A}.
Arguments trace {W A}.

(** Runs a program to its end, every awaited call being settled by the
    environment at once (no other handler is interleaved). *)
Fixpoint run {A : Type} (env : Env) (p : Prog A) (s : store sg)
    (w : world env) (tr : list event) : Run (world env) A :=
  match p with
  | Ret a => mkRun (Returned a) s w tr
  | Throw e => mkRun (Thrown e) s w tr
  | Read q k =>
      let '(a, w') := on_read env q w in
      run env (k a) s w' (tr ++ [EvRead q a])
  | Await c k =>
      let '(r, w') := on_await env c w in
      run env (k r) s w' (tr ++ [EvAwait c r])
  | GetSt k => run env (k s) s w tr
  | ModSt f k => run env k (f s) w tr
  end.

(** ** Suspension at an await

    [start] runs the synchronous prefix of a program: up to its first
    awaited call, where the function is suspended with its
    continuation.  Other handlers can run before the continuation is
    resumed with the settled value. *)
Inductive Susp (A : Type) : Type :=
| Finished (o : Outcome A)
| Pending (c : call sg) (k : result (reply sg c) -> Prog A).
Arguments Finished {A} o.
Arguments Pending {A} c k.

Fixpoint start {A : Type} (env : Env) (p : Prog A) (s : store sg)
    (w : world env) : Susp A * store sg * world env :=
  match p with
  | Ret a => (Finished (Returned a), s, w)
  | Throw e => (Finished (Thrown e), s, w)
  | Read q k =>
      let '(a, w') := on_read env q w in start env (k a) s w'
  | Await c k => (Pending c k, s, w)
  | GetSt k => start env (k s) s w
  | ModSt f k => start env k (f s) w
  end.

Definition resume {A : Type} (env : Env) {c : call sg}
    (k : result (reply sg c) -> Prog A) (r : result (reply sg c))
    (s : store sg) (w : world env) : Susp A * store sg * world env :=
  start env (k r) s w.

(** ** Handlers that interleave

    A handler suspended at an await is resumed later, in the store and
    the world that the handlers run meanwhile have left, with whatever
    the awaited call settled to.  [drive] resumes a suspended handler
    once per step, until it has ended. *)
Definition Oracle : Type := forall c : call sg, result (reply sg c).

Fixpoint drive {A : Type} (env : Env) (sp : Susp A) (s : store sg)
    (w : world env) (steps : list (Oracle * store sg * world env))
    : Susp A * store sg * world env :=
  match steps with
  | [] => (sp, s, w)
  | (settle, s2, w2) :: rest =>
      match sp with
      | Finished _ => (sp, s, w)
      | Pending c k =>
          let '(sp', s', w') := resume env k (settle c) s2 w2 in
          drive env sp' s' w' rest
      end
  end.

(** Every synchronous segment of [p], from its start or from a settled
    await to the next await or to its end, takes a store that satisfies
    [P] to one that satisfies [P]; [g] is the change made since the
    segment began. *)
Fixpoint segments {A : Type} (P : store sg -> Prop)
    (g : store sg -> store sg) (p : Prog A) : Prop :=
  match p with
  | Ret _ => forall s, P s -> P (g s)
  | Throw _ => forall s, P s -> P (g s)
  | Read q k => forall a, segments P g (k a)
  | Await c k =>
      (forall s, P s -> P (g s)) /\ forall r, segments P (fun s => s) (k r)
  | GetSt k => forall s, segments P g (k s)
  | ModSt f k => segments P (fun s => f (g s)) k
  end.

End Free.

Arguments Prog sg A : clear implicits.
Arguments Ret {sg A} a.
Arguments Throw {sg A} e.
Arguments Read {sg A} q k.
Arguments Await {sg A} c k.
Arguments GetSt {sg A} k.
Arguments ModSt {sg A} f k.
Arguments event sg : clear implicits.
Arguments Env sg : clear implicits.
Arguments mkRun {sg W A}.
Arguments outcome {sg W A}.
Arguments final {sg W A}.
Arguments after {sg W A}.
Arguments trace {sg W A}.
Arguments Finished {sg A} o.
Arguments Pending {sg A} c k.

Declare Scope prog_scope.
Delimit Scope prog_scope with prog.
Notation "x <- p ;; k" := (bind p (fun x => k))
  (at level 61, p at next level, right associativity) : prog_scope.
Notation "p ;; k" := (bind p (fun _ => k))
  (at level 61, right associativity) : prog_scope.

(* ================================================================== *)
(** * Session store model *)
(* ================================================================== *)

(** Modelled from the spec: the declaration of [StoredMessage]
    (lib/session-storage.ts) is not among the sources; section 3 gives a
    stored message record as (role, content, timestamp). *)
Record StoredMessage : Type := mkMessage {
  msg_role : string;
  msg_content : string;
  msg_timestamp : Z
}.

(** An optional property of a JavaScript object: unset, explicitly null,
    or holding a value. *)
Inductive optional (A : Type) : Type :=
| Undefined
| Null
| Defined (a : A).
Arguments Undefined {A}.
Arguments Null {A}.
Arguments Defined {A} a.

(** [x ?? y] *)
Definition nullish {A : Type} (x y : optional A) : optional A :=
  match x with
  | Defined _ => x
  | _ => y
  end.

(** [{ svg: string; xml: string }] *)
Record DiagramHistoryEntry : Type := mkHistoryEntry {
  svg : string;
  xml : string
}.

(** [ChatSession].  Its declaration is in lib/session-storage.ts, which
    is not among the sources; the fields are those the sources read and
    write, typed as in [SessionData] and in section 3 of the
    specification. *)
Record ChatSession : Type := mkSession {
  id : string;
  title : string;
  messages : list StoredMessage;
  xmlSnapshots : list (Z * string);
  diagramXml : string;
  thumbnailDataUrl : optional string;
  diagramHistory : optional (list DiagramHistoryEntry);
  createdAt : Z;
  updatedAt : Z
}.

(** [SessionMetadata], with the fields built at lines 558-567. *)
Record SessionMetadata : Type := mkMetadata {
  meta_id : string;
  meta_title : string;
  meta_createdAt : Z;
  meta_updatedAt : Z;
  meta_messageCount : Z;
  meta_hasDiagram : bool;
  meta_thumbnailDataUrl : optional string
}.

(** [SessionData] (use-session-manager.ts, lines 27-33) *)
Record SessionData : Type := mkData {
  data_messages : list StoredMessage;
  data_xmlSnapshots : list (Z * string);
  data_diagramXml : string;
  data_thumbnailDataUrl : optional string;
  data_diagramHistory : optional (list DiagramHistoryEntry)
}.

Record User : Type := mkUser { uid : string }.

(** ** JavaScript strings

    A string of the program is held as the bytes of its UTF-8 encoding,
    which is how Rocq reads a string literal; equality and emptiness are
    those of JavaScript.  [length] and [trim] work on the UTF-16 code
    units of the string (ECMA-262, 6.1.4), which [codeUnits] gives.
    Bytes that are not UTF-8 stand for no JavaScript string; each of
    them reads as U+FFFD. *)

Definition continuationByte (b : N) : bool :=
  ((128 <=? b) && (b <? 192))%N.

(** The payload of a leading byte and the number of continuation bytes
    that follow it. *)
Definition leadOf (b : N) : option (N * nat) :=
  (if b <? 128 then Some (b, 0%nat)
   else if b <? 192 then None
   else if b <? 224 then Some (b - 192, 1%nat)
   else if b <? 240 then Some (b - 224, 2%nat)
   else if b <? 248 then Some (b - 240, 3%nat)
   else None)%N.

Definition replacementCharacter : N := 65533.

(** The code points of a sequence of bytes; [acc] and [need] hold the
    code point under way and the number of bytes it still waits for. *)
Fixpoint decode (acc : N) (need : nat) (bytes : list N) : list N :=
  match bytes with
  | [] =>
      match need with
      | O => []
      | S _ => [replacementCharacter]
      end
  | b :: rest =>
      let fresh :=
        match leadOf b with
        | Some (v, O) => v :: decode 0%N 0%nat rest
        | Some (v, S n) => decode v (S n) rest
        | None => replacementCharacter :: decode 0%N 0%nat rest
        end in
      match need with
      | O => fresh
      | S n =>
          if continuationByte b then
            match n with
            | O => (acc * 64 + (b - 128))%N :: decode 0%N 0%nat rest
            | S _ => decode (acc * 64 + (b - 128))%N n rest
            end
          else replacementCharacter :: fresh
      end
  end.

(** A code point above U+FFFF is a pair of surrogates. *)
Definition unitsOf (codePoint : N) : list N :=
  (if codePoint <? 65536 then [codePoint]
   else [55296 + (codePoint - 65536) / 1024;
         56320 + (codePoint - 65536) mod 1024])%N.

Definition codeUnits (s : string) : list N :=
  flat_map unitsOf
    (decode 0%N 0%nat (map N_of_ascii (list_ascii_of_string s))).

(** The code units removed by [String.prototype.trim] (ECMA-262, 12.2
    and 12.3): the white space TAB, VT, FF, SP, NBSP, ZWNBSP (U+FEFF) and
    the space separators U+1680, U+2000 to U+200A, U+202F, U+205F and
    U+3000, and the line terminators LF, CR, U+2028 and U+2029. *)
Definition isWhiteSpace (u : N) : bool :=
  (((9 <=? u) && (u <=? 13)) || (u =? 32) || (u =? 160) || (u =? 5760)
   || ((8192 <=? u) && (u <=? 8202)) || (u =? 8232) || (u =? 8233)
   || (u =? 8239) || (u =? 8287) || (u =? 12288) || (u =? 65279))%N.

Fixpoint trimStart (s : list N) : list N :=
  match s with
  | [] => []
  | u :: rest => if isWhiteSpace u then trimStart rest else s
  end.

(** [s.trim ()], on code units *)
Definition trim (s : list N) : list N :=
  rev (trimStart (rev (trimStart s))).

(** [.length] of a sequence of code units *)
Definition unitsLength (s : list N) : Z := Z.of_nat (length s).

(** [s.length] *)
Definition js_length (s : string) : Z := unitsLength (codeUnits s).

(** [!!diagramXml && diagramXml.trim().length > 0] *)
Definition hasDiagramOf (diagramXml : string) : bool :=
  negb (String.eqb diagramXml "")
  && (0 <? unitsLength (trim (codeUnits diagramXml))).

(** [a === b] on [string | null] *)
Definition eqId (a b : option string) : bool :=
  match a, b with
  | Some x, Some y => String.eqb x y
  | None, None => true
  | _, _ => false
  end.

(** Truthiness of [string | null | undefined]: the empty string is
    falsy. *)
Definition truthy (s : option string) : option string :=
  match s with
  | Some x => if String.eqb x "" then None else Some x
  | None => None
  end.

(* ================================================================== *)
(** * Session lifecycle controller (hooks/use-session-manager.ts) *)
(* ================================================================== *)

Module Hook.

(** ** State *)

(** The [useState] cells. *)
Record HookState : Type := mkHookState {
  sessions : list SessionMetadata;
  currentSessionId : option string;
  currentSession : option ChatSession;
  isLoading : bool;
  isAvailable : bool
}.

(** The [useRef] cells. *)
Record Refs : Type := mkRefs {
  isInitializedRef : bool;
  urlChangeSequenceRef : Z
}.

Record Machine : Type := mkMachine {
  hook : HookState;
  refs : Refs
}.

(** What a callback closes over: the values of the render that created
    it.  State setters act on the live state, reads of state variables
    see [seen]. *)
Record Closure : Type := mkClosure {
  initialSessionId : option string;
  user : option User;
  seen : HookState
}.

(** The callbacks handed out by the render of machine state [m]. *)
Definition render (initialSessionId : option string) (user : option User)
    (m : Machine) : Closure :=
  mkClosure initialSessionId user (hook m).

(** ** Effects *)

(** Synchronous reads: globals of the page and the synchronous exports of
    lib/session-storage.ts (not among the sources). *)
Inductive query : Type :=
| AuthCurrentUser                                  (* !!auth.currentUser *)
| DateNow                                          (* Date.now() *)
| IsIndexedDBAvailable
| CreateEmptySession
| ExtractTitle (messages : list StoredMessage)
| ConsoleError (text : string).

Definition answer (q : query) : Type :=
  match q with
  | AuthCurrentUser => bool
  | DateNow => Z
  | IsIndexedDBAvailable => bool
  | CreateEmptySession => ChatSession
  | ExtractTitle _ => string
  | ConsoleError _ => unit
  end.

(** Awaited calls: the remote adapter (lib/firestore-service.ts) and the
    local adapter (lib/session-storage.ts, not among the sources).  The
    controller sees both through their TypeScript signatures; the bodies
    of the remote adapter, down to the cast [as ChatSession], are embedded
    in module [Firestore] below. *)
Inductive call : Type :=
| SaveSessionToFirestore (userId : string) (session : ChatSession)
| GetSessionFromFirestore (userId sessionId : string)
| GetSessionsMetadataFromFirestore (userId : string)
| DeleteSessionFromFirestore (userId sessionId : string)
| SaveSession (session : ChatSession)
| GetSession (sessionId : string)
| DeleteSessionFromDB (sessionId : string)
| GetAllSessionMetadata
| EnforceSessionLimit
| MigrateFromLocalStorage.

Definition reply (c : call) : Type :=
  match c with
  | SaveSessionToFirestore _ _ => unit
  | GetSessionFromFirestore _ _ => option ChatSession
  | GetSessionsMetadataFromFirestore _ => list SessionMetadata
  | DeleteSessionFromFirestore _ _ => unit
  | SaveSession _ => unit
  | GetSession _ => option ChatSession
  | DeleteSessionFromDB _ => unit
  | GetAllSessionMetadata => list SessionMetadata
  | EnforceSessionLimit => unit
  | MigrateFromLocalStorage => unit
  end.

Definition sg : Sig := mkSig query answer call reply Machine.

Definition M (A : Type) : Type := Prog sg A.

Local Open Scope prog_scope.

Definition ask (q : query) : M (answer q) := read (sg := sg) q.
Definition awaiting (c : call) : M (reply c) := await (sg := sg) c.
Definition getMachine : M Machine := getSt (sg := sg).
Definition update (f : Machine -> Machine) : M unit := modSt (sg := sg) f.

(** ** State setters *)

Definition withHook (f : HookState -> HookState) (m : Machine) : Machine :=
  mkMachine (f (hook m)) (refs m).

Definition setSessions (v : list SessionMetadata) : M unit :=
  update (withHook (fun h =>
    mkHookState v (currentSessionId h) (currentSession h)
                (isLoading h) (isAvailable h))).

Definition updateSessions
    (f : list SessionMetadata -> list SessionMetadata) : M unit :=
  update (withHook (fun h =>
    mkHookState (f (sessions h)) (currentSessionId h) (currentSession h)
                (isLoading h) (isAvailable h))).

Definition putCurrentSessionId (v : option string) (h : HookState)
    : HookState :=
  mkHookState (sessions h) v (currentSession h) (isLoading h)
              (isAvailable h).

Definition putCurrentSession (v : option ChatSession) (h : HookState)
    : HookState :=
  mkHookState (sessions h) (currentSessionId h) v (isLoading h)
              (isAvailable h).

Definition setCurrentSessionId (v : option string) : M unit :=
  update (withHook (putCurrentSessionId v)).

Definition setCurrentSession (v : option ChatSession) : M unit :=
  update (withHook (putCurrentSession v)).

(** ** Backend selection and error classification *)

(** [user && auth.currentUser]: the uid when a trusted identity is
    present.  [auth.currentUser] is read at the moment of the test. *)
Definition trustedIdentity (cl : Closure) : M (option string) :=
  match user cl with
  | None => Ret None
  | Some u =>
      live <- ask AuthCurrentUser ;;
      Ret (if live then Some (uid u) else None)
  end.

(** [try { p } catch (e) { if (e?.code !== "permission-denied") throw e }],
    the variable assigned in the body keeping its initial value [dflt]
    when the error is swallowed. *)
Definition ignorePermissionDenied {A : Type} (p : M A) (dflt : A) : M A :=
  try_catch p (fun e => if isPermissionDenied e then Ret dflt else Throw e).

(** ** refreshSessions (lines 80-95) *)

Definition refreshSessions (cl : Closure) : M unit :=
  try_catch
    (who <- trustedIdentity cl ;;
     match who with
     | Some userId =>
         metadata <- awaiting (GetSessionsMetadataFromFirestore userId) ;;
         setSessions metadata
     | None =>
         available <- ask IsIndexedDBAvailable ;;
         if available then
           metadata <- awaiting GetAllSessionMetadata ;;
           setSessions metadata
         else Ret tt
     end)
    (fun error =>
       if isPermissionDenied error then Ret tt
       else ask (ConsoleError "Failed to refresh sessions:")).

(** ** Reaction to a change of the desired session id (lines 178-227) *)

(** The target session of a load, from the active backend:
    [getSessionFromFirestore] under [ignorePermissionDenied] when a
    trusted identity is present, [getSession] otherwise. *)
Definition loadSession (cl : Closure) (sessionId : string)
    : M (option ChatSession) :=
  who <- trustedIdentity cl ;;
  match who with
  | Some userId =>
      ignorePermissionDenied
        (awaiting (GetSessionFromFirestore userId sessionId)) None
  | None => awaiting (GetSession sessionId)
  end.

(** The functional update of lines 212-218: the id and the session are
    replaced together, and only when the loaded id differs. *)
Definition adoptIfDifferent (session : ChatSession) (h : HookState)
    : HookState :=
  if negb (eqId (currentSessionId h) (Some (id session))) then
    putCurrentSessionId (Some (id session))
      (putCurrentSession (Some session) h)
  else h.

Definition handleSessionIdChange (cl : Closure) (currentSequence : Z)
    : M unit :=
  match truthy (initialSessionId cl) with
  | Some sessionId =>
      session <- loadSession cl sessionId ;;
      m <- getMachine ;;
      if negb (currentSequence =? urlChangeSequenceRef (refs m)) then Ret tt
      else
        match session with
        | Some session => update (withHook (adoptIfDifferent session))
        | None => Ret tt
        end
  | None => Ret tt
  end.

Definition bumpSequence (m : Machine) : Machine :=
  mkMachine (hook m)
    (mkRefs (isInitializedRef (refs m)) (urlChangeSequenceRef (refs m) + 1)).

(** The effect body.  [handleSessionIdChange ()] is started and not
    awaited; an error thrown by it is an unhandled rejection. *)
Definition urlChangeEffect (cl : Closure) : M unit :=
  m <- getMachine ;;
  if negb (isInitializedRef (refs m)) then Ret tt
  else if negb (isAvailable (seen cl)) then Ret tt
  else
    update bumpSequence ;;
    m' <- getMachine ;;
    let currentSequence := urlChangeSequenceRef (refs m') in
    handleSessionIdChange cl currentSequence.

(** ** switchSession (lines 239-290) *)

(** [await saveSessionToFirestore (...)] under [ignorePermissionDenied],
    or [await saveSession (...)]. *)
Definition persist (cl : Closure) (session : ChatSession) : M unit :=
  who <- trustedIdentity cl ;;
  match who with
  | Some userId =>
      ignorePermissionDenied
        (awaiting (SaveSessionToFirestore userId session)) tt
  | None => awaiting (SaveSession session)
  end.

Definition projection (session : ChatSession) : SessionData :=
  mkData (messages session) (xmlSnapshots session) (diagramXml session)
         (thumbnailDataUrl session) (diagramHistory session).

Definition switchSession (cl : Closure) (target : string)
    : M (option SessionData) :=
  if eqId (Some target) (currentSessionId (seen cl)) then Ret None
  else
    match currentSession (seen cl) with
    | Some current =>
        if 0 <? Z.of_nat (length (messages current)) then persist cl current
        else Ret tt
    | None => Ret tt
    end ;;
    session <- loadSession cl target ;;
    match session with
    | None => ask (ConsoleError "Session not found:") ;; Ret None
    | Some session =>
        setCurrentSession (Some session) ;;
        setCurrentSessionId (Some (id session)) ;;
        Ret (Some (projection session))
    end.

(** ** deleteSession (lines 293-318) *)

Record DeleteResult : Type := mkDeleteResult { wasCurrentSession : bool }.

Definition deleteSession (cl : Closure) (target : string)
    : M DeleteResult :=
  let wasCurrent := eqId (Some target) (currentSessionId (seen cl)) in
  who <- trustedIdentity cl ;;
  match who with
  | Some userId =>
      ignorePermissionDenied
        (awaiting (DeleteSessionFromFirestore userId target)) tt
  | None => awaiting (DeleteSessionFromDB target)
  end ;;
  (if wasCurrent then
     setCurrentSession None ;; setCurrentSessionId None
   else Ret tt) ;;
  refreshSessions cl ;;
  Ret (mkDeleteResult wasCurrent).

(** ** saveCurrentSession (lines 322-416) *)

(** The entry of the metadata list rewritten in place (lines 398-413). *)
Definition patchMetadata (updated : ChatSession) (s : SessionMetadata)
    : SessionMetadata :=
  if String.eqb (meta_id s) (id updated) then
    mkMetadata (meta_id s) (title updated) (meta_createdAt s)
      (updatedAt updated) (Z.of_nat (length (messages updated)))
      (hasDiagramOf (diagramXml updated)) (thumbnailDataUrl updated)
  else s.

(** [forSessionId !== undefined && forSessionId !== currentSessionId];
    the outer [option] is [undefined]. *)
Definition staleTarget (forSessionId : option (option string))
    (cl : Closure) : bool :=
  match forSessionId with
  | None => false
  | Some x => negb (eqId x (currentSessionId (seen cl)))
  end.

Definition saveCurrentSession (cl : Closure) (data : SessionData)
    (forSessionId : option (option string)) : M unit :=
  if staleTarget forSessionId cl then Ret tt
  else
    match currentSession (seen cl) with
    | None =>
        template <- ask CreateEmptySession ;;
        derived <- ask (ExtractTitle (data_messages data)) ;;
        let newSession :=
          mkSession (id template) derived (data_messages data)
            (data_xmlSnapshots data) (data_diagramXml data)
            (data_thumbnailDataUrl data) (data_diagramHistory data)
            (createdAt template) (updatedAt template) in
        who <- trustedIdentity cl ;;
        match who with
        | Some userId =>
            ignorePermissionDenied
              (awaiting (SaveSessionToFirestore userId newSession)) tt
        | None =>
            awaiting (SaveSession newSession) ;;
            awaiting EnforceSessionLimit
        end ;;
        setCurrentSession (Some newSession) ;;
        setCurrentSessionId (Some (id newSession)) ;;
        refreshSessions cl
    | Some current =>
        now <- ask DateNow ;;
        newTitle <-
          (if String.eqb (title current) "New Chat"
              && (0 <? Z.of_nat (length (data_messages data)))
           then ask (ExtractTitle (data_messages data))
           else Ret (title current)) ;;
        let updatedSession :=
          mkSession (id current) newTitle (data_messages data)
            (data_xmlSnapshots data) (data_diagramXml data)
            (nullish (data_thumbnailDataUrl data) (thumbnailDataUrl current))
            (nullish (data_diagramHistory data) (diagramHistory current))
            (createdAt current) now in
        persist cl updatedSession ;;
        setCurrentSession (Some updatedSession) ;;
        updateSessions (map (patchMetadata updatedSession))
    end.

(** ** clearCurrentSession (lines 419-422) *)

Definition clearCurrentSession : M unit :=
  setCurrentSession None ;; setCurrentSessionId None.

(** ** Observations on a run *)

(** The awaited calls of a trace, in the order they were made. *)
Definition awaited (tr : list (event sg)) : list call :=
  flat_map (fun ev : event sg =>
    match ev with
    | EvAwait c _ => [c]
    | EvRead _ _ => []
    end) tr.

(** The backend that [user && auth.currentUser] selects in world [w]:
    the remote one for [Some uid], the local one for [None]. *)
Definition backendAt (env : Env sg) (cl : Closure) (w : world env)
    : option string * world env :=
  match user cl with
  | None => (None, w)
  | Some u =>
      let '(live, w') := on_read env AuthCurrentUser w in
      (if live then Some (uid u) else None, w')
  end.

Definition saveCall (backend : option string) (session : ChatSession)
    : call :=
  match backend with
  | Some userId => SaveSessionToFirestore userId session
  | None => SaveSession session
  end.

Definition loadCall (backend : option string) (sessionId : string) : call :=
  match backend with
  | Some userId => GetSessionFromFirestore userId sessionId
  | None => GetSession sessionId
  end.

Definition deleteCall (backend : option string) (sessionId : string)
    : call :=
  match backend with
  | Some userId => DeleteSessionFromFirestore userId sessionId
  | None => DeleteSessionFromDB sessionId
  end.

(** The session a save call hands to its backend. *)
Definition savedBy (c : call) : option ChatSession :=
  match c with
  | SaveSessionToFirestore _ session => Some session
  | SaveSession session => Some session
  | _ => None
  end.

Definition isSave (c : call) : bool :=
  match savedBy c with
  | Some _ => true
  | None => false
  end.

(** A settled load, typed for the backend it was issued to. *)
Definition loadReply (backend : option string) (sessionId : string)
    (r : result (option ChatSession))
    : result (reply (loadCall backend sessionId)) :=
  match backend return result (reply (loadCall backend sessionId)) with
  | Some _ => r
  | None => r
  end.

(** The titles derived during a run: the arguments and results of the
    calls of [extractTitle]. *)
Definition derivedTitles (tr : list (event sg))
    : list (list StoredMessage * string) :=
  flat_map (fun ev : event sg =>
    match ev with
    | EvRead q a =>
        match q as q0
              return answer q0 -> list (list StoredMessage * string) with
        | ExtractTitle ms => fun t => [(ms, t)]
        | _ => fun _ => []
        end a
    | EvAwait _ _ => []
    end) tr.

(** Successive calls of [saveCurrentSession], each made through the
    callback of the render that follows the previous call. *)
Fixpoint saveRepeatedly (env : Env sg) (initial : option string)
    (who : option User)
    (saves : list (SessionData * option (option string)))
    (m : Machine) (w : world env) : Machine * world env :=
  match saves with
  | [] => (m, w)
  | (data, forSessionId) :: rest =>
      let r := run env
                 (saveCurrentSession (render initial who m) data forSessionId)
                 m w [] in
      saveRepeatedly env initial who rest (final r) (after r)
  end.

(** The rejected calls of a trace, each with the error it was rejected
    with, in the order they settled. *)
Definition rejections (tr : list (event sg)) : list (call * ThrownError) :=
  flat_map (fun ev : event sg =>
    match ev with
    | EvAwait c (Err e) => [(c, e)]
    | _ => []
    end) tr.

(** The calls of the remote adapter. *)
Definition isRemote (c : call) : bool :=
  match c with
  | SaveSessionToFirestore _ _ | GetSessionFromFirestore _ _
  | GetSessionsMetadataFromFirestore _ | DeleteSessionFromFirestore _ _ =>
      true
  | _ => false
  end.

(** The two calls that list the metadata. *)
Definition isList (c : call) : bool :=
  match c with
  | GetSessionsMetadataFromFirestore _ | GetAllSessionMetadata => true
  | _ => false
  end.

(** The metadata list that the last accepted list call of a trace
    answered, if there is one. *)
Definition listed (tr : list (event sg)) : option (list SessionMetadata) :=
  fold_left (fun (acc : option (list SessionMetadata)) (ev : event sg) =>
    match ev with
    | EvAwait c r =>
        match c as c0
              return result (reply c0) -> option (list SessionMetadata) with
        | GetSessionsMetadataFromFirestore _ =>
            fun r => match r with Ok l => Some l | Err _ => acc end
        | GetAllSessionMetadata =>
            fun r => match r with Ok l => Some l | Err _ => acc end
        | _ => fun _ => acc
        end r
    | EvRead _ _ => acc
    end) tr None.

End Hook.

(* ================================================================== *)
(** * Remote backend adapter (lib/firestore-service.ts) *)
(* ================================================================== *)

Module Firestore.

(** ** JavaScript values, as far as documents hold them *)

#[local] Unset Elimination Schemes.
Inductive jsval : Type :=
| JUndefined
| JNull
| JBool (b : bool)
| JNum (n : Z)
| JStr (s : string)
| JArr (items : list jsval)
| JObj (props : list (string * jsval)).
#[local] Set Elimination Schemes.

Definition object : Type := list (string * jsval).

(** [o.k]; a property that is not set reads as [undefined]. *)
Fixpoint getProp (o : object) (k : string) : jsval :=
  match o with
  | [] => JUndefined
  | (k', v) :: rest => if String.eqb k' k then v else getProp rest k
  end.

(** [{ ...o, k: v }] *)
Fixpoint setProp (k : string) (v : jsval) (o : object) : object :=
  match o with
  | [] => [(k, v)]
  | (k', v') :: rest =>
      if String.eqb k' k then (k, v) :: rest
      else (k', v') :: setProp k v rest
  end.

(** [{ ...a, ...b }] *)
Definition spread (a b : object) : object :=
  fold_left (fun acc kv => setProp (fst kv) (snd kv) acc) b a.

(** [v ?? null] *)
Definition orNull (v : jsval) : jsval :=
  match v with
  | JUndefined => JNull
  | _ => v
  end.

(** [!!v] *)
Definition truthyJs (v : jsval) : bool :=
  match v with
  | JUndefined | JNull => false
  | JBool b => b
  | JNum n => negb (n =? 0)
  | JStr s => negb (String.eqb s "")
  | JArr _ | JObj _ => true
  end.

(** [sanitizeForFirestore] (lines 452-469) *)
Fixpoint sanitizeForFirestore (obj : jsval) : jsval :=
  match obj with
  | JUndefined => JNull
  | JNull | JBool _ | JNum _ | JStr _ => obj
  | JArr items => JArr (map sanitizeForFirestore items)
  | JObj props =>
      JObj (map (fun kv => (fst kv, sanitizeForFirestore (snd kv))) props)
  end.

(** ** A ChatSession as the object it is at run time *)

Definition js_of_optional {A : Type} (f : A -> jsval) (o : optional A)
    : jsval :=
  match o with
  | Undefined => JUndefined
  | Null => JNull
  | Defined a => f a
  end.

Definition js_of_message (m : StoredMessage) : jsval :=
  JObj [("role", JStr (msg_role m)); ("content", JStr (msg_content m));
        ("timestamp", JNum (msg_timestamp m))].

(** [[number, string]] *)
Definition js_of_tuple (p : Z * string) : jsval :=
  JArr [JNum (fst p); JStr (snd p)].

Definition js_of_historyEntry (e : DiagramHistoryEntry) : jsval :=
  JObj [("svg", JStr (svg e)); ("xml", JStr (xml e))].

Definition js_of_messages (ms : list StoredMessage) : jsval :=
  JArr (map js_of_message ms).

Definition js_of_snapshots (xs : list (Z * string)) : jsval :=
  JArr (map js_of_tuple xs).

(** [const { id, xmlSnapshots, ...rest } = session]: the rest. *)
Definition restOf (session : ChatSession) : object :=
  [("title", JStr (title session));
   ("messages", js_of_messages (messages session));
   ("diagramXml", JStr (diagramXml session));
   ("thumbnailDataUrl", js_of_optional JStr (thumbnailDataUrl session));
   ("diagramHistory",
     js_of_optional (fun h => JArr (map js_of_historyEntry h))
       (diagramHistory session));
   ("createdAt", JNum (createdAt session));
   ("updatedAt", JNum (updatedAt session))].

(** ** Effects: the Firestore SDK *)

Inductive query : Type :=
| DateNow
| ConsoleLog (text : string)
| ConsoleError (text : string).

Definition answer (q : query) : Type :=
  match q with
  | DateNow => Z
  | ConsoleLog _ | ConsoleError _ => unit
  end.

(** Calls on the document [drawio/userId/sessions/sessionId] and on the
    collection [drawio/userId/sessions].  [GetDoc] answers [None] when
    [docSnap.exists ()] is false and the document data otherwise;
    [GetDocs] answers the documents (id and data) in the order of the
    query. *)
Inductive call : Type :=
| SetDoc (userId sessionId : string) (data : jsval)
| GetDoc (userId sessionId : string)
| GetDocs (userId : string)
| DeleteDoc (userId sessionId : string).

Definition reply (c : call) : Type :=
  match c with
  | SetDoc _ _ _ => unit
  | GetDoc _ _ => option object
  | GetDocs _ => list (string * object)
  | DeleteDoc _ _ => unit
  end.

Definition sg : Sig := mkSig query answer call reply unit.

Definition M (A : Type) : Type := Prog sg A.

Definition ask (q : query) : M (answer q) := read (sg := sg) q.
Definition awaiting (c : call) : M (reply c) := await (sg := sg) c.

Local Open Scope prog_scope.

(** A [TypeError] raised by the JavaScript runtime. *)
Definition typeError (text : string) : ThrownError := mkError None text.

(** ** saveSessionToFirestore (lines 471-509) *)

(** [xmlSnapshots.map (([ts, xml]) => ({ ts, xml }))] *)
Definition serializeSnapshots (xmlSnapshots : list (Z * string))
    : list jsval :=
  map (fun '(ts, xml) => JObj [("ts", JNum ts); ("xml", JStr xml)])
      xmlSnapshots.

Definition sessionDataOf (userId : string) (session : ChatSession)
    (now : Z) : object :=
  let rest := restOf session in
  setProp "updatedAt" (JNum now)
    (setProp "xmlSnapshots" (JArr (serializeSnapshots (xmlSnapshots session)))
      (setProp "diagramHistory" (orNull (getProp rest "diagramHistory"))
        (setProp "thumbnailDataUrl" (orNull (getProp rest "thumbnailDataUrl"))
          (setProp "userId" (JStr userId) rest)))).

Definition saveSessionToFirestore (userId : string) (session : ChatSession)
    : M unit :=
  try_catch
    (now <- ask DateNow ;;
     let sessionData := sessionDataOf userId session now in
     awaiting (SetDoc userId (id session)
                 (sanitizeForFirestore (JObj sessionData))) ;;
     ask (ConsoleLog "[Firestore] Session saved"))
    (fun error =>
       ask (ConsoleError "Error saving session to Firestore:") ;;
       Throw error).

(** ** getSessionFromFirestore (lines 511-545) *)

(** [item.ts], [item.xml]: reading a property of [undefined] or [null]
    throws; a primitive has no such property. *)
Definition propOf (item : jsval) (k : string) : result jsval :=
  match item with
  | JUndefined | JNull => Err (typeError "Cannot read properties")
  | JObj props => Ok (getProp props k)
  | _ => Ok JUndefined
  end.

(** [items.map ((item) => [item.ts, item.xml])] *)
Fixpoint toTuples (items : list jsval) : result (list jsval) :=
  match items with
  | [] => Ok []
  | item :: rest =>
      match propOf item "ts", propOf item "xml" with
      | Ok ts, Ok xml =>
          match toTuples rest with
          | Ok tuples => Ok (JArr [ts; xml] :: tuples)
          | Err e => Err e
          end
      | Err e, _ => Err e
      | _, Err e => Err e
      end
  end.

(** [(data.xmlSnapshots || []).map (...)]: only an array has [map]. *)
Definition deserializeSnapshots (data : object) : result (list jsval) :=
  let v := getProp data "xmlSnapshots" in
  if truthyJs v then
    match v with
    | JArr items => toTuples items
    | _ => Err (typeError "map is not a function")
    end
  else Ok [].

Definition lift {A : Type} (r : result A) : M A :=
  match r with
  | Ok a => Ret a
  | Err e => Throw e
  end.

Definition getSessionFromFirestore (userId sessionId : string)
    : M (option object) :=
  try_catch
    (docSnap <- awaiting (GetDoc userId sessionId) ;;
     match docSnap with
     | Some data =>
         xmlSnapshots <- lift (deserializeSnapshots data) ;;
         Ret (Some (setProp "xmlSnapshots" (JArr xmlSnapshots)
                      (spread [("id", JStr sessionId)] data)))
     | None => Ret None
     end)
    (fun error =>
       ask (ConsoleError "Error getting session from Firestore:") ;;
       Ret None).

(** ** getSessionsMetadataFromFirestore (lines 547-574) *)

(** [data.messages?.length || 0] *)
Definition messageCountOf (data : object) : jsval :=
  let len :=
    match getProp data "messages" with
    | JArr items => JNum (Z.of_nat (length items))
    | JStr s => JNum (js_length s)
    | JObj props => getProp props "length"
    | _ => JUndefined
    end in
  if truthyJs len then len else JNum 0.

(** [!!data.diagramXml && data.diagramXml.trim ().length > 0]: only a
    string has [trim]. *)
Definition hasDiagramJs (data : object) : result jsval :=
  let v := getProp data "diagramXml" in
  if truthyJs v then
    match v with
    | JStr s => Ok (JBool (0 <? unitsLength (trim (codeUnits s))))
    | _ => Err (typeError "trim is not a function")
    end
  else Ok (JBool false).

Definition metadataOf (doc : string * object) : result jsval :=
  let '(docId, data) := doc in
  match hasDiagramJs data with
  | Ok hasDiagram =>
      Ok (JObj [("id", JStr docId);
                ("title", getProp data "title");
                ("createdAt", getProp data "createdAt");
                ("updatedAt", getProp data "updatedAt");
                ("messageCount", messageCountOf data);
                ("hasDiagram", hasDiagram);
                ("thumbnailDataUrl", getProp data "thumbnailDataUrl")])
  | Err e => Err e
  end.

(** [querySnapshot.forEach ((doc) => sessions.push (...))] *)
Fixpoint collectMetadata (docs : list (string * object))
    : result (list jsval) :=
  match docs with
  | [] => Ok []
  | doc :: rest =>
      match metadataOf doc with
      | Ok m =>
          match collectMetadata rest with
          | Ok ms => Ok (m :: ms)
          | Err e => Err e
          end
      | Err e => Err e
      end
  end.

Definition getSessionsMetadataFromFirestore (userId : string)
    : M (list jsval) :=
  try_catch
    (querySnapshot <- awaiting (GetDocs userId) ;;
     lift (collectMetadata querySnapshot))
    (fun error =>
       ask (ConsoleError "Error getting sessions metadata from Firestore:") ;;
       Ret []).

(** ** deleteSessionFromFirestore (lines 576-593) *)

Definition deleteSessionFromFirestore (userId sessionId : string)
    : M unit :=
  try_catch
    (awaiting (DeleteDoc userId sessionId))
    (fun error =>
       ask (ConsoleError "Error deleting session from Firestore:") ;;
       Throw error).

(** ** A document store

    The remote primitive of section 6 as an environment: a store of
    documents by path that gives back on [getDoc] what [setDoc] last
    wrote there.  As the transport does, [setDoc] refuses data holding
    [undefined] or an array directly inside an array. *)

Fixpoint holdsUndefined (v : jsval) : bool :=
  match v with
  | JUndefined => true
  | JArr items => existsb holdsUndefined items
  | JObj props => existsb (fun kv => holdsUndefined (snd kv)) props
  | _ => false
  end.

Definition isArray (v : jsval) : bool :=
  match v with
  | JArr _ => true
  | _ => false
  end.

Fixpoint holdsNestedArray (v : jsval) : bool :=
  match v with
  | JArr items => existsb isArray items || existsb holdsNestedArray items
  | JObj props => existsb (fun kv => holdsNestedArray (snd kv)) props
  | _ => false
  end.

Record Store : Type := mkStore {
  docs : list ((string * string) * object);
  clock : Z
}.

Definition samePath (p q : string * string) : bool :=
  String.eqb (fst p) (fst q) && String.eqb (snd p) (snd q).

Definition withoutDoc (path : string * string)
    (ds : list ((string * string) * object))
    : list ((string * string) * object) :=
  filter (fun d => negb (samePath (fst d) path)) ds.

Definition findDoc (path : string * string)
    (ds : list ((string * string) * object)) : option object :=
  match find (fun d => samePath (fst d) path) ds with
  | Some d => Some (snd d)
  | None => None
  end.

(** [orderBy ("updatedAt", "desc")] keeps the documents that have the
    field and sorts them on it. *)
Definition updatedAtOf (data : object) : option Z :=
  match getProp data "updatedAt" with
  | JNum n => Some n
  | _ => None
  end.

Fixpoint insertDesc (d : Z * (string * object))
    (sorted : list (Z * (string * object))) : list (Z * (string * object)) :=
  match sorted with
  | [] => [d]
  | d' :: rest =>
      if fst d' <? fst d then d :: sorted else d' :: insertDesc d rest
  end.

Definition collectionOf (userId : string)
    (ds : list ((string * string) * object)) : list (string * object) :=
  let mine :=
    flat_map (fun d =>
      if String.eqb (fst (fst d)) userId then
        match updatedAtOf (snd d) with
        | Some t => [(t, (snd (fst d), snd d))]
        | None => []
        end
      else []) ds in
  map snd (fold_right insertDesc [] mine).

Definition storeRead (q : query) (w : Store) : answer q * Store :=
  match q return answer q * Store with
  | DateNow => (clock w, w)
  | ConsoleLog _ => (tt, w)
  | ConsoleError _ => (tt, w)
  end.

Definition storeAwait (c : call) (w : Store) : result (reply c) * Store :=
  match c return result (reply c) * Store with
  | SetDoc userId sessionId data =>
      match data with
      | JObj props =>
          if holdsUndefined data || holdsNestedArray data then
            (Err (mkError (Some "invalid-argument") "Unsupported field value"),
             w)
          else
            (Ok tt,
             mkStore (((userId, sessionId), props)
                        :: withoutDoc (userId, sessionId) (docs w))
                     (clock w))
      | _ =>
          (Err (mkError (Some "invalid-argument") "Data must be an object"), w)
      end
  | GetDoc userId sessionId => (Ok (findDoc (userId, sessionId) (docs w)), w)
  | GetDocs userId => (Ok (collectionOf userId (docs w)), w)
  | DeleteDoc userId sessionId =>
      (Ok tt, mkStore (withoutDoc (userId, sessionId) (docs w)) (clock w))
  end.

Definition storeEnv : Env sg := @mkEnv sg Store storeRead storeAwait.

(** ** A backend that rejects every call *)

Definition brokenRead (q : query) (w : unit) : answer q * unit :=
  match q return answer q * unit with
  | DateNow => (0, w)
  | ConsoleLog _ => (tt, w)
  | ConsoleError _ => (tt, w)
  end.

Definition brokenEnv (e : ThrownError) : Env sg :=
  @mkEnv sg unit brokenRead (fun c w => (Err e, w)).

End Firestore.

(* ================================================================== *)
(** * Environments used in the examples *)
(* ================================================================== *)

Module Scripted.
Import Hook.

(** A stateless environment of the controller: fixed answers to the
    reads, and one settlement per call. *)
Record Script : Type := mkScript {
  live : bool;
  time : Z;
  indexedDB : bool;
  template : ChatSession;
  titleOf : list StoredMessage -> string;
  settle : forall c : call, result (reply c)
}.

Definition scriptRead (sc : Script) (q : query) (w : unit)
    : answer q * unit :=
  match q return answer q * unit with
  | AuthCurrentUser => (live sc, w)
  | DateNow => (time sc, w)
  | IsIndexedDBAvailable => (indexedDB sc, w)
  | CreateEmptySession => (template sc, w)
  | ExtractTitle ms => (titleOf sc ms, w)
  | ConsoleError _ => (tt, w)
  end.

Definition scriptEnv (sc : Script) : Env sg :=
  @mkEnv sg unit (scriptRead sc) (fun c w => (settle sc c, w)).

(** Every backend call succeeds and finds nothing. *)
Definition allFine (c : call) : result (reply c) :=
  match c return result (reply c) with
  | SaveSessionToFirestore _ _ => Ok tt
  | GetSessionFromFirestore _ _ => Ok None
  | GetSessionsMetadataFromFirestore _ => Ok []
  | DeleteSessionFromFirestore _ _ => Ok tt
  | SaveSession _ => Ok tt
  | GetSession _ => Ok None
  | DeleteSessionFromDB _ => Ok tt
  | GetAllSessionMetadata => Ok []
  | EnforceSessionLimit => Ok tt
  | MigrateFromLocalStorage => Ok tt
  end.

(** Every backend call is rejected with the error [e]. *)
Definition allFail (e : ThrownError) (c : call) : result (reply c) :=
  Err e.

Definition firstContent (ms : list StoredMessage) : string :=
  match ms with
  | [] => "New Chat"
  | m :: _ => msg_content m
  end.

Definition emptySession : ChatSession :=
  mkSession "fresh" "New Chat" [] [] "" Undefined Undefined 10 10.

Definition calm : Script :=
  mkScript true 50 true emptySession firstContent allFine.

Definition offline (e : ThrownError) : Script :=
  mkScript true 50 true emptySession firstContent (allFail e).

Definition hello : StoredMessage := mkMessage "user" "hello" 1.

Definition sessionA : ChatSession :=
  mkSession "a" "Diagram of A" [hello] [(1, "<a/>")] "<a/>" Undefined
    Undefined 100 100.

Definition dataOne : SessionData :=
  mkData [hello; hello] [(2, "<b/>")] "<b/>" Undefined Undefined.

Definition metaA : SessionMetadata :=
  mkMetadata "a" "Diagram of A" 100 100 1 true Undefined.

Definition blank : Machine :=
  mkMachine (mkHookState [] None None false true) (mkRefs true 0).

Definition loadedA : Machine :=
  mkMachine (mkHookState [metaA] (Some "a") (Some sessionA) false true)
            (mkRefs true 0).

Definition alice : User := mkUser "alice".

Definition permissionDenied : ThrownError :=
  mkError (Some "permission-denied") "Missing or insufficient permissions.".

Definition unavailable : ThrownError :=
  mkError (Some "unavailable") "The service is currently unavailable.".

(** A remote backend that keeps the sessions it accepted and lists
    them; while [writable] is false it rejects every write with
    permission-denied.  The local backend accepts everything and holds
    nothing. *)
Record Remote : Type := mkRemote {
  kept : list ChatSession;
  writable : bool
}.

Definition entryOf (s : ChatSession) : SessionMetadata :=
  mkMetadata (id s) (title s) (createdAt s) (updatedAt s)
    (Z.of_nat (length (messages s))) (hasDiagramOf (diagramXml s))
    (thumbnailDataUrl s).

Definition without (sessionId : string) (l : list ChatSession)
    : list ChatSession :=
  filter (fun s => negb (String.eqb (id s) sessionId)) l.

Definition remoteAwait (c : call) (w : Remote) : result (reply c) * Remote :=
  match c return result (reply c) * Remote with
  | SaveSessionToFirestore _ s =>
      if writable w
      then (Ok tt, mkRemote (s :: without (id s) (kept w)) true)
      else (Err permissionDenied, w)
  | GetSessionFromFirestore _ sessionId =>
      (Ok (find (fun s => String.eqb (id s) sessionId) (kept w)), w)
  | GetSessionsMetadataFromFirestore _ => (Ok (map entryOf (kept w)), w)
  | DeleteSessionFromFirestore _ sessionId =>
      if writable w
      then (Ok tt, mkRemote (without sessionId (kept w)) true)
      else (Err permissionDenied, w)
  | other => (allFine other, w)
  end.

Definition remoteEnv : Env sg :=
  @mkEnv sg Remote (fun q w => (fst (scriptRead calm q tt), w)) remoteAwait.

Definition sessionB : ChatSession :=
  mkSession "b" "Diagram of B" [hello] [(3, "<b/>")] "<b/>" Undefined
    Undefined 200 200.

End Scripted.

(* ================================================================== *)
(** * Initialisation of the controller (use-session-manager.ts, 98-173) *)
(* ================================================================== *)

Section Finally.
Context {sg : Sig}.

(** [try { p } finally { f }]: [f] runs on both exits of [p], and the
    exit of [p] stands unless [f] throws. *)
Fixpoint try_finally {A : Type} (p : Prog sg A) (f : Prog sg unit)
  : Prog sg A :=
  match p with
  | Ret a => bind f (fun _ => Ret a)
  | Throw e => bind f (fun _ => Throw e)
  | Read q k => Read q (fun x => try_finally (k x) f)
  | Await c k => Await c (fun r => try_finally (k r) f)
  | GetSt k => GetSt (fun s => try_finally (k s) f)
  | ModSt g k => ModSt g (try_finally k f)
  end.

End Finally.

Module Init.
Import Hook.

Local Open Scope prog_scope.

Definition putIsLoading (v : bool) (h : HookState) : HookState :=
  mkHookState (sessions h) (currentSessionId h) (currentSession h) v
              (isAvailable h).

Definition putIsAvailable (v : bool) (h : HookState) : HookState :=
  mkHookState (sessions h) (currentSessionId h) (currentSession h)
              (isLoading h) v.

Definition setIsLoading (v : bool) : M unit :=
  update (withHook (putIsLoading v)).

Definition setIsAvailable (v : bool) : M unit :=
  update (withHook (putIsAvailable v)).

Definition putInitialized (v : bool) (m : Machine) : Machine :=
  mkMachine (hook m) (mkRefs v (urlChangeSequenceRef (refs m))).

(** Lines 98-101: a change of [user] re-arms the initialisation. *)
Definition resetEffect : M unit := update (putInitialized false).

(** [!user && !isIndexedDBAvailable ()]; the availability probe is not
    called when a user is present. *)
Definition noBackend (cl : Closure) : M bool :=
  match user cl with
  | Some _ => Ret false
  | None =>
      available <- ask IsIndexedDBAvailable ;;
      Ret (negb available)
  end.

(** [init] (lines 107-170) *)
Definition init (cl : Closure) : M unit :=
  setIsLoading true ;;
  blocked <- noBackend cl ;;
  if blocked then
    setIsAvailable false ;;
    setIsLoading false
  else
    setIsAvailable true ;;
    try_finally
      (try_catch
         (match user cl with
          | None => awaiting MigrateFromLocalStorage
          | Some _ => Ret tt
          end ;;
          who <- trustedIdentity cl ;;
          match who with
          | Some userId =>
              ignorePermissionDenied
                (metadata <-
                   awaiting (GetSessionsMetadataFromFirestore userId) ;;
                 setSessions metadata) tt
          | None =>
              metadata <- awaiting GetAllSessionMetadata ;;
              setSessions metadata
          end ;;
          match truthy (initialSessionId cl) with
          | Some sessionId =>
              session <- loadSession cl sessionId ;;
              match session with
              | Some session =>
                  setCurrentSession (Some session) ;;
                  setCurrentSessionId (Some (id session))
              | None => Ret tt
              end
          | None => Ret tt
          end)
         (fun error =>
            ask (ConsoleError "Failed to initialize session manager:")))
      (setIsLoading false).

(** The effect of lines 103-173: [init ()] is started once per arming of
    [isInitializedRef]. *)
Definition initEffect (cl : Closure) : M unit :=
  m <- getMachine ;;
  if isInitializedRef (refs m) then Ret tt
  else
    update (putInitialized true) ;;
    init cl.

(** The list call of a backend. *)
Definition listCall (backend : option string) : call :=
  match backend with
  | Some userId => GetSessionsMetadataFromFirestore userId
  | None => GetAllSessionMetadata
  end.

(** The current id is the id of the current session, or both are null. *)
Definition coherent (h : HookState) : Prop :=
  currentSessionId h = option_map id (currentSession h).

(** The state of the hook at its first render (lines 64-77). *)
Definition initialMachine : Machine :=
  mkMachine (mkHookState [] None None true false) (mkRefs false 0).

(** What can happen to the controller between two renders: a call of one
    of its callbacks, or one of its effects firing. *)
Inductive Op : Type :=
| Switch (target : string)
| Delete (target : string)
| Save (data : SessionData) (forSessionId : option (option string))
| Clear
| Refresh
| UrlChanged
| Initialise
| UserChanged.

Definition perform (env : Env sg) (cl : Closure) (op : Op) (m : Machine)
    (w : world env) : Machine * world env :=
  match op with
  | Switch target =>
      let r := run env (switchSession cl target) m w [] in
      (final r, after r)
  | Delete target =>
      let r := run env (deleteSession cl target) m w [] in
      (final r, after r)
  | Save data forSessionId =>
      let r := run env (saveCurrentSession cl data forSessionId) m w [] in
      (final r, after r)
  | Clear =>
      let r := run env clearCurrentSession m w [] in (final r, after r)
  | Refresh =>
      let r := run env (refreshSessions cl) m w [] in (final r, after r)
  | UrlChanged =>
      let r := run env (urlChangeEffect cl) m w [] in (final r, after r)
  | Initialise =>
      let r := run env (initEffect cl) m w [] in (final r, after r)
  | UserChanged =>
      let r := run env resetEffect m w [] in (final r, after r)
  end.

(** The program of an operation, its result dropped. *)
Definition task (cl : Closure) (op : Op) : M unit :=
  match op with
  | Switch target => switchSession cl target ;; Ret tt
  | Delete target => deleteSession cl target ;; Ret tt
  | Save data forSessionId => saveCurrentSession cl data forSessionId
  | Clear => clearCurrentSession
  | Refresh => refreshSessions cl
  | UrlChanged => urlChangeEffect cl
  | Initialise => initEffect cl
  | UserChanged => resetEffect
  end.

(** A history of the controller: each step with the props of its render
    (desired session id, user), the callbacks closing over the state
    that render saw. *)
Fixpoint history (env : Env sg)
    (steps : list (option string * option User * Op))
    (m : Machine) (w : world env) : Machine * world env :=
  match steps with
  | [] => (m, w)
  | (initial, who, op) :: rest =>
      let '(m', w') := perform env (render initial who m) op m w in
      history env rest m' w'
  end.

End Init.

(* ================================================================== *)
(** * Global AI configuration (lib/firestore-service.ts, 595-625) *)
(* ================================================================== *)

Module GlobalConfig.
Import Firestore.

Inductive query : Type :=
| DateNow
| ConsoleLog (text : string)
| ConsoleError (text : string).

Definition answer (q : query) : Type :=
  match q with
  | DateNow => Z
  | ConsoleLog _ | ConsoleError _ => unit
  end.

(** Calls on the document [ai_configurations/global]. *)
Inductive call : Type :=
| SetDoc (data : jsval)
| GetDoc.

Definition reply (c : call) : Type :=
  match c with
  | SetDoc _ => unit
  | GetDoc => option object
  end.

Definition sg : Sig := mkSig query answer call reply unit.

Definition M (A : Type) : Type := Prog sg A.

Definition ask (q : query) : M (answer q) := read (sg := sg) q.
Definition awaiting (c : call) : M (reply c) := await (sg := sg) c.

Local Open Scope prog_scope.

(** [saveGlobalAIConfig] (lines 596-611); [config] is an object. *)
Definition saveGlobalAIConfig (config : object) : M unit :=
  try_catch
    (now <- ask DateNow ;;
     awaiting (SetDoc (sanitizeForFirestore
                         (JObj (setProp "updatedAt" (JNum now) config)))) ;;
     ask (ConsoleLog "[Firestore] Global AI Config saved"))
    (fun error =>
       ask (ConsoleError "Error saving global AI config:") ;;
       Throw error).

(** [getGlobalAIConfig] (lines 613-625) *)
Definition getGlobalAIConfig : M (option object) :=
  try_catch
    (docSnap <- awaiting GetDoc ;;
     match docSnap with
     | Some data => Ret (Some data)
     | None => Ret None
     end)
    (fun error =>
       ask (ConsoleError "Error getting global AI config:") ;;
       Ret None).

(** The document as an environment: it holds what [setDoc] last wrote,
    and [setDoc] refuses what the transport refuses. *)
Record Slot : Type := mkSlot {
  held : option object;
  clock : Z
}.

Definition slotRead (q : query) (w : Slot) : answer q * Slot :=
  match q return answer q * Slot with
  | DateNow => (clock w, w)
  | ConsoleLog _ => (tt, w)
  | ConsoleError _ => (tt, w)
  end.

Definition invalidArgument : ThrownError :=
  mkError (Some "invalid-argument") "Unsupported field value".

Definition slotAwait (c : call) (w : Slot) : result (reply c) * Slot :=
  match c return result (reply c) * Slot with
  | SetDoc data =>
      match data with
      | JObj props =>
          if holdsUndefined data || holdsNestedArray data then
            (Err invalidArgument, w)
          else (Ok tt, mkSlot (Some props) (clock w))
      | _ => (Err invalidArgument, w)
      end
  | GetDoc => (Ok (held w), w)
  end.

Definition slotEnv : Env sg := @mkEnv sg Slot slotRead slotAwait.

End GlobalConfig.

(** ** Observations on objects *)

Module Objects.
Import Firestore.

(** [Object.hasOwn (o, k)] *)
Definition hasProp (o : object) (k : string) : bool :=
  existsb (fun kv => String.eqb (fst kv) k) o.

(** The keys of an object, in order. *)
Definition keys (o : object) : list string := map fst o.

End Objects.

(** ** Observations on strings *)

Module Text.

(** A code unit that [trim] does not remove. *)
Definition visible (u : N) : bool := negb (isWhiteSpace u).

End Text.

(* ================================================================== *)
(** * General facts about programs *)
(* ================================================================== *)

Section RunFacts.
Context {sg : Sig}.

Lemma run_bind {A B : Type} (env : Env sg) (p : Prog sg A)
    (f : A -> Prog sg B) :
  forall s w tr,
    run env (bind p f) s w tr =
    let r := run env p s w tr in
    match outcome r with
    | Returned a => run env (f a) (final r) (after r) (trace r)
    | Thrown e => mkRun (Thrown e) (final r) (after r) (trace r)
    end.
Proof.
  induction p as [a | e | q k IH | c k IH | k IH | g k IH]; intros s w tr;
    cbn.
  - reflexivity.
  - reflexivity.
  - destruct (on_read env q w) as [a w']. apply IH.
  - destruct (on_await env c w) as [r w']. apply IH.
  - apply IH.
  - apply IH.
Qed.

(** The trace only grows. *)
Lemma run_trace_extends {A : Type} (env : Env sg) (p : Prog sg A) :
  forall s w tr,
    exists more, trace (run env p s w tr) = (tr ++ more)%list.
Proof.
  induction p as [a | e | q k IH | c k IH | k IH | g k IH]; intros s w tr;
    cbn.
  - exists []. now rewrite app_nil_r.
  - exists []. now rewrite app_nil_r.
  - destruct (on_read env q w) as [a w'].
    destruct (IH a s w' (tr ++ [EvRead q a])%list) as [more E].
    exists (EvRead q a :: more). rewrite E, <- app_assoc. reflexivity.
  - destruct (on_await env c w) as [r w'].
    destruct (IH r s w' (tr ++ [EvAwait c r])%list) as [more E].
    exists (EvAwait c r :: more). rewrite E, <- app_assoc. reflexivity.
  - apply IH.
  - apply IH.
Qed.

(** A program whose segments keep [P] is suspended, or ends, in a store
    that satisfies [P], and what it is resumed with keeps [P] again. *)
Lemma segments_start {A : Type} (P : store sg -> Prop) (env : Env sg)
    (p : Prog sg A) :
  forall (g : store sg -> store sg) (s : store sg) (w : world env),
    segments P g p ->
    P s ->
    P (snd (fst (start env p (g s) w)))
    /\ match fst (fst (start env p (g s) w)) with
       | Finished _ => True
       | Pending c k => forall r, segments P (fun s => s) (k r)
       end.
Proof.
  induction p as [a | e | q k IH | c k IH | k IH | f k IH];
    intros g s w Hseg Hs; cbn in *.
  - auto.
  - auto.
  - destruct (on_read env q w) as [a w']. apply IH; [apply Hseg | exact Hs].
  - destruct Hseg as [Hg Hk]. auto.
  - apply IH; [apply Hseg | exact Hs].
  - apply (IH (fun s => f (g s))); [exact Hseg | exact Hs].
Qed.

(** So it keeps [P] however often it is suspended and whatever the
    handlers run meanwhile do, as long as they leave [P] true. *)
Lemma segments_drive {A : Type} (P : store sg -> Prop) (env : Env sg) :
  forall (steps : list (Oracle * store sg * world env)) (sp : Susp A)
         (s : store sg) (w : world env),
    P s ->
    match sp with
    | Finished _ => True
    | Pending c k => forall r, segments P (fun s => s) (k r)
    end ->
    Forall (fun st => P (snd (fst st))) steps ->
    P (snd (fst (drive env sp s w steps))).
Proof.
  induction steps as [| [[settle s2] w2] rest IH];
    intros sp s w Hs Hsp Hsteps; cbn.
  - exact Hs.
  - destruct sp as [o | c k]; [exact Hs |].
    inversion Hsteps as [| ? ? Hs2 Hrest]; subst. cbn in Hs2.
    unfold resume.
    destruct (segments_start P env (k (settle c)) (fun s => s) s2 w2
                (Hsp (settle c)) Hs2) as [Hnext Hcont].
    destruct (start env (k (settle c)) s2 w2) as [[sp' s'] w'].
    apply IH; assumption.
Qed.

End RunFacts.

Lemma eqId_true (a b : option string) : eqId a b = true <-> a = b.
Proof.
  destruct a as [x |], b as [y |]; cbn; split; intro H;
    try discriminate; try reflexivity.
  - apply String.eqb_eq in H. now subst.
  - inversion H; subst. apply String.eqb_refl.
Qed.

Lemma eqId_false (a b : option string) : eqId a b = false <-> a <> b.
Proof.
  rewrite <- eqId_true. destruct (eqId a b); split; intro H;
    try discriminate; try reflexivity; try (now elim H).
Qed.

(* ================================================================== *)
(** * Properties of the session lifecycle controller *)
(* ================================================================== *)

Module HookFacts.
Import Hook.

(** One step of case analysis on what the environment answers. *)
Ltac env_step :=
  match goal with
  | |- context [on_read ?env ?q ?w] =>
      let a := fresh "a" in
      let w' := fresh "w" in
      let E := fresh "Eread" in
      destruct (on_read env q w) as [a w'] eqn:E
  | |- context [on_await ?env ?c ?w] =>
      let r := fresh "r" in
      let w' := fresh "w" in
      let E := fresh "Eawait" in
      destruct (on_await env c w) as [r w'] eqn:E; destruct r
  | |- context [isPermissionDenied ?e] =>
      let E := fresh "Edenied" in
      destruct (isPermissionDenied e) eqn:E
  end.

Ltac env_cases := repeat (cbn in *; env_step); cbn in *.

Ltac units :=
  repeat match goal with
         | x : unit |- _ => destruct x
         end.

(** Closes a goal about the calls of a trace that has been computed. *)
Ltac calls_facts :=
  repeat split; intros;
  repeat (progress
    (repeat match goal with
            | H : exists _, _ |- _ => destruct H
            | H : _ /\ _ |- _ => destruct H
            | H : _ \/ _ |- _ => destruct H
            | H : False |- _ => destruct H
            | H : Some _ = Some _ |- _ => inversion H; clear H
            | H : (_, _) = (_, _) |- _ => inversion H; clear H
            | H : Returned _ = Returned _ |- _ => inversion H; clear H
            | H : Thrown _ = Thrown _ |- _ => inversion H; clear H
            end;
     subst; cbn in *));
  try congruence; try discriminate;
  try solve
    [ eauto 8
    | eexists; split; [reflexivity | congruence]
    | eexists; split; [reflexivity | (left; reflexivity)]
    | eexists; split; [(left; reflexivity) | reflexivity]
    | eexists; split; [reflexivity | right; exists None; reflexivity]
    | match goal with
      | u : User |- _ =>
          solve
            [ eexists; split;
              [reflexivity | right; exists (Some (uid u)); reflexivity]
            | exists (Some (uid u)); cbn; auto ]
      end
    | exists None; cbn; auto ].

(** Case analysis on the answers of the environment, for statements that
    name those answers themselves. *)
Ltac world_step :=
  match goal with
  | E : on_read ?env ?q ?w = _ |- context [on_read ?env ?q ?w] =>
      rewrite E
  | E : on_await ?env ?c ?w = _ |- context [on_await ?env ?c ?w] =>
      rewrite E
  | |- context [if ?b then _ else _] => is_var b; destruct b
  | |- context [negb ?b] => is_var b; destruct b
  | |- context [match ?o with Some _ => _ | None => _ end] =>
      is_var o; destruct o
  | |- context [on_read ?env ?q ?w] =>
      is_var w;
      let a := fresh "a" in
      let w' := fresh "w" in
      let E := fresh "Eread" in
      destruct (on_read env q w) as [a w'] eqn:E
  | |- context [on_await ?env ?c ?w] =>
      is_var w;
      let r := fresh "r" in
      let w' := fresh "w" in
      let E := fresh "Eawait" in
      destruct (on_await env c w) as [r w'] eqn:E; destruct r
  | |- context [isPermissionDenied ?e] =>
      is_var e;
      let E := fresh "Edenied" in
      destruct (isPermissionDenied e) eqn:E
  end.

Ltac all_units :=
  repeat match goal with
         | x : ?T |- _ =>
             let T' := eval compute in T in
             match T' with
             | unit => destruct x
             end
         end.

Ltac world_cases := repeat (cbn; world_step); cbn; all_units.

(** Rewrites with the answers already met. *)
Ltac answers :=
  repeat (progress
            (repeat match goal with
                    | E : on_await _ _ _ = _ |- _ => rewrite E
                    | E : on_read _ _ _ = _ |- _ => rewrite E
                    | E : isPermissionDenied _ = _ |- _ => rewrite E
                    end);
          cbn);
  cbn.

(** ** Runs on concrete inputs *)

(** Without identity and without a current session, the first save
    creates a session from the template, derives its title from the
    messages, saves it locally, enforces the retention limit and refreshes
    the list. *)
Example first_save_creates_session :
  let data := mkData [Scripted.hello] [] "" Undefined Undefined in
  let r := run (Scripted.scriptEnv Scripted.calm)
             (saveCurrentSession (render None None Scripted.blank) data None)
             Scripted.blank tt [] in
  let created :=
    mkSession "fresh" "hello" [Scripted.hello] [] "" Undefined Undefined
      10 10 in
  outcome r = Returned tt
  /\ currentSession (hook (final r)) = Some created
  /\ currentSessionId (hook (final r)) = Some "fresh"
  /\ awaited (trace r)
     = [SaveSession created; EnforceSessionLimit; GetAllSessionMetadata].
Proof. repeat split. Qed.

(** Switching from a session with messages to an id the store does not
    have: the current session is saved, the load finds nothing, the state
    stays. *)
Example switch_to_missing_session :
  let r := run (Scripted.scriptEnv Scripted.calm)
             (switchSession (render None None Scripted.loadedA) "b")
             Scripted.loadedA tt [] in
  outcome r = Returned None
  /\ final r = Scripted.loadedA
  /\ awaited (trace r) = [SaveSession Scripted.sessionA; GetSession "b"].
Proof. repeat split. Qed.

(** A save on an existing session: new content, the title kept, the
    metadata entry rewritten in place. *)
Example save_updates_current_session :
  let r := run (Scripted.scriptEnv Scripted.calm)
             (saveCurrentSession (render None None Scripted.loadedA)
                Scripted.dataOne None)
             Scripted.loadedA tt [] in
  let updated :=
    mkSession "a" "Diagram of A" [Scripted.hello; Scripted.hello]
      [(2, "<b/>")] "<b/>" Undefined Undefined 100 50 in
  outcome r = Returned tt
  /\ currentSession (hook (final r)) = Some updated
  /\ sessions (hook (final r))
     = [mkMetadata "a" "Diagram of A" 100 50 2 true Undefined]
  /\ awaited (trace r) = [SaveSession updated].
Proof. repeat split. Qed.

(** [clearCurrentSession] resets both cells and touches nothing else. *)
Lemma clearCurrentSession_run (env : Env sg) (m : Machine) (w : world env)
    (tr : list (event sg)) :
  run env clearCurrentSession m w tr
  = mkRun (sg := sg) (Returned tt)
      (mkMachine
         (mkHookState (sessions (hook m)) None None (isLoading (hook m))
            (isAvailable (hook m)))
         (refs m))
      w tr.
Proof. reflexivity. Qed.

(** [refreshSessions] never throws and only replaces the metadata list. *)
Lemma refreshSessions_run (env : Env sg) (cl : Closure) (m : Machine)
    (w : world env) (tr : list (event sg)) :
  let r := run env (refreshSessions cl) m w tr in
  outcome r = Returned tt
  /\ currentSession (hook (final r)) = currentSession (hook m)
  /\ currentSessionId (hook (final r)) = currentSessionId (hook m)
  /\ refs (final r) = refs m.
Proof.
  unfold refreshSessions, trustedIdentity.
  destruct (user cl) as [u |]; env_cases;
    repeat match goal with
           | b : bool |- _ => destruct b; env_cases
           end; units; auto.
Qed.

(** C1.  [saveCurrentSession (data, forSessionId = X)] with [X] different
    from the controller's [currentSessionId] at call time returns at once:
    no read and no backend call is made (the trace is unchanged, nothing is
    persisted) and no state of the controller changes, whatever [X] (null
    or a string) and [data] are. *)
Theorem save_for_other_session_is_noop :
  forall (env : Env sg) (initial : option string) (who : option User)
         (m : Machine) (w : world env) (tr : list (event sg))
         (data : SessionData) (X : option string),
    X <> currentSessionId (hook m) ->
    run env (saveCurrentSession (render initial who m) data (Some X)) m w tr
    = mkRun (sg := sg) (Returned tt) m w tr.
Proof.
  intros env initial who m w tr data X HX.
  unfold saveCurrentSession, staleTarget. cbn.
  apply eqId_false in HX. rewrite HX. reflexivity.
Qed.

Lemma save_for_other_session_is_noop_witness :
  Some "b" <> currentSessionId (hook Scripted.loadedA) /\
  run (Scripted.scriptEnv Scripted.calm)
      (saveCurrentSession (render None None Scripted.loadedA)
         Scripted.dataOne (Some (Some "b")))
      Scripted.loadedA tt []
  = mkRun (sg := sg) (Returned tt) Scripted.loadedA tt [].
Proof.
  assert (H : Some "b" <> currentSessionId (hook Scripted.loadedA))
    by (cbn; discriminate).
  split; [exact H |].
  exact (save_for_other_session_is_noop (Scripted.scriptEnv Scripted.calm)
           None None Scripted.loadedA tt [] Scripted.dataOne (Some "b") H).
Defined.

(** C3 fails as stated: the save before a switch is attempted, not
    ensured.  With a remote backend that rejects writes with
    permission-denied, a switch away from a session that has a message
    swallows the rejection, loads the target and makes it current; the
    store never held the session that was left. *)
Lemma switch_proceeds_when_save_is_denied :
  let w := Scripted.mkRemote [Scripted.sessionB] false in
  let m := Scripted.loadedA in
  let r := run Scripted.remoteEnv
             (switchSession (render None (Some Scripted.alice) m) "b")
             m w [] in
  currentSession (hook m) = Some Scripted.sessionA
  /\ messages Scripted.sessionA <> []
  /\ rejections (trace r)
     = [(SaveSessionToFirestore "alice" Scripted.sessionA,
         Scripted.permissionDenied)]
  /\ awaited (trace r)
     = [SaveSessionToFirestore "alice" Scripted.sessionA;
        GetSessionFromFirestore "alice" "b"]
  /\ outcome r = Returned (Some (projection Scripted.sessionB))
  /\ currentSession (hook (final r)) = Some Scripted.sessionB
  /\ Scripted.kept (after r) = [Scripted.sessionB].
Proof.
  cbn. repeat split. discriminate.
Qed.

(** C3 (as the code has it).  [switchSession (target)] with [target]
    different from the current id: a save call is made if and only if a
    current session exists and has at least one message; it is then the
    first backend call, goes to the backend active at that moment and
    carries the current session, and the load of the target comes only
    after it has settled.  The load is made when the save was accepted,
    and also when the remote backend rejected it with permission-denied;
    any other rejection of the save is rethrown, with no load and the
    state unchanged.  No save call of a switch ever carries a session
    without messages. *)
Theorem switch_saves_nonempty_current_first :
  forall (env : Env sg) (initial : option string) (who : option User)
         (m : Machine) (w : world env) (target : string),
    Some target <> currentSessionId (hook m) ->
    let cl := render initial who m in
    let r := run env (switchSession cl target) m w [] in
    let calls := awaited (trace r) in
    ((exists c, In c calls /\ isSave c = true) <->
     (exists current,
        currentSession (hook m) = Some current /\ messages current <> []))
    /\ (forall current,
          currentSession (hook m) = Some current ->
          messages current <> [] ->
          let '(backend, w1) := backendAt env cl w in
          let '(settled, w2) := on_await env (saveCall backend current) w1 in
          match settled with
          | Ok _ =>
              exists b, calls = [saveCall backend current; loadCall b target]
          | Err e =>
              if match backend with
                 | Some _ => isPermissionDenied e
                 | None => false
                 end
              then
                exists b,
                  calls = [saveCall backend current; loadCall b target]
              else
                outcome r = Thrown e
                /\ calls = [saveCall backend current]
                /\ final r = m
          end)
    /\ (forall c s, In c calls -> savedBy c = Some s -> messages s <> [])
    /\ (forall v, outcome r = Returned v ->
          exists b, last calls (loadCall b target) = loadCall b target
                    /\ In (loadCall b target) calls).
Proof.
  intros env initial who m w target Hne cl r calls.
  subst calls r cl.
  apply eqId_false in Hne.
  unfold switchSession, render. cbn [seen]. rewrite Hne.
  unfold persist, loadSession, trustedIdentity, backendAt,
    ignorePermissionDenied.
  cbn [user].
  destruct (currentSession (hook m)) as [current |];
    [destruct (messages current) as [| msg more] eqn:Emsgs |];
    (destruct who as [u |]; world_cases;
     repeat match goal with
            | o : option ChatSession |- _ => destruct o; world_cases
            end);
    calls_facts; answers; calls_facts.

Qed.

Lemma switch_saves_nonempty_current_first_witness :
  Some "b" <> currentSessionId (hook Scripted.loadedA) /\
  exists b,
    awaited (trace (run (Scripted.scriptEnv Scripted.calm)
                      (switchSession (render None None Scripted.loadedA) "b")
                      Scripted.loadedA tt []))
    = [SaveSession Scripted.sessionA; loadCall b "b"].
Proof.
  assert (H : Some "b" <> currentSessionId (hook Scripted.loadedA))
    by (cbn; discriminate).
  split; [exact H |].
  destruct (switch_saves_nonempty_current_first
              (Scripted.scriptEnv Scripted.calm) None None Scripted.loadedA
              tt "b" H) as (_ & Hfirst & _).
  apply (Hfirst Scripted.sessionA eq_refl). cbn. discriminate.
Defined.

(** The run of [deleteSession], by what the backend delete answers. *)
Lemma deleteSession_run (env : Env sg) (cl : Closure) (m : Machine)
    (w : world env) (target : string) :
  let '(backend, w1) := backendAt env cl w in
  let '(answered, w2) := on_await env (deleteCall backend target) w1 in
  let wasCurrent := eqId (Some target) (currentSessionId (seen cl)) in
  let cleared :=
    if wasCurrent
    then withHook (putCurrentSessionId None)
           (withHook (putCurrentSession None) m)
    else m in
  let tr1 : list (event sg) :=
    (match user cl with
     | Some _ =>
         [EvRead (sg := sg) AuthCurrentUser
            (match backend with Some _ => true | None => false end)]
     | None => []
     end ++ [EvAwait (sg := sg) (deleteCall backend target) answered])%list in
  let refreshed :=
    let r := run env (refreshSessions cl) cleared w2 tr1 in
    mkRun (sg := sg) (Returned (mkDeleteResult wasCurrent))
      (final r) (after r) (trace r) in
  run env (deleteSession cl target) m w [] =
  match answered with
  | Ok _ => refreshed
  | Err e =>
      if match backend with
         | Some _ => isPermissionDenied e
         | None => false
         end
      then refreshed
      else mkRun (sg := sg) (Thrown e) m w2 tr1
  end.
Proof.
  unfold deleteSession, backendAt, trustedIdentity, ignorePermissionDenied.
  generalize (eqId (Some target) (currentSessionId (seen cl))).
  intro wasCurrent.
  assert (Hrest : forall w2 tr1,
    run env
      ((if wasCurrent
        then setCurrentSession None ;; setCurrentSessionId None
        else Ret tt) ;;
       refreshSessions cl ;; Ret (mkDeleteResult wasCurrent))%prog m w2 tr1
    = let r := run env (refreshSessions cl)
                 (if wasCurrent
                  then withHook (putCurrentSessionId None)
                         (withHook (putCurrentSession None) m)
                  else m) w2 tr1 in
      mkRun (sg := sg) (Returned (mkDeleteResult wasCurrent))
        (final r) (after r) (trace r)).
  { intros w2 tr1.
    set (m1 := if wasCurrent
               then withHook (putCurrentSessionId None)
                      (withHook (putCurrentSession None) m)
               else m).
    transitivity
      (run env (refreshSessions cl ;; Ret (mkDeleteResult wasCurrent))%prog
         m1 w2 tr1).
    { subst m1. destruct wasCurrent; reflexivity. }
    rewrite run_bind.
    destruct (refreshSessions_run env cl m1 w2 tr1) as (Ho & _).
    cbv zeta in Ho |- *. rewrite Ho. reflexivity. }
  destruct (user cl) as [u |] eqn:Eu.
  - cbn. destruct (on_read env AuthCurrentUser w) as [live w1].
    destruct live; cbn.
    + destruct (on_await env (DeleteSessionFromFirestore (uid u) target) w1)
        as [[[] | e] w2]; cbn.
      * apply Hrest.
      * destruct (isPermissionDenied e); cbn; [apply Hrest | reflexivity].
    + destruct (on_await env (DeleteSessionFromDB target) w1)
        as [[[] | e] w2]; cbn; [apply Hrest | reflexivity].
  - cbn.
    destruct (on_await env (DeleteSessionFromDB target) w)
      as [[[] | e] w2]; cbn; [apply Hrest | reflexivity].
Qed.

(** C4 (as the code has it), by what the backend delete answers.  When
    the delete is accepted, or is rejected by the remote backend with
    permission-denied, [deleteSession (id)] returns [wasCurrentSession =
    (id === currentSessionId)]; when the id was current, [currentSession]
    and [currentSessionId] are null afterwards, otherwise both are
    unchanged; and [refreshSessions] runs after the backend delete.  When
    the delete is rejected otherwise (by the local backend with any
    error, by the remote one with an error other than permission-denied)
    the error is rethrown: nothing is returned, the state is unchanged
    and the run ends at the delete, with no refresh. *)
Theorem delete_session_outcomes :
  forall (env : Env sg) (initial : option string) (who : option User)
         (m : Machine) (w : world env) (target : string),
    let cl := render initial who m in
    let r := run env (deleteSession cl target) m w [] in
    let '(backend, w1) := backendAt env cl w in
    let '(answered, w2) := on_await env (deleteCall backend target) w1 in
    let wasCurrent := eqId (Some target) (currentSessionId (hook m)) in
    let m1 :=
      if wasCurrent
      then withHook (putCurrentSessionId None)
             (withHook (putCurrentSession None) m)
      else m in
    exists pre,
      awaited pre = []
      /\ let after_delete :=
           (pre ++ [EvAwait (sg := sg) (deleteCall backend target)
                      answered])%list in
         let refreshed := run env (refreshSessions cl) m1 w2 after_delete in
         let completed :=
           outcome r = Returned (mkDeleteResult wasCurrent)
           /\ (Some target = currentSessionId (hook m) ->
               currentSession (hook (final r)) = None
               /\ currentSessionId (hook (final r)) = None
               /\ wasCurrent = true)
           /\ (Some target <> currentSessionId (hook m) ->
               currentSession (hook (final r)) = currentSession (hook m)
               /\ currentSessionId (hook (final r))
                  = currentSessionId (hook m)
               /\ wasCurrent = false)
           /\ trace r = trace refreshed
           /\ final r = final refreshed
           /\ exists more, trace r = (after_delete ++ more)%list in
         match answered with
         | Ok _ => completed
         | Err e =>
             if match backend with
                | Some _ => isPermissionDenied e
                | None => false
                end
             then completed
             else outcome r = Thrown e
                  /\ final r = m
                  /\ trace r = after_delete
         end.
Proof.
  intros env initial who m w target cl r. subst r.
  pose proof (deleteSession_run env cl m w target) as Hrun.
  destruct (backendAt env cl w) as [backend w1] eqn:Eb.
  destruct (on_await env (deleteCall backend target) w1)
    as [answered w2] eqn:Ea.
  cbv zeta in Hrun |- *.
  change (currentSessionId (seen cl)) with (currentSessionId (hook m))
    in Hrun.
  set (wasCurrent := eqId (Some target) (currentSessionId (hook m))) in *.
  set (cleared := if wasCurrent
                  then withHook (putCurrentSessionId None)
                         (withHook (putCurrentSession None) m)
                  else m) in *.
  set (pre := match user cl with
              | Some _ =>
                  [EvRead (sg := sg) AuthCurrentUser
                     (match backend with Some _ => true | None => false end)]
              | None => []
              end) in *.
  exists pre.
  split; [subst pre; destruct (user cl); reflexivity |].
  set (after_delete :=
         (pre ++ [EvAwait (sg := sg) (deleteCall backend target)
                    answered])%list) in *.
  assert (Hcompleted :
    run env (deleteSession cl target) m w []
    = (let rr := run env (refreshSessions cl) cleared w2 after_delete in
       mkRun (sg := sg) (Returned (mkDeleteResult wasCurrent))
         (final rr) (after rr) (trace rr)) ->
    outcome (run env (deleteSession cl target) m w [])
    = Returned (mkDeleteResult wasCurrent)
    /\ (Some target = currentSessionId (hook m) ->
        currentSession (hook (final (run env (deleteSession cl target)
                                       m w []))) = None
        /\ currentSessionId (hook (final (run env (deleteSession cl target)
                                            m w []))) = None
        /\ wasCurrent = true)
    /\ (Some target <> currentSessionId (hook m) ->
        currentSession (hook (final (run env (deleteSession cl target)
                                       m w [])))
        = currentSession (hook m)
        /\ currentSessionId (hook (final (run env (deleteSession cl target)
                                            m w [])))
           = currentSessionId (hook m)
        /\ wasCurrent = false)
    /\ trace (run env (deleteSession cl target) m w [])
       = trace (run env (refreshSessions cl) cleared w2 after_delete)
    /\ final (run env (deleteSession cl target) m w [])
       = final (run env (refreshSessions cl) cleared w2 after_delete)
    /\ exists more,
         trace (run env (deleteSession cl target) m w [])
         = (after_delete ++ more)%list).
  { intro E. rewrite E. cbv zeta. cbn [outcome final trace].
    destruct (refreshSessions_run env cl cleared w2 after_delete)
      as (_ & Hs & Hi & _).
    cbv zeta in Hs, Hi. rewrite Hs, Hi.
    split; [reflexivity |]. split; [| split; [| split; [| split]]].
    - intro Hid. apply eqId_true in Hid. fold wasCurrent in Hid.
      subst cleared. rewrite Hid. cbn. auto.
    - intro Hid. apply eqId_false in Hid. fold wasCurrent in Hid.
      subst cleared. rewrite Hid. auto.
    - reflexivity.
    - reflexivity.
    - apply run_trace_extends. }
  destruct answered as [ok | e].
  - apply Hcompleted. exact Hrun.
  - destruct (match backend with
              | Some _ => isPermissionDenied e
              | None => false
              end).
    + apply Hcompleted. exact Hrun.
    + rewrite Hrun. cbn. repeat split.
Qed.

(** C4, as stated, fails when the backend delete is rejected: deleting the
    current session ["a"] while the remote store is unavailable throws,
    the session stays current and the metadata list is not refreshed. *)
Lemma delete_rejected_keeps_current :
  let r := run (Scripted.scriptEnv (Scripted.offline Scripted.unavailable))
             (deleteSession (render None (Some Scripted.alice)
                               Scripted.loadedA) "a")
             Scripted.loadedA tt [] in
  Some "a" = currentSessionId (hook Scripted.loadedA)
  /\ outcome r = Thrown Scripted.unavailable
  /\ currentSession (hook (final r)) = Some Scripted.sessionA
  /\ currentSessionId (hook (final r)) = Some "a"
  /\ awaited (trace r) = [DeleteSessionFromFirestore "alice" "a"]
  /\ ~ (currentSession (hook (final r)) = None
        /\ currentSessionId (hook (final r)) = None
        /\ exists res, outcome r = Returned res
                       /\ wasCurrentSession res = true).
Proof.
  cbn. repeat split; try reflexivity.
  intros (H & _). discriminate.
Qed.

(** [adoptIfDifferent] leaves a state as it is or installs the loaded
    session together with its id. *)
Lemma adoptIfDifferent_cases (session : ChatSession) (h : HookState) :
  adoptIfDifferent session h = h
  \/ (currentSession (adoptIfDifferent session h) = Some session
      /\ currentSessionId (adoptIfDifferent session h) = Some (id session)).
Proof.
  unfold adoptIfDifferent.
  destruct (eqId (currentSessionId h) (Some (id session))); cbn; auto.
Qed.

Lemma adoptIfDifferent_id (session : ChatSession) (h : HookState) :
  currentSessionId (adoptIfDifferent session h) = Some (id session).
Proof.
  unfold adoptIfDifferent.
  destruct (eqId (currentSessionId h) (Some (id session))) eqn:E; cbn.
  - now apply eqId_true in E.
  - reflexivity.
Qed.

(** C5.  The reaction to a change of the desired session id never clears
    the current session.  Run to its end from any state, it keeps a
    current session and a current id that were set, leaves the hook state
    untouched when the desired id is null (or empty), and otherwise either
    leaves the state as it was or installs a loaded session with its id.
    The same holds when the load settles later, in whatever state the
    controller then is. *)
Theorem reaction_never_clears :
  forall (env : Env sg) (cl : Closure) (m : Machine) (w : world env),
    (let r := run env (urlChangeEffect cl) m w [] in
     (currentSession (hook m) <> None ->
      currentSession (hook (final r)) <> None)
     /\ (currentSessionId (hook m) <> None ->
         currentSessionId (hook (final r)) <> None)
     /\ (truthy (initialSessionId cl) = None -> hook (final r) = hook m)
     /\ (hook (final r) = hook m
         \/ exists s, currentSession (hook (final r)) = Some s
                      /\ currentSessionId (hook (final r)) = Some (id s)))
    /\ (let '(sp, m1, w1) := start env (urlChangeEffect cl) m w in
        hook m1 = hook m
        /\ match sp with
           | Finished _ => True
           | Pending c k =>
               truthy (initialSessionId cl) <> None
               /\ forall r m2 w2,
                    let '(sp2, m3, w3) := resume env k r m2 w2 in
                    (exists o, sp2 = Finished o)
                    /\ (hook m3 = hook m2
                        \/ exists s,
                             currentSession (hook m3) = Some s
                             /\ currentSessionId (hook m3) = Some (id s))
           end).
Proof.
  intros env cl m w.
  unfold urlChangeEffect, handleSessionIdChange, loadSession,
    trustedIdentity, ignorePermissionDenied, resume.
  split.
  - cbn.
    destruct (isInitializedRef (refs m)); cbn; [| intuition].
    destruct (isAvailable (seen cl)); cbn; [| intuition].
    destruct (truthy (initialSessionId cl)) as [sid |]; cbn; [| intuition].
    destruct (user cl) as [u |]; env_cases;
      repeat match goal with
             | b : bool |- _ => destruct b; env_cases
             | o : option ChatSession |- _ => destruct o; env_cases
             end;
      rewrite ?Z.eqb_refl; cbn;
      try solve [intuition discriminate];
      match goal with
      | |- context [adoptIfDifferent ?s ?h] =>
          destruct (adoptIfDifferent_cases s h) as [E | [E1 E2]];
          [rewrite E; intuition discriminate
          | rewrite E1, E2; intuition (try discriminate; eauto)]
      end.
  - cbn.
    destruct (isInitializedRef (refs m)); cbn; [| intuition].
    destruct (isAvailable (seen cl)); cbn; [| intuition].
    destruct (truthy (initialSessionId cl)) as [sid |]; cbn; [| intuition].
    destruct (user cl) as [u |]; cbn.
    + destruct (on_read env AuthCurrentUser w) as [live w1].
      destruct live; cbn; (split; [reflexivity |]);
        (split; [discriminate |]); intros [[s |] | e] m2 w2; cbn;
        try destruct (isPermissionDenied e); cbn;
        try destruct (urlChangeSequenceRef (refs m) + 1
                      =? urlChangeSequenceRef (refs m2)); cbn;
        try (split; [eexists; reflexivity |]); auto;
        (destruct (adoptIfDifferent_cases s (hook m2)) as [E | [E1 E2]];
         [rewrite E; auto | right; exists s; auto]).
    + (split; [reflexivity |]);
        (split; [discriminate |]); intros [[s |] | e] m2 w2; cbn;
        try destruct (urlChangeSequenceRef (refs m) + 1
                      =? urlChangeSequenceRef (refs m2)); cbn;
        try (split; [eexists; reflexivity |]); auto;
        (destruct (adoptIfDifferent_cases s (hook m2)) as [E | [E1 E2]];
         [rewrite E; auto | right; exists s; auto]).
Qed.

(** C2.  Two changes of the desired session id, A then B, both issuing a
    load.  Each issue increments the navigation sequence counter.  Once
    B's load has been issued, settling A's load (with any result, in any
    later state of the controller) changes nothing: its captured counter
    is stale.  Settling B's load installs B's session when one was found
    and leaves the hook state alone otherwise.  Hence, in either order of
    settlement, the final state is the one B's load alone gives, and
    [currentSessionId] is the id of B's session when B's load found one. *)
Theorem stale_load_is_discarded :
  forall (env : Env sg) (clA clB : Closure) (m0 : Machine) (w0 : world env)
         (a b : string),
    isInitializedRef (refs m0) = true ->
    isAvailable (seen clA) = true ->
    isAvailable (seen clB) = true ->
    truthy (initialSessionId clA) = Some a ->
    truthy (initialSessionId clB) = Some b ->
    let m1 := bumpSequence m0 in
    let m2 := bumpSequence m1 in
    exists (bA : option string)
           (kA : result (reply (loadCall bA a)) -> M unit) (w1 : world env)
           (bB : option string)
           (kB : result (reply (loadCall bB b)) -> M unit) (w2 : world env),
      start env (urlChangeEffect clA) m0 w0
        = (Pending (sg := sg) (loadCall bA a) kA, m1, w1)
      /\ start env (urlChangeEffect clB) m1 w1
           = (Pending (sg := sg) (loadCall bB b) kB, m2, w2)
      /\ (forall rA m w,
            urlChangeSequenceRef (refs m2) <= urlChangeSequenceRef (refs m) ->
            exists o, resume env kA rA m w = (Finished o, m, w))
      /\ (forall rB w,
            exists oB mB,
              resume env kB rB m2 w = (Finished oB, mB, w)
              /\ refs mB = refs m2
              /\ (forall sB,
                    rB = loadReply bB b (Ok (Some sB)) ->
                    currentSessionId (hook mB) = Some (id sB))
              /\ ((forall sB, rB <> loadReply bB b (Ok (Some sB))) ->
                  hook mB = hook m0))
      /\ (forall rA rB w,
            let '(_, mB, wB) := resume env kB rB m2 w in
            let '(_, mBA, _) := resume env kA rA mB wB in
            let '(_, mA, wA) := resume env kA rA m2 w in
            let '(_, mAB, _) := resume env kB rB mA wA in
            mBA = mB /\ mAB = mB).
Proof.
  intros env clA clB m0 w0 a b Hinit HavA HavB Ha Hb m1 m2.
  assert (Hstart : forall cl m w sid,
    isInitializedRef (refs m) = true ->
    isAvailable (seen cl) = true ->
    truthy (initialSessionId cl) = Some sid ->
    exists (bk : option string)
           (k : result (reply (loadCall bk sid)) -> M unit) (w' : world env),
      start env (urlChangeEffect cl) m w
        = (Pending (sg := sg) (loadCall bk sid) k, bumpSequence m, w')
      /\ forall r mm ww,
           ((urlChangeSequenceRef (refs m) + 1
               =? urlChangeSequenceRef (refs mm)) = false ->
            exists o, resume env k r mm ww = (Finished o, mm, ww))
           /\ ((urlChangeSequenceRef (refs m) + 1
                  =? urlChangeSequenceRef (refs mm)) = true ->
               exists o mB,
                 resume env k r mm ww = (Finished o, mB, ww)
                 /\ refs mB = refs mm
                 /\ (forall sB, r = loadReply bk sid (Ok (Some sB)) ->
                       currentSessionId (hook mB) = Some (id sB))
                 /\ ((forall sB, r <> loadReply bk sid (Ok (Some sB))) ->
                     mB = mm))).
  { intros cl m w sid Hi Hav Hsid.
    unfold urlChangeEffect, handleSessionIdChange, loadSession,
      trustedIdentity, ignorePermissionDenied, resume.
    cbn. rewrite Hi, Hav, Hsid. cbn.
    destruct (user cl) as [u |]; cbn.
    - destruct (on_read env AuthCurrentUser w) as [live w1].
      destruct live; cbn.
      + exists (Some (uid u)). do 2 eexists. split; [reflexivity |].
        intros [[s |] | e] mm ww; cbn; split; intro Hseq;
          try destruct (isPermissionDenied e); cbn; rewrite ?Hseq; cbn;
          try (eexists; reflexivity);
          do 2 eexists; (split; [reflexivity |]);
          (split; [reflexivity |]); split;
          try (intros sB E; inversion E; subst; apply adoptIfDifferent_id);
          try (intros sB E; discriminate E);
          try reflexivity.
        intro Hno. elim (Hno s). reflexivity.
      + exists None. do 2 eexists. split; [reflexivity |].
        intros [[s |] | e] mm ww; cbn; split; intro Hseq;
          rewrite ?Hseq; cbn;
          try (eexists; reflexivity);
          do 2 eexists; (split; [reflexivity |]);
          (split; [reflexivity |]); split;
          try (intros sB E; inversion E; subst; apply adoptIfDifferent_id);
          try (intros sB E; discriminate E);
          try reflexivity.
        intro Hno. elim (Hno s). reflexivity.
    - exists None. do 2 eexists. split; [reflexivity |].
      intros [[s |] | e] mm ww; cbn; split; intro Hseq;
        rewrite ?Hseq; cbn;
        try (eexists; reflexivity);
        do 2 eexists; (split; [reflexivity |]);
        (split; [reflexivity |]); split;
        try (intros sB E; inversion E; subst; apply adoptIfDifferent_id);
        try (intros sB E; discriminate E);
        try reflexivity.
      intro Hno. elim (Hno s). reflexivity. }
  destruct (Hstart clA m0 w0 a Hinit HavA Ha) as (bA & kA & w1 & EA & HA).
  assert (Hinit1 : isInitializedRef (refs m1) = true) by exact Hinit.
  destruct (Hstart clB m1 w1 b Hinit1 HavB Hb) as (bB & kB & w2 & EB & HB).
  assert (HstaleA : forall rA m w,
            urlChangeSequenceRef (refs m2) <= urlChangeSequenceRef (refs m) ->
            exists o, resume env kA rA m w = (Finished o, m, w)).
  { intros rA m w Hle. apply (HA rA m w).
    apply Z.eqb_neq. subst m2 m1. cbn in Hle. lia. }
  assert (HfreshB : forall rB w,
            exists oB mB,
              resume env kB rB m2 w = (Finished oB, mB, w)
              /\ refs mB = refs m2
              /\ (forall sB,
                    rB = loadReply bB b (Ok (Some sB)) ->
                    currentSessionId (hook mB) = Some (id sB))
              /\ ((forall sB, rB <> loadReply bB b (Ok (Some sB))) ->
                  hook mB = hook m0)).
  { intros rB w. destruct (HB rB m2 w) as (_ & Hfresh).
    destruct Hfresh as (oB & mB & E1 & E2 & E3 & E4).
    { subst m2. cbn. apply Z.eqb_refl. }
    exists oB, mB. repeat split; auto.
    intro Hno. rewrite (E4 Hno). reflexivity. }
  exists bA, kA, w1, bB, kB, w2.
  split; [exact EA |]. split; [exact EB |]. split; [exact HstaleA |].
  split; [exact HfreshB |].
  intros rA rB w.
  destruct (HfreshB rB w) as (oB & mB & E1 & E2 & _).
  rewrite E1.
  destruct (HstaleA rA mB w) as (oA & E3); [rewrite E2; lia |].
  rewrite E3.
  destruct (HstaleA rA m2 w) as (oA' & E4); [lia |].
  rewrite E4, E1. auto.
Qed.

Lemma stale_load_is_discarded_witness :
  isInitializedRef (refs Scripted.blank) = true
  /\ isAvailable (seen (render (Some "a") None Scripted.blank)) = true
  /\ isAvailable
       (seen (render (Some "b") None (bumpSequence Scripted.blank))) = true
  /\ truthy (initialSessionId (render (Some "a") None Scripted.blank))
     = Some "a"
  /\ truthy
       (initialSessionId
          (render (Some "b") None (bumpSequence Scripted.blank)))
     = Some "b"
  /\ exists (bA : option string)
            (kA : result (reply (loadCall bA "a")) -> M unit),
       forall rA m w,
         2 <= urlChangeSequenceRef (refs m) ->
         exists o,
           resume (Scripted.scriptEnv Scripted.calm) kA rA m w
           = (Finished o, m, w).
Proof.
  repeat (split; [reflexivity |]).
  destruct (stale_load_is_discarded (Scripted.scriptEnv Scripted.calm)
              (render (Some "a") None Scripted.blank)
              (render (Some "b") None (bumpSequence Scripted.blank))
              Scripted.blank tt "a" "b"
              eq_refl eq_refl eq_refl eq_refl eq_refl)
    as (bA & kA & w1 & bB & kB & w2 & _ & _ & Hstale & _).
  exists bA, kA. exact Hstale.
Defined.

(** One call of [saveCurrentSession] on an existing current session: what
    becomes of the title. *)
Lemma save_title_step (env : Env sg) (initial : option string)
    (who : option User) (m : Machine) (w : world env) (data : SessionData)
    (forSessionId : option (option string)) (current : ChatSession) :
  currentSession (hook m) = Some current ->
  let cl := render initial who m in
  let r := run env (saveCurrentSession cl data forSessionId) m w [] in
  exists s',
    currentSession (hook (final r)) = Some s'
    /\ (title current <> "New Chat" -> title s' = title current)
    /\ (title s' <> title current ->
        title current = "New Chat" /\ data_messages data <> [])
    /\ (title current <> "New Chat" ->
        forall c s, In c (awaited (trace r)) -> savedBy c = Some s ->
                    title s = title current)
    /\ (derivedTitles (trace r) <> [] <->
        staleTarget forSessionId cl = false
        /\ title current = "New Chat" /\ data_messages data <> [])
    /\ (forall ms t, In (ms, t) (derivedTitles (trace r)) ->
        ms = data_messages data
        /\ (outcome r = Returned tt -> title s' = t)).
Proof.
  intros Hcur cl r. subst r cl.
  unfold saveCurrentSession, render. cbn [seen]. rewrite Hcur.
  destruct (staleTarget forSessionId
              (mkClosure initial who (hook m))) eqn:Estale.
  - cbn. exists current. rewrite Hcur.
    repeat split; intros; try congruence; try contradiction;
      try tauto; try (now destruct H).
  - unfold persist, trustedIdentity, ignorePermissionDenied. cbn [user].
    destruct (String.eqb (title current) "New Chat") eqn:Etitle;
      [apply String.eqb_eq in Etitle | apply String.eqb_neq in Etitle];
      (destruct (data_messages data) as [| msg more] eqn:Emsgs);
      (destruct who as [u |]; env_cases;
       repeat match goal with
              | b : bool |- _ => destruct b; env_cases
              end);
      units; rewrite ?Hcur; eexists; (split; [reflexivity |]); cbn;
      calls_facts.
Qed.

(** Any number of later saves keeps a title that is not the sentinel. *)
Lemma saveRepeatedly_keeps_title (env : Env sg) (initial : option string)
    (who : option User)
    (saves : list (SessionData * option (option string))) :
  forall (m : Machine) (w : world env) (current : ChatSession),
    currentSession (hook m) = Some current ->
    title current <> "New Chat" ->
    exists s',
      currentSession
        (hook (fst (saveRepeatedly env initial who saves m w))) = Some s'
      /\ title s' = title current.
Proof.
  induction saves as [| [data forSessionId] rest IH];
    intros m w current Hcur Htitle.
  - exists current. cbn. auto.
  - cbn [saveRepeatedly].
    destruct (save_title_step env initial who m w data forSessionId current
                Hcur) as (s1 & Hs1 & Hkeep & _).
    cbv zeta in Hs1.
    destruct (IH _ (after (run env
                 (saveCurrentSession (render initial who m) data
                    forSessionId) m w [])) s1 Hs1) as (s' & Hs' & Ht).
    + rewrite (Hkeep Htitle). exact Htitle.
    + exists s'. split; [exact Hs' |]. rewrite Ht. apply Hkeep, Htitle.
Qed.

(** C7.  Title derivation is idempotent.  With a current session whose
    title is not the sentinel ["New Chat"], a call of [saveCurrentSession]
    leaves the title as it is, in the current session and in every session
    handed to a backend, whatever the data; so does any sequence of later
    calls.  The title changes only if it is the sentinel and the incoming
    messages are not empty, and [extractTitle] is called exactly then (on
    the incoming messages, when the save is not discarded as stale). *)
Theorem title_frozen_once_derived :
  forall (env : Env sg) (initial : option string) (who : option User)
         (m : Machine) (w : world env) (data : SessionData)
         (forSessionId : option (option string)) (current : ChatSession),
    currentSession (hook m) = Some current ->
    let cl := render initial who m in
    let r := run env (saveCurrentSession cl data forSessionId) m w [] in
    (exists s',
       currentSession (hook (final r)) = Some s'
       /\ (title current <> "New Chat" -> title s' = title current)
       /\ (title s' <> title current ->
           title current = "New Chat" /\ data_messages data <> [])
       /\ (title current <> "New Chat" ->
           forall c s, In c (awaited (trace r)) -> savedBy c = Some s ->
                       title s = title current)
       /\ (derivedTitles (trace r) <> [] <->
           staleTarget forSessionId cl = false
           /\ title current = "New Chat" /\ data_messages data <> [])
       /\ (forall ms t, In (ms, t) (derivedTitles (trace r)) ->
           ms = data_messages data
           /\ (outcome r = Returned tt -> title s' = t)))
    /\ (title current <> "New Chat" ->
        forall saves,
        exists s',
          currentSession
            (hook (fst (saveRepeatedly env initial who saves m w))) = Some s'
          /\ title s' = title current).
Proof.
  intros env initial who m w data forSessionId current Hcur cl r.
  split.
  - exact (save_title_step env initial who m w data forSessionId current
             Hcur).
  - intros Htitle saves.
    exact (saveRepeatedly_keeps_title env initial who saves m w current
             Hcur Htitle).
Qed.

Lemma title_frozen_once_derived_witness :
  currentSession (hook Scripted.loadedA) = Some Scripted.sessionA
  /\ exists s',
       currentSession
         (hook (final (run (Scripted.scriptEnv Scripted.calm)
                         (saveCurrentSession
                            (render None None Scripted.loadedA)
                            Scripted.dataOne None)
                         Scripted.loadedA tt []))) = Some s'
       /\ (title Scripted.sessionA <> "New Chat" ->
           title s' = title Scripted.sessionA).
Proof.
  split; [reflexivity |].
  destruct (title_frozen_once_derived (Scripted.scriptEnv Scripted.calm)
              None None Scripted.loadedA tt Scripted.dataOne None
              Scripted.sessionA eq_refl)
    as ((s' & Hs' & Hkeep & _) & _).
  exists s'. split; [exact Hs' | exact Hkeep].
Defined.


(** C10 fails as stated on the creation path.  The first save of a new
    session, against a remote backend that rejects the write with
    permission-denied, makes the new session current under its id, but
    the list that the call then refreshes from the backend has no entry
    for it; after an accepted write the same call lists the session.  The
    state in memory is not the one of a successful save. *)
Lemma denied_creation_is_not_listed :
  let cl := render None (Some Scripted.alice) Scripted.blank in
  let save := saveCurrentSession cl Scripted.dataOne None in
  let denied :=
    run Scripted.remoteEnv save Scripted.blank (Scripted.mkRemote [] false)
      [] in
  let accepted :=
    run Scripted.remoteEnv save Scripted.blank (Scripted.mkRemote [] true)
      [] in
  let created :=
    mkSession "fresh" "hello" [Scripted.hello; Scripted.hello]
      [(2, "<b/>")] "<b/>" Undefined Undefined 10 10 in
  rejections (trace denied)
  = [(SaveSessionToFirestore "alice" created, Scripted.permissionDenied)]
  /\ isPermissionDenied Scripted.permissionDenied = true
  /\ outcome denied = Returned tt
  /\ currentSession (hook (final denied)) = Some created
  /\ currentSessionId (hook (final denied)) = Some "fresh"
  /\ sessions (hook (final denied)) = []
  /\ Scripted.kept (after denied) = []
  /\ rejections (trace accepted) = []
  /\ currentSession (hook (final accepted)) = Some created
  /\ sessions (hook (final accepted)) = [Scripted.entryOf created]
  /\ final denied <> final accepted.
Proof.
  cbn. repeat split. discriminate.
Qed.

(** C10 (as the code has it).  A remote write of [saveCurrentSession]
    that is rejected with permission-denied is swallowed and the call
    goes on as after an accepted write: it returns normally and the
    session handed to the write is [currentSession] and carries the data.
    On the creation path [currentSessionId] becomes its id and the list
    is then whatever the refresh that follows reads from the backend
    (the old list when that read fails or is not made): the call ends
    as [refreshSessions] does, run after the write.  On the update
    path [currentSessionId] is left alone, no other call is made, and
    every entry of the list under the id of the session is rewritten
    with its title, [updatedAt], number of messages, diagram flag and
    thumbnail, the other entries being kept.  A remote write rejected
    with any other error is rethrown and leaves the state as it was. *)
Theorem denied_remote_save_updates_memory :
  forall (env : Env sg) (initial : option string) (u : User) (m : Machine)
         (w : world env) (data : SessionData)
         (forSessionId : option (option string)) (s' : ChatSession)
         (e : ThrownError),
    let cl := render initial (Some u) m in
    let r := run env (saveCurrentSession cl data forSessionId) m w [] in
    In (SaveSessionToFirestore (uid u) s', e) (rejections (trace r)) ->
    if isPermissionDenied e then
      outcome r = Returned tt
      /\ currentSession (hook (final r)) = Some s'
      /\ messages s' = data_messages data
      /\ xmlSnapshots s' = data_xmlSnapshots data
      /\ diagramXml s' = data_diagramXml data
      /\ match currentSession (hook m) with
         | None =>
             currentSessionId (hook (final r)) = Some (id s')
             /\ sessions (hook (final r))
                = match listed (trace r) with
                  | Some answered => answered
                  | None => sessions (hook m)
                  end
             /\ (exists rest,
                   awaited (trace r)
                   = SaveSessionToFirestore (uid u) s' :: rest
                   /\ (rest = [] \/ exists b, rest = [Init.listCall b]))
             /\ exists pre w1,
                  let installed :=
                    withHook (putCurrentSessionId (Some (id s')))
                      (withHook (putCurrentSession (Some s')) m) in
                  let refreshed :=
                    run env (refreshSessions cl) installed w1 pre in
                  awaited pre = [SaveSessionToFirestore (uid u) s']
                  /\ trace r = trace refreshed
                  /\ final r = final refreshed
         | Some current =>
             id s' = id current
             /\ currentSessionId (hook (final r))
                = currentSessionId (hook m)
             /\ sessions (hook (final r))
                = map (fun s =>
                         if String.eqb (meta_id s) (id current) then
                           mkMetadata (meta_id s) (title s')
                             (meta_createdAt s) (updatedAt s')
                             (Z.of_nat (length (data_messages data)))
                             (hasDiagramOf (data_diagramXml data))
                             (thumbnailDataUrl s')
                         else s)
                      (sessions (hook m))
             /\ awaited (trace r) = [SaveSessionToFirestore (uid u) s']
         end
    else outcome r = Thrown e /\ final r = m.
Proof.
  intros env initial u m w data forSessionId s' e cl r.
  subst r cl.
  unfold saveCurrentSession, render. cbn [seen].
  destruct (staleTarget forSessionId
              (mkClosure initial (Some u) (hook m))) eqn:Estale.
  { cbn. intros []. }
  unfold persist, refreshSessions, trustedIdentity,
    ignorePermissionDenied. cbn [user].
  destruct (currentSession (hook m)) as [current |] eqn:Hcur.
  - destruct (String.eqb (title current) "New Chat"
              && (0 <? Z.of_nat (length (data_messages data))));
      world_cases; intro Hin;
      repeat match goal with
             | H : _ \/ _ |- _ => destruct H
             | H : False |- _ => destruct H
             | H : (_, _) = (_, _) |- _ => inversion H; clear H; subst
             end;
      try congruence;
      answers; repeat split; reflexivity.
  - world_cases; intro Hin;
      repeat match goal with
             | H : _ \/ _ |- _ => destruct H
             | H : False |- _ => destruct H
             | H : (_, _) = (_, _) |- _ => inversion H; clear H; subst
             end;
      try congruence;
      answers; repeat split;
      try reflexivity;
      try discriminate;
      try solve
        [ eexists; split; [reflexivity |]; auto
        | eexists; split; [reflexivity |]; right;
          exists (Some (uid u)); reflexivity
        | eexists; split; [reflexivity |]; right;
          exists None; reflexivity
        | match goal with
          | E : on_await _ (SaveSessionToFirestore _ _) _ = (_, ?w1)
            |- context [?e1 :: ?e2 :: ?e3
                          :: EvAwait (SaveSessionToFirestore ?x ?y) ?z
                          :: _] =>
              exists [e1; e2; e3;
                      EvAwait (sg := sg) (SaveSessionToFirestore x y) z],
                     w1
          end;
          cbv zeta; unfold refreshSessions, trustedIdentity; cbn;
          answers; repeat split; reflexivity ].
Qed.

Lemma denied_remote_save_updates_memory_witness :
  let r := run (Scripted.scriptEnv (Scripted.offline
                                      Scripted.permissionDenied))
             (saveCurrentSession
                (render None (Some Scripted.alice) Scripted.loadedA)
                Scripted.dataOne None)
             Scripted.loadedA tt [] in
  let updated :=
    mkSession "a" "Diagram of A" [Scripted.hello; Scripted.hello]
      [(2, "<b/>")] "<b/>" Undefined Undefined 100 50 in
  In (SaveSessionToFirestore "alice" updated, Scripted.permissionDenied)
     (rejections (trace r))
  /\ currentSession (hook (final r)) = Some updated
  /\ sessions (hook (final r))
     = [mkMetadata "a" "Diagram of A" 100 50 2 true Undefined].
Proof.
  cbv zeta.
  assert (H : In (SaveSessionToFirestore "alice"
                    (mkSession "a" "Diagram of A"
                       [Scripted.hello; Scripted.hello] [(2, "<b/>")]
                       "<b/>" Undefined Undefined 100 50),
                  Scripted.permissionDenied)
                 (rejections
                    (trace
                       (run (Scripted.scriptEnv
                               (Scripted.offline Scripted.permissionDenied))
                          (saveCurrentSession
                             (render None (Some Scripted.alice)
                                Scripted.loadedA)
                             Scripted.dataOne None)
                          Scripted.loadedA tt []))))
    by (left; reflexivity).
  split; [exact H |].
  pose proof (denied_remote_save_updates_memory
                (Scripted.scriptEnv
                   (Scripted.offline Scripted.permissionDenied))
                None Scripted.alice Scripted.loadedA tt Scripted.dataOne
                None _ _ H) as (_ & Hcurrent & _ & _ & _ & _ & _ & Hlist & _).
  split; [exact Hcurrent | exact Hlist].
Defined.

(** The update path of [saveCurrentSession] stamps the session with the
    clock reading it takes first. *)
Lemma save_update_stamps (env : Env sg) (initial : option string)
    (who : option User) (m : Machine) (w : world env) (data : SessionData)
    (forSessionId : option (option string)) (current : ChatSession) :
  currentSession (hook m) = Some current ->
  let cl := render initial who m in
  staleTarget forSessionId cl = false ->
  let now := fst (on_read env DateNow w) in
  let r := run env (saveCurrentSession cl data forSessionId) m w [] in
  (forall c s, In c (awaited (trace r)) -> savedBy c = Some s ->
               updatedAt s = now)
  /\ (exists c s, In c (awaited (trace r)) /\ savedBy c = Some s)
  /\ (outcome r = Returned tt ->
      exists s', currentSession (hook (final r)) = Some s'
                 /\ updatedAt s' = now).
Proof.
  intros Hcur cl Hstale now r. subst r now cl.
  unfold saveCurrentSession, render in *. cbn [seen] in *.
  rewrite Hcur, Hstale.
  unfold persist, trustedIdentity, ignorePermissionDenied. cbn [user].
  destruct (String.eqb (title current) "New Chat"
            && (0 <? Z.of_nat (length (data_messages data))));
    (destruct who as [u |]; env_cases;
     repeat match goal with
            | b : bool |- _ => destruct b; env_cases
            end);
    units; calls_facts;
    try solve [do 2 eexists; split; [left; reflexivity | reflexivity]].
Qed.

(** The save-before-switch hands the current session over as it is. *)
Lemma switch_hands_over_current (env : Env sg) (initial : option string)
    (who : option User) (m : Machine) (w : world env) (target : string) :
  let r := run env (switchSession (render initial who m) target) m w [] in
  forall c s, In c (awaited (trace r)) -> savedBy c = Some s ->
              currentSession (hook m) = Some s.
Proof.
  cbv zeta.
  unfold switchSession, render. cbn [seen].
  destruct (eqId (Some target) (currentSessionId (hook m))).
  - cbn. intros c s [].
  - unfold persist, loadSession, trustedIdentity, ignorePermissionDenied.
    cbn [user].
    destruct (currentSession (hook m)) as [current |];
      [destruct (messages current) as [| msg more] eqn:Emsgs |];
      (destruct who as [u |]; env_cases;
       repeat match goal with
              | b : bool |- _ => destruct b; env_cases
              | o : option ChatSession |- _ => destruct o; env_cases
              end);
      units; calls_facts.
Qed.

(** C9 fails as stated: the new [updatedAt] is whatever the clock reads.
    A session stamped 100 (by a device whose clock is ahead, say) and
    saved when [Date.now ()] reads 50 comes out stamped 50.  And the
    save-before-switch reads no clock: on the local backend the session
    goes to [saveSession] with the stamp it had. *)
Lemma save_with_clock_behind_lowers_updatedAt :
  let r := run (Scripted.scriptEnv Scripted.calm)
             (saveCurrentSession (render None None Scripted.loadedA)
                Scripted.dataOne None)
             Scripted.loadedA tt [] in
  let r' := run (Scripted.scriptEnv Scripted.calm)
              (switchSession (render None None Scripted.loadedA) "b")
              Scripted.loadedA tt [] in
  currentSession (hook Scripted.loadedA) = Some Scripted.sessionA
  /\ updatedAt Scripted.sessionA = 100
  /\ outcome r = Returned tt
  /\ (exists s',
        currentSession (hook (final r)) = Some s'
        /\ In (SaveSession s') (awaited (trace r))
        /\ updatedAt s' = 50
        /\ ~ (updatedAt Scripted.sessionA <= updatedAt s'))
  /\ trace r'
     = [EvAwait (sg := sg) (SaveSession Scripted.sessionA) (Ok tt);
        EvAwait (sg := sg) (GetSession "b") (Ok None);
        EvRead (sg := sg) (ConsoleError "Session not found:") tt].
Proof.
  cbn. repeat split.
  eexists. split; [reflexivity |]. split; [left; reflexivity |].
  split; [reflexivity |]. cbn. lia.
Qed.

(** ** Which rejections a controller operation rethrows *)

(** Closes the two directions of a classification once the run has been
    computed. *)
Ltac classification :=
  let thrown := fresh "thrown" in
  let Hthrown := fresh "Hthrown" in
  let c := fresh "c" in
  let Hin := fresh "Hin" in
  let Hlist := fresh "Hlist" in
  let Hcode := fresh "Hcode" in
  intro thrown; split;
  [ intro Hthrown;
    first
      [ discriminate Hthrown
      | inversion Hthrown; subst;
        eexists; split;
        [ cbn; auto 6
        | split; [reflexivity | intro; try discriminate; assumption] ] ]
  | intros (c & Hin & Hlist & Hcode);
    cbn in Hin;
    repeat match goal with
           | H : _ \/ _ |- _ => destruct H
           | H : False |- _ => destruct H
           | H : (_, _) = (_, _) |- _ => inversion H; clear H; subst
           end;
    cbn in *;
    try discriminate;
    try reflexivity;
    try (specialize (Hcode eq_refl); congruence) ].

Lemma switch_classifies (env : Env sg) (cl : Closure) (target : string)
    (m : Machine) (w : world env) :
  let r := run env (Init.task cl (Init.Switch target)) m w [] in
  forall thrown,
    outcome r = Thrown thrown <->
    exists c,
      In (c, thrown) (rejections (trace r))
      /\ isList c = false
      /\ (isRemote c = true -> isPermissionDenied thrown = false).
Proof.
  cbv zeta.
  unfold Init.task, switchSession, persist, loadSession, trustedIdentity,
    ignorePermissionDenied.
  destruct (eqId (Some target) (currentSessionId (seen cl)));
    [cbn; classification |].
  destruct (currentSession (seen cl)) as [current |];
    [destruct (0 <? Z.of_nat (length (messages current))) |];
    (destruct (user cl) as [u |]; world_cases;
     repeat match goal with
            | o : option ChatSession |- _ => destruct o; world_cases
            end);
    classification.
Qed.

Lemma delete_classifies (env : Env sg) (cl : Closure) (target : string)
    (m : Machine) (w : world env) :
  let r := run env (Init.task cl (Init.Delete target)) m w [] in
  forall thrown,
    outcome r = Thrown thrown <->
    exists c,
      In (c, thrown) (rejections (trace r))
      /\ isList c = false
      /\ (isRemote c = true -> isPermissionDenied thrown = false).
Proof.
  cbv zeta.
  unfold Init.task, deleteSession, refreshSessions, trustedIdentity,
    ignorePermissionDenied.
  destruct (eqId (Some target) (currentSessionId (seen cl)));
    (destruct (user cl) as [u |]; world_cases);
    classification.
Qed.

Lemma save_classifies (env : Env sg) (cl : Closure) (data : SessionData)
    (forSessionId : option (option string)) (m : Machine) (w : world env) :
  let r := run env (Init.task cl (Init.Save data forSessionId)) m w [] in
  forall thrown,
    outcome r = Thrown thrown <->
    exists c,
      In (c, thrown) (rejections (trace r))
      /\ isList c = false
      /\ (isRemote c = true -> isPermissionDenied thrown = false).
Proof.
  cbv zeta.
  unfold Init.task, saveCurrentSession, persist, refreshSessions,
    trustedIdentity, ignorePermissionDenied.
  destruct (staleTarget forSessionId cl); [cbn; classification |].
  destruct (currentSession (seen cl)) as [current |].
  - destruct (String.eqb (title current) "New Chat"
              && (0 <? Z.of_nat (length (data_messages data))));
      (destruct (user cl) as [u |]; world_cases);
      classification.
  - destruct (user cl) as [u |]; world_cases; classification.
Qed.

Lemma reaction_classifies (env : Env sg) (cl : Closure) (m : Machine)
    (w : world env) :
  let r := run env (Init.task cl Init.UrlChanged) m w [] in
  forall thrown,
    outcome r = Thrown thrown <->
    exists c,
      In (c, thrown) (rejections (trace r))
      /\ isList c = false
      /\ (isRemote c = true -> isPermissionDenied thrown = false).
Proof.
  cbv zeta.
  unfold Init.task, urlChangeEffect, handleSessionIdChange, loadSession,
    trustedIdentity, ignorePermissionDenied.
  cbn [run bind getMachine getSt].
  destruct (isInitializedRef (refs m)); [| cbn; classification].
  destruct (isAvailable (seen cl)); [| cbn; classification].
  destruct (truthy (initialSessionId cl)) as [sessionId |];
    [| cbn; classification].
  destruct (user cl) as [u |]; world_cases;
    rewrite ?Z.eqb_refl; cbn;
    repeat match goal with
           | o : option ChatSession |- _ => destruct o; cbn
           end;
    classification.
Qed.

(** The initialisation never throws. *)
Lemma initEffect_returns (env : Env sg) (cl : Closure) (m : Machine)
    (w : world env) :
  outcome (run env (Init.initEffect cl) m w []) = Returned tt.
Proof.
  unfold Init.initEffect, Init.init, Init.noBackend, loadSession,
    trustedIdentity, ignorePermissionDenied.
  cbn [run bind getMachine getSt].
  destruct (isInitializedRef (refs m)); [reflexivity |].
  destruct (user cl) as [u |];
    destruct (truthy (initialSessionId cl)) as [sessionId |];
    world_cases;
    repeat match goal with
           | o : option ChatSession |- _ => destruct o; world_cases
           end;
    reflexivity.
Qed.

End HookFacts.

(* ================================================================== *)
(** * Properties of the remote backend adapter *)
(* ================================================================== *)

Module FirestoreFacts.
Import Firestore.

(** ** Runs on concrete inputs *)

Example sanitize_example :
  sanitizeForFirestore
    (JObj [("a", JUndefined); ("b", JArr [JUndefined; JNum 1]);
           ("c", JObj [("d", JUndefined); ("e", JStr "x")])])
  = JObj [("a", JNull); ("b", JArr [JNull; JNum 1]);
          ("c", JObj [("d", JNull); ("e", JStr "x")])].
Proof. reflexivity. Qed.

(** Saving session ["a"] of user alice into an empty store at time 7 and
    loading it again: the tuples come back, the unset optional fields
    come back as [null], [updatedAt] is the time of the save. *)
Example round_trip_example :
  let saved := run storeEnv
                 (saveSessionToFirestore "alice" Scripted.sessionA)
                 tt (mkStore [] 7) [] in
  let loaded := run storeEnv (getSessionFromFirestore "alice" "a")
                  tt (after saved) [] in
  outcome saved = Returned tt
  /\ outcome loaded
     = Returned
         (Some [("id", JStr "a");
                ("title", JStr "Diagram of A");
                ("messages",
                  JArr [JObj [("role", JStr "user");
                              ("content", JStr "hello");
                              ("timestamp", JNum 1)]]);
                ("diagramXml", JStr "<a/>");
                ("thumbnailDataUrl", JNull);
                ("diagramHistory", JNull);
                ("createdAt", JNum 100);
                ("updatedAt", JNum 7);
                ("userId", JStr "alice");
                ("xmlSnapshots", JArr [JArr [JNum 1; JStr "<a/>"]])]).
Proof. split; reflexivity. Qed.

(** A document that is not a session: reading it fails inside the
    adapter, which answers [null]. *)
Example malformed_document_reads_as_null :
  outcome (run storeEnv (getSessionFromFirestore "alice" "x") tt
             (mkStore [(("alice", "x"), [("xmlSnapshots", JStr "oops")])] 7)
             [])
  = Returned None.
Proof. reflexivity. Qed.

(** Induction on JavaScript values, through arrays and objects. *)
Lemma jsval_induction (P : jsval -> Prop) :
  P JUndefined ->
  P JNull ->
  (forall b, P (JBool b)) ->
  (forall n, P (JNum n)) ->
  (forall s, P (JStr s)) ->
  (forall items, Forall P items -> P (JArr items)) ->
  (forall props, Forall (fun kv => P (snd kv)) props -> P (JObj props)) ->
  forall v, P v.
Proof.
  intros Hu Hn Hb Hz Hs Ha Ho.
  fix IH 1. intros [| | b | n | s | items | props].
  - exact Hu.
  - exact Hn.
  - apply Hb.
  - apply Hz.
  - apply Hs.
  - apply Ha. induction items as [| x rest IHitems].
    + constructor.
    + constructor; [apply IH | exact IHitems].
  - apply Ho. induction props as [| [k x] rest IHprops].
    + constructor.
    + constructor; [apply IH | exact IHprops].
Qed.

(** [sanitizeForFirestore] leaves no [undefined] behind. *)
Lemma sanitize_removes_undefined (v : jsval) :
  holdsUndefined (sanitizeForFirestore v) = false.
Proof.
  induction v as [| | b | n | s | items IH | props IH]
    using jsval_induction; cbn; try reflexivity.
  - induction IH as [| x rest Hx _ IHrest]; cbn; [reflexivity |].
    now rewrite Hx.
  - induction IH as [| [k x] rest Hx _ IHrest]; cbn; [reflexivity |].
    cbn in Hx. now rewrite Hx.
Qed.

(** A value without [undefined] is left as it is. *)
Lemma sanitize_fixes_defined (v : jsval) :
  holdsUndefined v = false -> sanitizeForFirestore v = v.
Proof.
  induction v as [| | b | n | s | items IH | props IH]
    using jsval_induction; cbn; intro H; try reflexivity;
    try discriminate.
  - f_equal. induction IH as [| x rest Hx _ IHrest]; cbn in *;
      [reflexivity |].
    apply orb_false_iff in H. destruct H as [H1 H2].
    now rewrite Hx, IHrest.
  - f_equal. induction IH as [| [k x] rest Hx _ IHrest]; cbn in *;
      [reflexivity |].
    apply orb_false_iff in H. destruct H as [H1 H2].
    now rewrite Hx, IHrest.
Qed.

Lemma array_defined {A : Type} (f : A -> jsval) (xs : list A) :
  (forall x, holdsUndefined (f x) = false) ->
  holdsUndefined (JArr (map f xs)) = false.
Proof.
  intro Hf. change (existsb holdsUndefined (map f xs) = false).
  induction xs as [| x rest IH]; cbn [existsb map]; [reflexivity |].
  now rewrite Hf, IH.
Qed.

Lemma array_flat {A : Type} (f : A -> jsval) (xs : list A) :
  (forall x, isArray (f x) = false) ->
  (forall x, holdsNestedArray (f x) = false) ->
  holdsNestedArray (JArr (map f xs)) = false.
Proof.
  intros Harr Hf.
  change (existsb isArray (map f xs)
          || existsb holdsNestedArray (map f xs) = false).
  assert (H1 : existsb isArray (map f xs) = false).
  { induction xs as [| x rest IH]; cbn [existsb map]; [reflexivity |].
    now rewrite Harr, IH. }
  assert (H2 : existsb holdsNestedArray (map f xs) = false).
  { clear H1.
    induction xs as [| x rest IH]; cbn [existsb map]; [reflexivity |].
    now rewrite Hf, IH. }
  now rewrite H1, H2.
Qed.

Lemma messages_defined (ms : list StoredMessage) :
  holdsUndefined (js_of_messages ms) = false.
Proof. apply array_defined. reflexivity. Qed.

Lemma messages_flat (ms : list StoredMessage) :
  holdsNestedArray (js_of_messages ms) = false.
Proof. apply array_flat; reflexivity. Qed.

Lemma history_defined (h : list DiagramHistoryEntry) :
  holdsUndefined (JArr (map js_of_historyEntry h)) = false.
Proof. apply array_defined. reflexivity. Qed.

Lemma history_flat (h : list DiagramHistoryEntry) :
  holdsNestedArray (JArr (map js_of_historyEntry h)) = false.
Proof. apply array_flat; reflexivity. Qed.

Lemma serialized_defined (xs : list (Z * string)) :
  holdsUndefined (JArr (serializeSnapshots xs)) = false.
Proof. apply array_defined. intros [ts x]. reflexivity. Qed.

Lemma serialized_flat (xs : list (Z * string)) :
  holdsNestedArray (JArr (serializeSnapshots xs)) = false.
Proof. apply array_flat; intros [ts x]; reflexivity. Qed.

(** Reading the records back gives the tuples, in order. *)
Lemma toTuples_serialized (xs : list (Z * string)) :
  toTuples (serializeSnapshots xs) = Ok (map js_of_tuple xs).
Proof.
  induction xs as [| [ts x] rest IH]; cbn; [reflexivity |].
  unfold serializeSnapshots in IH. now rewrite IH.
Qed.

(** The representation of a snapshot list determines the list. *)
Lemma js_of_snapshots_injective (xs ys : list (Z * string)) :
  js_of_snapshots xs = js_of_snapshots ys -> xs = ys.
Proof.
  unfold js_of_snapshots. intro H. injection H as H. revert ys H.
  induction xs as [| [t x] rest IH]; intros [| [t' y] rest'] H;
    cbn in H; try discriminate; [reflexivity |].
  injection H as Ht Hx Hrest. subst. f_equal. now apply IH.
Qed.

Lemma js_of_messages_injective (xs ys : list StoredMessage) :
  js_of_messages xs = js_of_messages ys -> xs = ys.
Proof.
  unfold js_of_messages. intro H. injection H as H. revert ys H.
  induction xs as [| [r c t] rest IH]; intros [| [r' c' t'] rest'] H;
    cbn in H; try discriminate; [reflexivity |].
  injection H as Hr Hc Ht Hrest. subst. f_equal. now apply IH.
Qed.

(** The data written for a session holds no [undefined] and no array
    inside an array: the transport accepts it. *)
Lemma sessionData_defined (userId : string) (session : ChatSession)
    (now : Z) :
  holdsUndefined (JObj (sessionDataOf userId session now)) = false.
Proof.
  pose proof (messages_defined (messages session)) as Hm.
  pose proof (serialized_defined (xmlSnapshots session)) as Hx.
  cbn in Hm, Hx |- *. rewrite Hm, Hx.
  destruct (thumbnailDataUrl session), (diagramHistory session); cbn;
    try reflexivity;
    match goal with
    | |- context [map js_of_historyEntry ?h] =>
        pose proof (history_defined h) as Hh; cbn in Hh; rewrite Hh
    end; reflexivity.
Qed.

Lemma sessionData_flat (userId : string) (session : ChatSession) (now : Z) :
  holdsNestedArray (JObj (sessionDataOf userId session now)) = false.
Proof.
  pose proof (messages_flat (messages session)) as Hm.
  pose proof (serialized_flat (xmlSnapshots session)) as Hx.
  cbn in Hm, Hx |- *. rewrite Hm, Hx.
  destruct (thumbnailDataUrl session), (diagramHistory session); cbn;
    try reflexivity;
    match goal with
    | |- context [map js_of_historyEntry ?h] =>
        pose proof (history_flat h) as Hh; cbn in Hh; rewrite Hh
    end; reflexivity.
Qed.

Lemma findDoc_head (path : string * string) (data : object)
    (rest : list ((string * string) * object)) :
  findDoc path ((path, data) :: rest) = Some data.
Proof.
  unfold findDoc, samePath. cbn. now rewrite !String.eqb_refl.
Qed.

(** C6.  Round trip through the remote store.  Saving a session and then
    loading it by id, against a store that gives back what was written:
    the save is accepted, the load finds the session, and the loaded
    object has the same [xmlSnapshots] (the same pairs in the same order),
    the same [messages] and the same [diagramXml] as the session saved,
    under its id. *)
Theorem remote_round_trip :
  forall (w : Store) (userId : string) (session : ChatSession)
         (tr : list (event sg)),
    let saved := run storeEnv (saveSessionToFirestore userId session)
                   tt w tr in
    let loaded := run storeEnv (getSessionFromFirestore userId (id session))
                    tt (after saved) (trace saved) in
    outcome saved = Returned tt
    /\ exists obj,
         outcome loaded = Returned (Some obj)
         /\ getProp obj "id" = JStr (id session)
         /\ getProp obj "xmlSnapshots"
            = js_of_snapshots (xmlSnapshots session)
         /\ getProp obj "messages" = js_of_messages (messages session)
         /\ getProp obj "diagramXml" = JStr (diagramXml session)
         /\ (forall xs, getProp obj "xmlSnapshots" = js_of_snapshots xs ->
                        xs = xmlSnapshots session)
         /\ (forall ms, getProp obj "messages" = js_of_messages ms ->
                        ms = messages session).
Proof.
  intros w userId session tr saved loaded.
  pose proof (sessionData_defined userId session (clock w)) as Hdef.
  pose proof (sessionData_flat userId session (clock w)) as Hflat.
  pose proof (sanitize_fixes_defined _ Hdef) as Hsan.
  assert (Esaved :
    saved
    = mkRun (sg := sg) (Returned tt) tt
        (mkStore (((userId, id session),
                   sessionDataOf userId session (clock w))
                    :: withoutDoc (userId, id session) (docs w))
                 (clock w))
        (tr ++ [EvRead (sg := sg) DateNow (clock w);
                EvAwait (sg := sg)
                  (SetDoc userId (id session)
                     (JObj (sessionDataOf userId session (clock w))))
                  (Ok tt);
                EvRead (sg := sg) (ConsoleLog "[Firestore] Session saved")
                  tt])%list).
  { subst saved. unfold saveSessionToFirestore.
    cbn [run bind try_catch ask read awaiting await on_read on_await
         storeEnv storeRead storeAwait].
    rewrite Hsan.
    cbn [run bind try_catch ask read awaiting await on_read on_await
         storeEnv storeRead storeAwait].
    rewrite Hdef, Hflat.
    cbn [orb run bind try_catch ask read awaiting await on_read on_await
         storeEnv storeRead storeAwait].
    rewrite <- !app_assoc. reflexivity. }
  split; [rewrite Esaved; reflexivity |].
  subst loaded. rewrite Esaved.
  cbn [after trace].
  unfold getSessionFromFirestore.
  cbn [run bind try_catch ask read awaiting await on_read on_await
       storeEnv storeRead storeAwait docs findDoc find fst snd samePath].
  rewrite findDoc_head.
  cbn [run bind try_catch].
  assert (Edes : deserializeSnapshots (sessionDataOf userId session (clock w))
                 = Ok (map js_of_tuple (xmlSnapshots session))).
  { unfold deserializeSnapshots.
    change (getProp (sessionDataOf userId session (clock w)) "xmlSnapshots")
      with (JArr (serializeSnapshots (xmlSnapshots session))).
    cbn [truthyJs]. apply toTuples_serialized. }
  rewrite Edes.
  cbn [lift run bind try_catch outcome].
  eexists. split; [reflexivity |].
  repeat split; try reflexivity.
  - intros xs H. symmetry. apply js_of_snapshots_injective.
    rewrite <- H. reflexivity.
  - intros ms H. symmetry. apply js_of_messages_injective.
    rewrite <- H. reflexivity.
Qed.

(** ** Failures of the store, operation by operation *)

(** Writes: whatever [setDoc] or [deleteDoc] throws is logged and
    rethrown, permission-denied included. *)
Lemma saveSessionToFirestore_rethrows (env : Env sg) (userId : string)
    (session : ChatSession) (w : world env) (tr : list (event sg))
    (e : ThrownError) :
  let '(now, w1) := on_read env DateNow w in
  forall w2,
    on_await env
      (SetDoc userId (id session)
         (sanitizeForFirestore (JObj (sessionDataOf userId session now))))
      w1 = (Err e, w2) ->
    outcome (run env (saveSessionToFirestore userId session) tt w tr)
    = Thrown e.
Proof.
  unfold saveSessionToFirestore. cbn.
  destruct (on_read env DateNow w) as [now w1]. intros w2 H.
  cbn in H |- *. rewrite H. cbn.
  destruct (on_read env _ w2) as [[] w3]. reflexivity.
Qed.

Lemma deleteSessionFromFirestore_rethrows (env : Env sg)
    (userId sessionId : string) (w w1 : world env) (tr : list (event sg))
    (e : ThrownError) :
  on_await env (DeleteDoc userId sessionId) w = (Err e, w1) ->
  outcome (run env (deleteSessionFromFirestore userId sessionId) tt w tr)
  = Thrown e.
Proof.
  intro H. unfold deleteSessionFromFirestore. cbn. rewrite H. cbn.
  destruct (on_read env _ w1) as [[] w2]. reflexivity.
Qed.

(** Reads: no failure leaves [getSessionFromFirestore] or
    [getSessionsMetadataFromFirestore]; a failed [getDoc] gives [null], a
    failed [getDocs] gives the empty list. *)
Lemma getSessionFromFirestore_returns (env : Env sg)
    (userId sessionId : string) (w : world env) (tr : list (event sg)) :
  (exists v,
     outcome (run env (getSessionFromFirestore userId sessionId) tt w tr)
     = Returned v)
  /\ (forall e w1,
        on_await env (GetDoc userId sessionId) w = (Err e, w1) ->
        outcome (run env (getSessionFromFirestore userId sessionId) tt w tr)
        = Returned None).
Proof.
  unfold getSessionFromFirestore. cbn.
  destruct (on_await env (GetDoc userId sessionId) w) as [[[data |] | e] w1];
    cbn.
  - split; [| intros; discriminate].
    destruct (deserializeSnapshots data) as [tuples | e]; cbn.
    + eexists; reflexivity.
    + destruct (on_read env _ w1) as [[] w2]. eexists; reflexivity.
  - split; [eexists; reflexivity | intros; discriminate].
  - destruct (on_read env _ w1) as [[] w2].
    split; [eexists; reflexivity | reflexivity].
Qed.

Lemma getSessionsMetadataFromFirestore_returns (env : Env sg)
    (userId : string) (w : world env) (tr : list (event sg)) :
  (exists v,
     outcome (run env (getSessionsMetadataFromFirestore userId) tt w tr)
     = Returned v)
  /\ (forall e w1,
        on_await env (GetDocs userId) w = (Err e, w1) ->
        outcome (run env (getSessionsMetadataFromFirestore userId) tt w tr)
        = Returned []).
Proof.
  unfold getSessionsMetadataFromFirestore. cbn.
  destruct (on_await env (GetDocs userId) w) as [[documents | e] w1]; cbn.
  - split; [| intros; discriminate].
    destruct (collectMetadata documents) as [ms | e]; cbn.
    + eexists; reflexivity.
    + destruct (on_read env _ w1) as [[] w2]. eexists; reflexivity.
  - destruct (on_read env _ w1) as [[] w2].
    split; [eexists; reflexivity | reflexivity].
Qed.

(** The document handed to [setDoc] carries the clock reading taken by
    the adapter as [updatedAt]. *)
Lemma saveSessionToFirestore_stamps (env : Env sg) (userId : string)
    (session : ChatSession) (w : world env) :
  let now := fst (on_read env DateNow w) in
  getProp (sessionDataOf userId session now) "updatedAt" = JNum now
  /\ exists settled rest,
       trace (run env (saveSessionToFirestore userId session) tt w [])
       = EvRead (sg := sg) DateNow now
           :: EvAwait (sg := sg)
                (SetDoc userId (id session)
                   (JObj (sessionDataOf userId session now))) settled
           :: rest.
Proof.
  cbv zeta. split; [reflexivity |].
  unfold saveSessionToFirestore. cbn.
  destruct (on_read env DateNow w) as [now w1]. cbn [fst].
  pose proof (sanitize_fixes_defined _
                (sessionData_defined userId session now)) as Hsan.
  cbn in Hsan |- *. rewrite Hsan.
  match goal with
  | |- context [on_await env ?c ?w'] =>
      destruct (on_await env c w') as [[[] | e] w2]; cbn
  end;
    match goal with
    | |- context [on_read env ?q ?w'] =>
        destruct (on_read env q w') as [[] w3]; cbn
    end; do 2 eexists; reflexivity.
Qed.

End FirestoreFacts.

(* ================================================================== *)
(** * Properties that span the controller and the adapter *)
(* ================================================================== *)

Module Engine.

(** C8 fails as stated on the reads of the adapter: a [getDoc] or [getDocs]
    rejected because the service is unavailable (not a permission-denied
    condition) is not rethrown but turned into [null] and into the empty
    list; and a permission-denied rejection of [setDoc] is not swallowed
    by the adapter but rethrown. *)
Lemma adapter_read_failure_becomes_null :
  isPermissionDenied Scripted.unavailable = false
  /\ outcome (run (Firestore.brokenEnv Scripted.unavailable)
                (Firestore.getSessionFromFirestore "alice" "a") tt tt [])
     = Returned None
  /\ outcome (run (Firestore.brokenEnv Scripted.unavailable)
                (Firestore.getSessionsMetadataFromFirestore "alice") tt tt [])
     = Returned []
  /\ isPermissionDenied Scripted.permissionDenied = true
  /\ outcome (run (Firestore.brokenEnv Scripted.permissionDenied)
                (Firestore.saveSessionToFirestore "alice" Scripted.sessionA)
                tt tt [])
     = Thrown Scripted.permissionDenied.
Proof. repeat split. Qed.

(** C8 (as the code has it).  The adapter does not classify failures.  Its
    writes (save, delete) log and rethrow whatever the store throws,
    permission-denied included.  Its reads (get by id, list metadata)
    never throw: a failed [getDoc] gives [null] and a failed [getDocs]
    gives the empty list.  Failures are classified by the controller
    instead.  [switchSession], [deleteSession], [saveCurrentSession] and
    the reaction to a desired-id change throw exactly when one of their
    backend calls, other than a list call, was rejected, and not by the
    remote backend with permission-denied: that error is what they throw,
    a remote permission-denied and any rejection of a list call being
    swallowed.  [refreshSessions] and the initialisation never throw,
    whatever is rejected. *)
Theorem failures_by_operation :
  forall (fenv : Env Firestore.sg) (userId sessionId : string)
         (session : ChatSession) (w : world fenv) (e : ThrownError),
    (let '(now, w1) := on_read fenv Firestore.DateNow w in
     forall w2,
       on_await fenv
         (Firestore.SetDoc userId (id session)
            (Firestore.sanitizeForFirestore
               (Firestore.JObj
                  (Firestore.sessionDataOf userId session now))))
         w1 = (Err e, w2) ->
       outcome (run fenv (Firestore.saveSessionToFirestore userId session)
                  tt w [])
       = Thrown e)
    /\ (forall w1,
          on_await fenv (Firestore.DeleteDoc userId sessionId) w
            = (Err e, w1) ->
          outcome (run fenv
                     (Firestore.deleteSessionFromFirestore userId sessionId)
                     tt w [])
          = Thrown e)
    /\ (exists v,
          outcome (run fenv
                     (Firestore.getSessionFromFirestore userId sessionId)
                     tt w [])
          = Returned v)
    /\ (forall w1,
          on_await fenv (Firestore.GetDoc userId sessionId) w
            = (Err e, w1) ->
          outcome (run fenv
                     (Firestore.getSessionFromFirestore userId sessionId)
                     tt w [])
          = Returned None)
    /\ (exists v,
          outcome (run fenv
                     (Firestore.getSessionsMetadataFromFirestore userId)
                     tt w [])
          = Returned v)
    /\ (forall w1,
          on_await fenv (Firestore.GetDocs userId) w = (Err e, w1) ->
          outcome (run fenv
                     (Firestore.getSessionsMetadataFromFirestore userId)
                     tt w [])
          = Returned [])
    /\ (forall (henv : Env Hook.sg) (cl : Hook.Closure) (op : Init.Op)
               (m : Hook.Machine) (hw : world henv),
          let r := run henv (Init.task cl op) m hw [] in
          match op with
          | Init.Switch _ | Init.Delete _ | Init.Save _ _
          | Init.UrlChanged =>
              forall thrown,
                outcome r = Thrown thrown <->
                exists c,
                  In (c, thrown) (Hook.rejections (trace r))
                  /\ Hook.isList c = false
                  /\ (Hook.isRemote c = true ->
                      isPermissionDenied thrown = false)
          | Init.Refresh | Init.Initialise | Init.Clear
          | Init.UserChanged =>
              outcome r = Returned tt
          end).
Proof.
  intros fenv userId sessionId session w e.
  split.
  { exact (FirestoreFacts.saveSessionToFirestore_rethrows fenv userId
             session w [] e). }
  split.
  { intros w1 H.
    exact (FirestoreFacts.deleteSessionFromFirestore_rethrows fenv userId
             sessionId w w1 [] e H). }
  destruct (FirestoreFacts.getSessionFromFirestore_returns fenv userId
              sessionId w []) as [Hget1 Hget2].
  destruct (FirestoreFacts.getSessionsMetadataFromFirestore_returns fenv
              userId w []) as [Hlist1 Hlist2].
  split; [exact Hget1 |].
  split; [intros w1 H; exact (Hget2 e w1 H) |].
  split; [exact Hlist1 |].
  split; [intros w1 H; exact (Hlist2 e w1 H) |].
  intros henv cl op m hw.
  destruct op as [target | target | data forSessionId | | | | |];
    cbv zeta.
  - apply HookFacts.switch_classifies.
  - apply HookFacts.delete_classifies.
  - apply HookFacts.save_classifies.
  - reflexivity.
  - apply HookFacts.refreshSessions_run.
  - apply HookFacts.reaction_classifies.
  - apply HookFacts.initEffect_returns.
  - reflexivity.
Qed.

(** C9 (as the code has it).  [updatedAt] is rewritten with the clock
    reading of the moment (a) on the update path of [saveCurrentSession],
    in the session handed to the backend and made current, and (b) by
    every remote save, in the document handed to [setDoc]; so also by the
    save-before-switch when it goes to the remote backend.  The
    save-before-switch itself hands the current session over unchanged
    (to the local store as it is).  The new value is not smaller than the
    old one whenever the clock reading is not. *)
Theorem updatedAt_is_the_clock_reading :
  (forall (env : Env Hook.sg) (initial : option string) (who : option User)
          (m : Hook.Machine) (w : world env) (data : SessionData)
          (forSessionId : option (option string)) (current : ChatSession),
     Hook.currentSession (Hook.hook m) = Some current ->
     let cl := Hook.render initial who m in
     Hook.staleTarget forSessionId cl = false ->
     let now := fst (on_read env Hook.DateNow w) in
     let r := run env (Hook.saveCurrentSession cl data forSessionId)
                m w [] in
     (forall c s, In c (Hook.awaited (trace r)) ->
                  Hook.savedBy c = Some s ->
                  updatedAt s = now
                  /\ (updatedAt current <= now ->
                      updatedAt current <= updatedAt s))
     /\ (exists c s, In c (Hook.awaited (trace r))
                     /\ Hook.savedBy c = Some s)
     /\ (outcome r = Returned tt ->
         exists s',
           Hook.currentSession (Hook.hook (final r)) = Some s'
           /\ updatedAt s' = now
           /\ (updatedAt current <= now ->
               updatedAt current <= updatedAt s')))
  /\ (forall (fenv : Env Firestore.sg) (userId : string)
             (session : ChatSession) (w : world fenv),
        let now := fst (on_read fenv Firestore.DateNow w) in
        Firestore.getProp (Firestore.sessionDataOf userId session now)
          "updatedAt" = Firestore.JNum now
        /\ exists settled rest,
             trace (run fenv
                      (Firestore.saveSessionToFirestore userId session)
                      tt w [])
             = EvRead (sg := Firestore.sg) Firestore.DateNow now
                 :: EvAwait (sg := Firestore.sg)
                      (Firestore.SetDoc userId (id session)
                         (Firestore.JObj
                            (Firestore.sessionDataOf userId session now)))
                      settled
                 :: rest)
  /\ (forall (env : Env Hook.sg) (initial : option string)
             (who : option User) (m : Hook.Machine) (w : world env)
             (target : string),
        let r := run env
                   (Hook.switchSession (Hook.render initial who m) target)
                   m w [] in
        forall c s, In c (Hook.awaited (trace r)) ->
                    Hook.savedBy c = Some s ->
                    Hook.currentSession (Hook.hook m) = Some s).
Proof.
  split; [| split].
  - intros env initial who m w data forSessionId current Hcur cl Hstale
      now r.
    destruct (HookFacts.save_update_stamps env initial who m w data
                forSessionId current Hcur Hstale) as (Hsaved & Hsome & Hmem).
    fold cl now r in Hsaved, Hsome, Hmem.
    split; [| split].
    + intros c s Hin Hs. pose proof (Hsaved c s Hin Hs) as E.
      split; [exact E |]. rewrite E. auto.
    + exact Hsome.
    + intro Hout. destruct (Hmem Hout) as (s' & Hs' & E).
      exists s'. split; [exact Hs' |]. split; [exact E |].
      rewrite E. auto.
  - intros fenv userId session w.
    exact (FirestoreFacts.saveSessionToFirestore_stamps fenv userId
             session w).
  - intros env initial who m w target.
    exact (HookFacts.switch_hands_over_current env initial who m w target).
Qed.

Lemma updatedAt_is_the_clock_reading_witness :
  Hook.currentSession (Hook.hook Scripted.loadedA) = Some Scripted.sessionA
  /\ Hook.staleTarget None (Hook.render None None Scripted.loadedA) = false
  /\ exists c s,
       In c (Hook.awaited
               (trace (run (Scripted.scriptEnv Scripted.calm)
                         (Hook.saveCurrentSession
                            (Hook.render None None Scripted.loadedA)
                            Scripted.dataOne None)
                         Scripted.loadedA tt [])))
       /\ Hook.savedBy c = Some s.
Proof.
  split; [reflexivity |]. split; [reflexivity |].
  destruct updatedAt_is_the_clock_reading as (Hsave & _).
  destruct (Hsave (Scripted.scriptEnv Scripted.calm) None None
              Scripted.loadedA tt Scripted.dataOne None Scripted.sessionA
              eq_refl eq_refl) as (_ & Hsome & _).
  exact Hsome.
Defined.

End Engine.

(* ================================================================== *)
(** * Further properties of the controller *)
(* ================================================================== *)

Module HookMore.
Import Hook.
Import HookFacts.

(** [refreshSessions] (lines 80-95) never throws and touches nothing but
    the metadata list.  With a trusted identity it makes one remote list
    call, without one a local list call if IndexedDB is available and no
    call otherwise; the list is replaced by what the call answers, and
    kept as it is when the call fails (with any error). *)
Theorem refresh_replaces_list_or_keeps_it :
  forall (env : Env sg) (cl : Closure) (m : Machine) (w : world env),
    let r := run env (refreshSessions cl) m w [] in
    outcome r = Returned tt
    /\ currentSession (hook (final r)) = currentSession (hook m)
    /\ currentSessionId (hook (final r)) = currentSessionId (hook m)
    /\ isLoading (hook (final r)) = isLoading (hook m)
    /\ isAvailable (hook (final r)) = isAvailable (hook m)
    /\ refs (final r) = refs m
    /\ (let '(backend, w1) := backendAt env cl w in
        match backend with
        | Some userId =>
            awaited (trace r) = [GetSessionsMetadataFromFirestore userId]
            /\ match fst (on_await env
                            (GetSessionsMetadataFromFirestore userId) w1) with
               | Ok metadata => sessions (hook (final r)) = metadata
               | Err _ => sessions (hook (final r)) = sessions (hook m)
               end
        | None =>
            let '(available, w2) := on_read env IsIndexedDBAvailable w1 in
            if available then
              awaited (trace r) = [GetAllSessionMetadata]
              /\ match fst (on_await env GetAllSessionMetadata w2) with
                 | Ok metadata => sessions (hook (final r)) = metadata
                 | Err _ => sessions (hook (final r)) = sessions (hook m)
                 end
            else awaited (trace r) = [] /\ final r = m
        end).
Proof.
  intros env cl m w. cbv zeta.
  unfold refreshSessions, trustedIdentity, backendAt.
  destruct m as [h rf].
  destruct (user cl) as [u |]; world_cases; units; repeat split;
    reflexivity.
Qed.

(** [switchSession] (lines 239-290), by outcome.  Returning [null] or
    throwing leaves the whole state as it was (also after the
    save-before-switch was made); returning data means the loaded session
    is current under its own id and the data are its content fields.  The
    metadata list is never touched, and a switch to the current id makes
    no call at all. *)
Theorem switch_outcomes :
  forall (env : Env sg) (initial : option string) (who : option User)
         (m : Machine) (w : world env) (target : string),
    let r := run env (switchSession (render initial who m) target) m w [] in
    match outcome r with
    | Returned None => final r = m
    | Returned (Some data) =>
        exists s b,
          currentSession (hook (final r)) = Some s
          /\ currentSessionId (hook (final r)) = Some (id s)
          /\ data = projection s
          /\ In (EvAwait (sg := sg) (loadCall b target)
                   (loadReply b target (Ok (Some s))))
                (trace r)
    | Thrown _ => final r = m
    end
    /\ sessions (hook (final r)) = sessions (hook m)
    /\ isLoading (hook (final r)) = isLoading (hook m)
    /\ isAvailable (hook (final r)) = isAvailable (hook m)
    /\ refs (final r) = refs m
    /\ (Some target = currentSessionId (hook m) ->
        outcome r = Returned None /\ trace r = []).
Proof.
  intros env initial who m w target. cbv zeta.
  unfold switchSession, render. destruct m as [h rf]. cbn [seen hook].
  destruct (eqId (Some target) (currentSessionId h)) eqn:Eid.
  - cbn. repeat split; intros; repeat split; reflexivity.
  - assert (Hne : Some target <> currentSessionId h)
      by (apply eqId_false; exact Eid).
    unfold persist, loadSession, trustedIdentity, backendAt,
      ignorePermissionDenied.
    cbn [user].
    destruct (currentSession h) as [current |] eqn:Ecur;
      [destruct (messages current) as [| msg more] eqn:Emsgs |];
      (destruct who as [u |]; world_cases);
      units; repeat split; try reflexivity;
      try (exfalso; apply Hne; assumption);
      try (eexists; exists None; repeat split; try reflexivity;
           cbn; tauto);
      try match goal with
          | u : User |- _ =>
              eexists; exists (Some (uid u)); repeat split;
              try reflexivity; cbn; tauto
          end.
Qed.

(** One call of [saveCurrentSession] on an existing session keeps its
    identity. *)
Lemma save_identity_step (env : Env sg) (initial : option string)
    (who : option User) (m : Machine) (w : world env) (data : SessionData)
    (forSessionId : option (option string)) (current : ChatSession) :
  currentSession (hook m) = Some current ->
  let r := run env
             (saveCurrentSession (render initial who m) data forSessionId)
             m w [] in
  (exists s',
     currentSession (hook (final r)) = Some s'
     /\ id s' = id current /\ createdAt s' = createdAt current)
  /\ currentSessionId (hook (final r)) = currentSessionId (hook m)
  /\ (forall c s, In c (awaited (trace r)) -> savedBy c = Some s ->
                  id s = id current /\ createdAt s = createdAt current)
  /\ ~ In EnforceSessionLimit (awaited (trace r)).
Proof.
  intros Hcur. cbv zeta.
  unfold saveCurrentSession, render. destruct m as [h rf].
  cbn [seen hook] in *. rewrite Hcur.
  destruct (staleTarget forSessionId (mkClosure initial who h)).
  - cbn. rewrite Hcur. repeat split; try (intros; contradiction); eauto.
  - unfold persist, trustedIdentity, ignorePermissionDenied. cbn [user].
    destruct (String.eqb (title current) "New Chat"
              && (0 <? Z.of_nat (length (data_messages data))));
      (destruct who as [u |]; world_cases);
      rewrite ?Hcur; calls_facts;
      try solve [eexists; repeat split; reflexivity];
      try solve [intuition discriminate].
Qed.

(** The identity of a session never changes: with a current session,
    no call of [saveCurrentSession] (whatever the data, the target id and
    the answers of the backend) changes the [id] or the [createdAt] of the
    current session, or hands a session with another [id] or [createdAt]
    to a backend; nor does any sequence of such calls. *)
Theorem save_keeps_identity :
  forall (env : Env sg) (initial : option string) (who : option User)
         (m : Machine) (w : world env) (current : ChatSession),
    currentSession (hook m) = Some current ->
    (forall data forSessionId,
       let r := run env
                  (saveCurrentSession (render initial who m) data
                     forSessionId) m w [] in
       (exists s',
          currentSession (hook (final r)) = Some s'
          /\ id s' = id current /\ createdAt s' = createdAt current)
       /\ currentSessionId (hook (final r)) = currentSessionId (hook m)
       /\ (forall c s, In c (awaited (trace r)) -> savedBy c = Some s ->
                       id s = id current /\ createdAt s = createdAt current))
    /\ (forall saves,
        exists s',
          currentSession
            (hook (fst (saveRepeatedly env initial who saves m w))) = Some s'
          /\ id s' = id current /\ createdAt s' = createdAt current).
Proof.
  intros env initial who m w current Hcur. split.
  - intros data forSessionId.
    destruct (save_identity_step env initial who m w data forSessionId
                current Hcur) as (H1 & H2 & H3 & _).
    auto.
  - intro saves. revert m w current Hcur.
    induction saves as [| [data forSessionId] rest IH];
      intros m w current Hcur.
    + exists current. cbn. auto.
    + cbn [saveRepeatedly].
      destruct (save_identity_step env initial who m w data forSessionId
                  current Hcur) as ((s1 & Hs1 & Hid & Hcreated) & _).
      cbv zeta in Hs1.
      destruct (IH _ (after (run env
                   (saveCurrentSession (render initial who m) data
                      forSessionId) m w [])) s1 Hs1)
        as (s' & Hs' & Hid' & Hcreated').
      exists s'. split; [exact Hs' |]. split; congruence.
Qed.

Lemma save_keeps_identity_witness :
  currentSession (hook Scripted.loadedA) = Some Scripted.sessionA
  /\ forall saves,
     exists s',
       currentSession
         (hook (fst (saveRepeatedly (Scripted.scriptEnv Scripted.calm)
                       None None saves Scripted.loadedA tt))) = Some s'
       /\ id s' = id Scripted.sessionA
       /\ createdAt s' = createdAt Scripted.sessionA.
Proof.
  split; [reflexivity |].
  destruct (save_keeps_identity (Scripted.scriptEnv Scripted.calm) None None
              Scripted.loadedA tt Scripted.sessionA eq_refl) as (_ & H).
  exact H.
Defined.

(** The creation path of [saveCurrentSession] (lines 336-364).  Without a
    current session, a save that is not discarded builds the new session
    from the template of [createEmptySession], the data and the derived
    title, and hands it to the active backend as its first call.  The
    retention limit is enforced only after a local save that succeeded,
    never after a remote one.  If the call throws (a rejected save, or a
    rejected [enforceSessionLimit] after the session was saved), the state
    is left as it was: the session is not made current.  If it returns,
    the session is current under its id. *)
Theorem creation_path :
  forall (env : Env sg) (initial : option string) (who : option User)
         (m : Machine) (w : world env) (data : SessionData)
         (forSessionId : option (option string)),
    currentSession (hook m) = None ->
    staleTarget forSessionId (render initial who m) = false ->
    let r := run env
               (saveCurrentSession (render initial who m) data forSessionId)
               m w [] in
    let calls := awaited (trace r) in
    let template := fst (on_read env CreateEmptySession w) in
    exists derived,
      let created :=
        mkSession (id template) derived (data_messages data)
          (data_xmlSnapshots data) (data_diagramXml data)
          (data_thumbnailDataUrl data) (data_diagramHistory data)
          (createdAt template) (updatedAt template) in
      derivedTitles (trace r) = [(data_messages data, derived)]
      /\ (exists b rest, calls = saveCall b created :: rest)
      /\ (In EnforceSessionLimit calls ->
          exists rest,
            calls = SaveSession created :: EnforceSessionLimit :: rest)
      /\ (forall u, In (SaveSessionToFirestore u created) calls ->
                    ~ In EnforceSessionLimit calls)
      /\ match outcome r with
         | Returned _ =>
             currentSession (hook (final r)) = Some created
             /\ currentSessionId (hook (final r)) = Some (id template)
         | Thrown _ => final r = m
         end.
Proof.
  intros env initial who m w data forSessionId Hcur Hstale. cbv zeta.
  unfold saveCurrentSession, render in *. destruct m as [h rf].
  cbn [seen hook] in *. rewrite Hcur, Hstale.
  unfold refreshSessions, trustedIdentity, ignorePermissionDenied.
  cbn [user].
  destruct who as [u |]; world_cases;
    eexists; (split; [reflexivity |]);
    (split; [first [ exists None; eexists; reflexivity
                   | match goal with
                     | u : User |- _ =>
                         exists (Some (uid u)); eexists; reflexivity
                     end ] |]);
    repeat split; try reflexivity; intros;
    repeat match goal with
           | H : _ \/ _ |- _ => destruct H
           | H : False |- _ => destruct H
           | H : _ = EnforceSessionLimit |- _ => discriminate H
           | H : SaveSession _ = SaveSessionToFirestore _ _ |- _ =>
               discriminate H
           | H : GetAllSessionMetadata = _ |- _ => discriminate H
           | H : EnforceSessionLimit = _ |- _ => try discriminate H
           end;
    try solve [eexists; reflexivity];
    try solve [intro Hin; cbn in Hin; intuition discriminate].
Qed.

Lemma creation_path_witness :
  currentSession (hook Scripted.blank) = None
  /\ staleTarget None (render None None Scripted.blank) = false
  /\ exists derived,
       derivedTitles
         (trace (run (Scripted.scriptEnv Scripted.calm)
                   (saveCurrentSession (render None None Scripted.blank)
                      Scripted.dataOne None)
                   Scripted.blank tt []))
       = [(data_messages Scripted.dataOne, derived)].
Proof.
  split; [reflexivity |]. split; [reflexivity |].
  destruct (creation_path (Scripted.scriptEnv Scripted.calm) None None
              Scripted.blank tt Scripted.dataOne None eq_refl eq_refl)
    as (derived & H & _).
  exists derived. exact H.
Defined.

(** The update path of [saveCurrentSession] (lines 366-414).  With a
    current session, a save that is not discarded makes exactly one
    backend call, the save of the updated session, and no list refresh.
    The updated session takes [messages], [xmlSnapshots] and [diagramXml]
    from the data; [thumbnailDataUrl] and [diagramHistory] are taken from
    the data only when the data hold a value and are otherwise kept ([??]:
    an explicit null keeps the old value as an unset field does).  A save
    that throws leaves the whole state as it was. *)
Theorem update_path :
  forall (env : Env sg) (initial : option string) (who : option User)
         (m : Machine) (w : world env) (data : SessionData)
         (forSessionId : option (option string)) (current : ChatSession),
    currentSession (hook m) = Some current ->
    staleTarget forSessionId (render initial who m) = false ->
    let r := run env
               (saveCurrentSession (render initial who m) data forSessionId)
               m w [] in
    exists updated b,
      awaited (trace r) = [saveCall b updated]
      /\ messages updated = data_messages data
      /\ xmlSnapshots updated = data_xmlSnapshots data
      /\ diagramXml updated = data_diagramXml data
      /\ thumbnailDataUrl updated
         = match data_thumbnailDataUrl data with
           | Defined v => Defined v
           | Undefined | Null => thumbnailDataUrl current
           end
      /\ diagramHistory updated
         = match data_diagramHistory data with
           | Defined v => Defined v
           | Undefined | Null => diagramHistory current
           end
      /\ match outcome r with
         | Returned _ =>
             currentSession (hook (final r)) = Some updated
             /\ sessions (hook (final r))
                = map (patchMetadata updated) (sessions (hook m))
         | Thrown _ => final r = m
         end.
Proof.
  intros env initial who m w data forSessionId current Hcur Hstale.
  cbv zeta.
  unfold saveCurrentSession, render in *. destruct m as [h rf].
  cbn [seen hook] in *. rewrite Hcur, Hstale.
  unfold persist, trustedIdentity, ignorePermissionDenied. cbn [user].
  destruct (String.eqb (title current) "New Chat"
            && (0 <? Z.of_nat (length (data_messages data))));
    (destruct who as [u |]; world_cases);
    eexists;
    first [ exists None; split; [reflexivity |]
          | match goal with
            | u : User |- _ => exists (Some (uid u)); split; [reflexivity |]
            end ];
    cbn; unfold nullish;
    destruct (data_thumbnailDataUrl data), (data_diagramHistory data);
    repeat split; reflexivity.
Qed.

Lemma update_path_witness :
  currentSession (hook Scripted.loadedA) = Some Scripted.sessionA
  /\ staleTarget None (render None None Scripted.loadedA) = false
  /\ exists updated b,
       awaited (trace (run (Scripted.scriptEnv Scripted.calm)
                         (saveCurrentSession
                            (render None None Scripted.loadedA)
                            Scripted.dataOne None)
                         Scripted.loadedA tt []))
       = [saveCall b updated]
       /\ messages updated = data_messages Scripted.dataOne.
Proof.
  split; [reflexivity |]. split; [reflexivity |].
  destruct (update_path (Scripted.scriptEnv Scripted.calm) None None
              Scripted.loadedA tt Scripted.dataOne None Scripted.sessionA
              eq_refl eq_refl) as (updated & b & H1 & H2 & _).
  exists updated, b. split; [exact H1 | exact H2].
Defined.

(** ** The metadata list under [patchMetadata] (lines 398-413) *)

Lemma patchMetadata_id (u : ChatSession) (s : SessionMetadata) :
  meta_id (patchMetadata u s) = meta_id s.
Proof.
  unfold patchMetadata.
  destruct (String.eqb (meta_id s) (id u)); reflexivity.
Qed.

(** Rewriting the list in place keeps its length, the ids and their
    order, and the creation times; an entry under another id is left as
    it is, and a list that has no entry for the session is left as it is
    altogether (the saved session is then not listed until the next
    refresh).  Every entry under the id of the session carries its title,
    [updatedAt], number of messages, diagram flag and thumbnail. *)
Theorem patched_list :
  forall (updated : ChatSession) (list : list SessionMetadata),
    let patched := map (patchMetadata updated) list in
    length patched = length list
    /\ map meta_id patched = map meta_id list
    /\ map meta_createdAt patched = map meta_createdAt list
    /\ (forall s, In s list -> meta_id s <> id updated -> In s patched)
    /\ (~ In (id updated) (map meta_id list) -> patched = list)
    /\ (forall s, In s patched -> meta_id s = id updated ->
          meta_title s = title updated
          /\ meta_updatedAt s = updatedAt updated
          /\ meta_messageCount s = Z.of_nat (length (messages updated))
          /\ meta_hasDiagram s = hasDiagramOf (diagramXml updated)
          /\ meta_thumbnailDataUrl s = thumbnailDataUrl updated).
Proof.
  intros updated list patched. subst patched.
  split; [apply length_map |].
  split.
  { rewrite map_map. apply map_ext. intro s. apply patchMetadata_id. }
  split.
  { rewrite map_map. apply map_ext. intro s. unfold patchMetadata.
    destruct (String.eqb (meta_id s) (id updated)); reflexivity. }
  split.
  { intros s Hin Hne. apply in_map_iff. exists s. split; [| exact Hin].
    unfold patchMetadata. apply String.eqb_neq in Hne. now rewrite Hne. }
  split.
  { intro Hnot. induction list as [| s rest IH]; [reflexivity |].
    cbn [map]. rewrite IH.
    - f_equal. unfold patchMetadata.
      destruct (String.eqb (meta_id s) (id updated)) eqn:E;
        [| reflexivity].
      apply String.eqb_eq in E. elim Hnot. left. exact E.
    - intro Hin. apply Hnot. right. exact Hin. }
  intros s Hin Hid. apply in_map_iff in Hin.
  destruct Hin as (s0 & Hs & _). subst s. unfold patchMetadata in *.
  destruct (String.eqb (meta_id s0) (id updated)) eqn:E.
  - cbn. repeat split; reflexivity.
  - apply String.eqb_neq in E. contradiction.
Qed.

(** The reaction to a desired-id change never reloads the current
    session: it changes the hook state only by installing a session whose
    id differs from the current id.  A load that answers the session
    already current leaves the session in memory as it is, whatever
    content the store holds for it. *)
Theorem reaction_adopts_only_another_id :
  forall (env : Env sg) (cl : Closure) (m : Machine) (w : world env),
    let r := run env (urlChangeEffect cl) m w [] in
    hook (final r) = hook m
    \/ exists s,
         currentSession (hook (final r)) = Some s
         /\ currentSessionId (hook (final r)) = Some (id s)
         /\ currentSessionId (hook m) <> Some (id s)
         /\ sessions (hook (final r)) = sessions (hook m)
         /\ isLoading (hook (final r)) = isLoading (hook m)
         /\ isAvailable (hook (final r)) = isAvailable (hook m).
Proof.
  intros env cl m w. cbv zeta.
  unfold urlChangeEffect, handleSessionIdChange, loadSession,
    trustedIdentity, ignorePermissionDenied.
  destruct m as [h rf]. cbn.
  destruct (isInitializedRef rf); cbn; [| auto].
  destruct (isAvailable (seen cl)); cbn; [| auto].
  destruct (truthy (initialSessionId cl)) as [sid |]; cbn; [| auto].
  destruct (user cl) as [u |]; world_cases; rewrite ?Z.eqb_refl; cbn;
    auto;
    match goal with
    | |- context [adoptIfDifferent ?s ?h] =>
        unfold adoptIfDifferent;
        destruct (eqId (currentSessionId h) (Some (id s))) eqn:E; cbn;
        [left; reflexivity
        | right; exists s; apply eqId_false in E; repeat split; auto]
    end.
Qed.

(** The navigation sequence counter (lines 179-184).  The effect
    increments it by exactly one when the controller is initialised and
    available, also for a null or empty desired id, and then starts a load
    exactly when the desired id is truthy; otherwise the effect does
    nothing at all.  It never touches [isInitializedRef]. *)
Theorem reaction_counts_when_armed :
  forall (env : Env sg) (cl : Closure) (m : Machine) (w : world env),
    let r := run env (urlChangeEffect cl) m w [] in
    isInitializedRef (refs (final r)) = isInitializedRef (refs m)
    /\ if isInitializedRef (refs m) && isAvailable (seen cl) then
         urlChangeSequenceRef (refs (final r))
         = urlChangeSequenceRef (refs m) + 1
         /\ match truthy (initialSessionId cl) with
            | Some sessionId =>
                exists b, awaited (trace r) = [loadCall b sessionId]
            | None => trace r = [] /\ hook (final r) = hook m
            end
       else final r = m /\ trace r = [] /\ outcome r = Returned tt.
Proof.
  intros env cl m w. cbv zeta.
  unfold urlChangeEffect, handleSessionIdChange, loadSession,
    trustedIdentity, ignorePermissionDenied.
  destruct m as [h [initialised counter]]. cbn.
  destruct initialised; cbn; [| auto].
  destruct (isAvailable (seen cl)); cbn; [| auto].
  destruct (truthy (initialSessionId cl)) as [sid |]; cbn; [| auto].
  destruct (user cl) as [u |]; world_cases; rewrite ?Z.eqb_refl; cbn;
    repeat split;
    first [ reflexivity
          | exists None; reflexivity
          | match goal with
            | u : User |- _ => exists (Some (uid u)); reflexivity
            end ].
Qed.

(** The reaction leaves the hook state as it was or installs a session
    with its id. *)
Lemma reaction_never_clears_shape (env : Env sg) (cl : Closure)
    (m : Machine) (w : world env) :
  hook (final (run env (urlChangeEffect cl) m w [])) = hook m
  \/ exists s,
       currentSession (hook (final (run env (urlChangeEffect cl) m w [])))
       = Some s
       /\ currentSessionId
            (hook (final (run env (urlChangeEffect cl) m w [])))
          = Some (id s).
Proof.
  unfold urlChangeEffect, handleSessionIdChange, loadSession,
    trustedIdentity, ignorePermissionDenied.
  destruct m as [h rf]. cbn.
  destruct (isInitializedRef rf); cbn; [| auto].
  destruct (isAvailable (seen cl)); cbn; [| auto].
  destruct (truthy (initialSessionId cl)) as [sid |]; cbn; [| auto].
  destruct (user cl) as [u |]; world_cases; rewrite ?Z.eqb_refl; cbn;
    auto;
    match goal with
    | |- context [adoptIfDifferent ?s ?h] =>
        destruct (adoptIfDifferent_cases s h) as [E | [E1 E2]];
        [left; exact E | right; exists s; auto]
    end.
Qed.

End HookMore.

(* ================================================================== *)
(** * Properties of the initialisation *)
(* ================================================================== *)

Module InitFacts.
Import Hook.
Import HookFacts.
Import HookMore.
Import Init.

(** [init] (lines 107-170) never throws and always ends with [isLoading]
    false.  [isAvailable] becomes true exactly when a user is present or
    IndexedDB is available (the probe is not called when a user is
    present); when it becomes false no backend call is made and the
    list and the current session are left alone.  The refs are not
    touched. *)
Theorem init_always_stops_loading :
  forall (env : Env sg) (cl : Closure) (m : Machine) (w : world env),
    let r := run env (init cl) m w [] in
    outcome r = Returned tt
    /\ isLoading (hook (final r)) = false
    /\ refs (final r) = refs m
    /\ isAvailable (hook (final r))
       = match user cl with
         | Some _ => true
         | None => fst (on_read env IsIndexedDBAvailable w)
         end
    /\ (isAvailable (hook (final r)) = false ->
        awaited (trace r) = []
        /\ sessions (hook (final r)) = sessions (hook m)
        /\ currentSession (hook (final r)) = currentSession (hook m)
        /\ currentSessionId (hook (final r)) = currentSessionId (hook m)).
Proof.
  intros env cl m w. cbv zeta.
  unfold init, noBackend, loadSession, trustedIdentity,
    ignorePermissionDenied.
  destruct m as [h rf].
  destruct (user cl) as [u |];
    destruct (truthy (initialSessionId cl)) as [sid |];
    world_cases; repeat split; intros; try reflexivity; try discriminate.
Qed.

(** The one-time migration (line 120) is called exactly when no user is
    present and IndexedDB is available, and it is then the first backend
    call.  When it is accepted the local list call follows it.  When it
    is rejected, initialisation stops there: the migration is the only
    backend call, no list and no session is read, the list and the
    current session stay as they were, and [init] still returns, with
    [isLoading] false (the failure is logged, not thrown). *)
Theorem init_migrates_first_without_user :
  forall (env : Env sg) (cl : Closure) (m : Machine) (w : world env),
    let r := run env (init cl) m w [] in
    let calls := awaited (trace r) in
    (In MigrateFromLocalStorage calls <->
     user cl = None /\ fst (on_read env IsIndexedDBAvailable w) = true)
    /\ (In MigrateFromLocalStorage calls ->
        exists rest,
          calls = MigrateFromLocalStorage :: rest
          /\ ~ In MigrateFromLocalStorage rest)
    /\ (forall e,
          In (MigrateFromLocalStorage, e) (rejections (trace r)) ->
          calls = [MigrateFromLocalStorage]
          /\ outcome r = Returned tt
          /\ isLoading (hook (final r)) = false
          /\ sessions (hook (final r)) = sessions (hook m)
          /\ currentSession (hook (final r)) = currentSession (hook m)
          /\ currentSessionId (hook (final r)) = currentSessionId (hook m))
    /\ (In MigrateFromLocalStorage calls ->
        (forall e,
           ~ In (MigrateFromLocalStorage, e) (rejections (trace r))) ->
        exists rest,
          calls = MigrateFromLocalStorage :: GetAllSessionMetadata :: rest)
    /\ (calls = [MigrateFromLocalStorage] ->
        sessions (hook (final r)) = sessions (hook m)
        /\ currentSession (hook (final r)) = currentSession (hook m)
        /\ currentSessionId (hook (final r)) = currentSessionId (hook m)).
Proof.
  intros env cl m w. cbv zeta.
  unfold init, noBackend, loadSession, trustedIdentity,
    ignorePermissionDenied.
  destruct m as [h rf].
  destruct (user cl) as [u |];
    destruct (truthy (initialSessionId cl)) as [sid |];
    world_cases; repeat split; intros;
    repeat match goal with
           | H : _ /\ _ |- _ => destruct H
           | H : _ \/ _ |- _ => destruct H
           | H : False |- _ => destruct H
           | H : (_, _) = (_, _) |- _ => inversion H; clear H; subst
           end;
    try reflexivity; try discriminate; try tauto;
    try solve [eexists; split; [reflexivity | cbn; intuition discriminate]];
    try solve [eexists; reflexivity];
    try solve
      [ exfalso;
        match goal with
        | H : forall e : ThrownError, ~ _ |- _ =>
            eapply H; left; reflexivity
        end ].
Qed.

(** The deep link of [init] (lines 139-163).  The current session changes
    only by installing, under its own id, a session that a load of the
    desired id answered; that load is the last backend call and is made
    only after the list call has answered or was swallowed.  With no
    desired id (null or empty), with a load that finds nothing or fails,
    or with a list call that fails (other than by a remote
    permission-denied), the current session is left as it was. *)
Theorem init_deep_link :
  forall (env : Env sg) (cl : Closure) (m : Machine) (w : world env),
    let r := run env (init cl) m w [] in
    let calls := awaited (trace r) in
    ((currentSession (hook (final r)) = currentSession (hook m)
      /\ currentSessionId (hook (final r)) = currentSessionId (hook m))
     \/ exists s b sessionId,
          truthy (initialSessionId cl) = Some sessionId
          /\ currentSession (hook (final r)) = Some s
          /\ currentSessionId (hook (final r)) = Some (id s)
          /\ In (EvAwait (sg := sg) (loadCall b sessionId)
                   (loadReply b sessionId (Ok (Some s))))
                (trace r))
    /\ (truthy (initialSessionId cl) = None ->
        currentSession (hook (final r)) = currentSession (hook m)
        /\ currentSessionId (hook (final r)) = currentSessionId (hook m)
        /\ forall b sessionId, ~ In (loadCall b sessionId) calls)
    /\ (forall b sessionId,
          In (loadCall b sessionId) calls ->
          truthy (initialSessionId cl) = Some sessionId
          /\ exists b' before,
               calls = (before ++ [listCall b'; loadCall b sessionId])%list).
Proof.
  intros env cl m w. cbv zeta.
  unfold init, noBackend, loadSession, trustedIdentity,
    ignorePermissionDenied.
  destruct m as [h rf].
  destruct (user cl) as [u |];
    destruct (truthy (initialSessionId cl)) as [sid |];
    world_cases;
    (split;
     [ first [ left; split; reflexivity
             | right; eexists; exists None; eexists;
               split; [reflexivity |]; split; [reflexivity |];
               split; [reflexivity |]; cbn; tauto
             | match goal with
               | u : User |- _ =>
                   right; eexists; exists (Some (uid u)); eexists;
                   split; [reflexivity |]; split; [reflexivity |];
                   split; [reflexivity |]; cbn; tauto
               end ]
     | ]);
    (split; [intro Hnone; try discriminate Hnone;
             repeat split; try reflexivity;
             intros [b |] sessionId Hin; cbn in Hin;
             intuition discriminate |]);
    intros [b |] sessionId Hin; cbn in Hin;
    repeat match goal with
           | H : _ \/ _ |- _ => destruct H
           | H : False |- _ => destruct H
           end;
    try discriminate;
    match goal with
    | H : _ = _ |- _ => injection H as; subst
    end;
    (split; [reflexivity |]);
    first [ exists None, []; reflexivity
          | exists None, [MigrateFromLocalStorage]; reflexivity
          | match goal with
            | u : User |- _ => exists (Some (uid u)), []; reflexivity
            end ].
Qed.

(** [init] leaves the refs alone. *)
Lemma init_refs (env : Env sg) (cl : Closure) (m : Machine) (w : world env)
    (tr : list (event sg)) :
  refs (final (run env (init cl) m w tr)) = refs m.
Proof.
  unfold init, noBackend, loadSession, trustedIdentity,
    ignorePermissionDenied.
  destruct m as [h rf].
  destruct (user cl) as [u |];
    destruct (truthy (initialSessionId cl)) as [sid |];
    world_cases; reflexivity.
Qed.

Lemma initEffect_run (env : Env sg) (cl : Closure) (m : Machine)
    (w : world env) (tr : list (event sg)) :
  run env (initEffect cl) m w tr
  = if isInitializedRef (refs m)
    then mkRun (sg := sg) (Returned tt) m w tr
    else run env (init cl) (putInitialized true m) w tr.
Proof.
  unfold initEffect.
  cbn [run bind getMachine getSt].
  destruct (isInitializedRef (refs m)); reflexivity.
Qed.

(** The initialisation guard (lines 98-105).  The effect starts [init]
    only when [isInitializedRef] is not set, and sets it; so once it has
    run, running it again (for a new desired id, say) does nothing, until
    a change of user re-arms it through [resetEffect]. *)
Theorem init_runs_once_per_arming :
  forall (env : Env sg) (cl cl' : Closure) (m : Machine) (w : world env),
    let r := run env (initEffect cl) m w [] in
    let again := run env (initEffect cl') (final r) (after r) (trace r) in
    isInitializedRef (refs (final r)) = true
    /\ final again = final r
    /\ trace again = trace r
    /\ (if isInitializedRef (refs m)
        then final r = m /\ trace r = []
        else r = run env (init cl) (putInitialized true m) w [])
    /\ isInitializedRef
         (refs (final (run env resetEffect (final r) (after r) [])))
       = false.
Proof.
  intros env cl cl' m w. cbv zeta.
  assert (Hset : isInitializedRef
                   (refs (final (run env (initEffect cl) m w []))) = true).
  { rewrite initEffect_run.
    destruct (isInitializedRef (refs m)) eqn:E; cbn [final]; [exact E |].
    rewrite init_refs. reflexivity. }
  split; [exact Hset |].
  split; [| split; [| split]].
  - rewrite (initEffect_run env cl'), Hset. reflexivity.
  - rewrite (initEffect_run env cl'), Hset. reflexivity.
  - rewrite initEffect_run.
    destruct (isInitializedRef (refs m)); cbn; auto.
  - reflexivity.
Qed.

End InitFacts.

(* ================================================================== *)
(** * An invariant of the controller *)
(* ================================================================== *)

Module Invariants.
Import Hook.
Import HookFacts.
Import HookMore.
Import Init.

Ltac coherence :=
  unfold coherent in *; cbn in *;
  repeat match goal with
         | H : currentSession _ = _ |- _ => rewrite H in *
         end;
  cbn in *; try assumption; try reflexivity.

Lemma switch_coherent (env : Env sg) (cl : Closure) (m : Machine)
    (w : world env) (target : string) :
  coherent (hook m) ->
  coherent (hook (final (run env (switchSession cl target) m w []))).
Proof.
  intro H. unfold switchSession, persist, loadSession, trustedIdentity,
    ignorePermissionDenied.
  destruct m as [h rf].
  destruct (eqId (Some target) (currentSessionId (seen cl)));
    [exact H |].
  destruct (currentSession (seen cl)) as [current |];
    [destruct (0 <? Z.of_nat (length (messages current))) |];
    (destruct (user cl) as [u |]; world_cases); coherence.
Qed.

Lemma delete_coherent (env : Env sg) (cl : Closure) (m : Machine)
    (w : world env) (target : string) :
  coherent (hook m) ->
  coherent (hook (final (run env (deleteSession cl target) m w []))).
Proof.
  intro H. unfold deleteSession, refreshSessions, trustedIdentity,
    ignorePermissionDenied.
  destruct m as [h rf].
  destruct (eqId (Some target) (currentSessionId (seen cl)));
    (destruct (user cl) as [u |]; world_cases); coherence.
Qed.

Lemma save_coherent (env : Env sg) (initial : option string)
    (who : option User) (m : Machine) (w : world env) (data : SessionData)
    (forSessionId : option (option string)) :
  coherent (hook m) ->
  coherent
    (hook (final (run env
                    (saveCurrentSession (render initial who m) data
                       forSessionId) m w []))).
Proof.
  intro H. unfold saveCurrentSession, render.
  destruct m as [h rf]. cbn [seen hook] in *.
  destruct (staleTarget forSessionId (mkClosure initial who h));
    [exact H |].
  unfold persist, refreshSessions, trustedIdentity, ignorePermissionDenied.
  cbn [user].
  destruct (currentSession h) as [current |] eqn:Ecur.
  - destruct (String.eqb (title current) "New Chat"
              && (0 <? Z.of_nat (length (data_messages data))));
      (destruct who as [u |]; world_cases); coherence.
  - destruct who as [u |]; world_cases; coherence.
Qed.

Lemma reaction_coherent (env : Env sg) (cl : Closure) (m : Machine)
    (w : world env) :
  coherent (hook m) ->
  coherent (hook (final (run env (urlChangeEffect cl) m w []))).
Proof.
  intro H.
  destruct (reaction_never_clears_shape env cl m w) as [E | (s & E1 & E2)].
  - rewrite E. exact H.
  - unfold coherent. rewrite E1, E2. reflexivity.
Qed.

Lemma init_coherent (env : Env sg) (cl : Closure) (m : Machine)
    (w : world env) :
  coherent (hook m) ->
  coherent (hook (final (run env (initEffect cl) m w []))).
Proof.
  intro H. unfold initEffect, init, noBackend, loadSession,
    trustedIdentity, ignorePermissionDenied.
  destruct m as [h [initialised counter]]. cbn.
  destruct initialised; [exact H |].
  destruct (user cl) as [u |];
    destruct (truthy (initialSessionId cl)) as [sid |];
    world_cases; coherence.
Qed.

Lemma refresh_coherent (env : Env sg) (cl : Closure) (m : Machine)
    (w : world env) :
  coherent (hook m) ->
  coherent (hook (final (run env (refreshSessions cl) m w []))).
Proof.
  intro H. destruct (refreshSessions_run env cl m w []) as (_ & E1 & E2 & _).
  unfold coherent. cbv zeta in E1, E2. rewrite E1, E2. exact H.
Qed.

Lemma perform_coherent (env : Env sg) (initial : option string)
    (who : option User) (op : Op) (m : Machine) (w : world env) :
  coherent (hook m) ->
  coherent (hook (fst (perform env (render initial who m) op m w))).
Proof.
  intro H. destruct op; cbn [perform fst].
  - apply switch_coherent, H.
  - apply delete_coherent, H.
  - apply save_coherent, H.
  - reflexivity.
  - apply refresh_coherent, H.
  - apply reaction_coherent, H.
  - apply init_coherent, H.
  - exact H.
Qed.

(** ** Under interleaving *)

Ltac segment_step :=
  match goal with
  | |- forall _, _ => intro
  | |- _ /\ _ => split
  | m : Machine |- _ => destruct m as [? [? ?]]
  | |- context [match ?x with Ok _ => _ | Err _ => _ end] =>
      is_var x; destruct x
  | |- context [if ?b then _ else _] => is_var b; destruct b
  | |- context [negb ?b] => is_var b; destruct b
  | |- context [match ?o with Some _ => _ | None => _ end] =>
      is_var o; destruct o
  | |- context [isPermissionDenied ?e] =>
      is_var e; destruct (isPermissionDenied e)
  | |- context [Z.eqb ?a ?b] => destruct (Z.eqb a b)
  end.

Ltac segment_cases := repeat (cbn; segment_step); cbn.

Lemma adopt_coherent (s : ChatSession) (h : HookState) :
  coherent h -> coherent (adoptIfDifferent s h).
Proof.
  intro H. destruct (adoptIfDifferent_cases s h) as [E | [E1 E2]].
  - rewrite E. exact H.
  - unfold coherent. rewrite E1, E2. reflexivity.
Qed.

(** Every segment of every operation keeps the invariant, the update
    path of [saveCurrentSession] apart. *)
Lemma task_segments (cl : Closure) (op : Op) :
  (forall data forSessionId,
     op = Save data forSessionId ->
     currentSession (seen cl) = None \/ staleTarget forSessionId cl = true) ->
  segments (sg := sg) (fun m : Machine => coherent (hook m)) (fun m => m)
    (task cl op).
Proof.
  intro Hsave.
  destruct op as [target | target | data forSessionId | | | | |];
    unfold task.
  - unfold switchSession, persist, loadSession, trustedIdentity,
      ignorePermissionDenied.
    destruct (eqId (Some target) (currentSessionId (seen cl)));
      [cbn; auto |].
    destruct (currentSession (seen cl)) as [current |];
      [destruct (0 <? Z.of_nat (length (messages current))) |];
      (destruct (user cl) as [u |]; segment_cases; coherence).
  - unfold deleteSession, refreshSessions, trustedIdentity,
      ignorePermissionDenied.
    destruct (eqId (Some target) (currentSessionId (seen cl)));
      (destruct (user cl) as [u |]; segment_cases; coherence).
  - unfold saveCurrentSession.
    destruct (staleTarget forSessionId cl) eqn:Estale; [cbn; auto |].
    destruct (Hsave data forSessionId eq_refl) as [Hnone | Hstale];
      [| congruence].
    rewrite Hnone.
    unfold refreshSessions, trustedIdentity, ignorePermissionDenied.
    destruct (user cl) as [u |]; segment_cases; coherence.
  - segment_cases; coherence.
  - unfold refreshSessions, trustedIdentity.
    destruct (user cl) as [u |]; segment_cases; coherence.
  - unfold urlChangeEffect, handleSessionIdChange, loadSession,
      trustedIdentity, ignorePermissionDenied.
    destruct (isAvailable (seen cl));
      destruct (truthy (initialSessionId cl)) as [sessionId |];
      (destruct (user cl) as [u |]; segment_cases;
       try (apply adopt_coherent); coherence).
  - unfold initEffect, init, noBackend, loadSession, trustedIdentity,
      ignorePermissionDenied.
    destruct (user cl) as [u |];
      destruct (truthy (initialSessionId cl)) as [sessionId |];
      segment_cases; coherence.
  - segment_cases; coherence.
Qed.

(** The current id names the current session, except after a save that
    settles late.  (1) When the operations of the controller run one
    after another, from the first render on, [currentSessionId] is the
    id of [currentSession], or both are null, whatever the props and the
    answers of the backends.  (2) When they interleave, every
    synchronous segment of every operation, started in a state where
    this holds, ends in a state where it holds, the update path of
    [saveCurrentSession] apart.  (3) A save on the update path, resumed
    after its write was accepted, makes the updated session current and
    leaves [currentSessionId] as the handlers run meanwhile have set it:
    the invariant then holds only if the id is still that of the saved
    session, and is broken after a [clearCurrentSession], a
    [deleteSession] of the current session or a [switchSession]. *)
Theorem coherence_except_late_saves :
  forall (env : Env sg),
    (forall (steps : list (option string * option User * Op))
            (w : world env),
       coherent (hook (fst (history env steps initialMachine w)))
       /\ forall m w', coherent (hook m) ->
                       coherent (hook (fst (history env steps m w'))))
    /\ (forall (cl : Closure) (op : Op) (m : Machine) (w : world env)
               (steps : list (Oracle (sg := sg) * Machine * world env)),
          (forall data forSessionId,
             op = Save data forSessionId ->
             currentSession (seen cl) = None
             \/ staleTarget forSessionId cl = true) ->
          coherent (hook m) ->
          Forall (fun st => coherent (hook (snd (fst st)))) steps ->
          let '(sp, m0, w0) := start env (task cl op) m w in
          coherent (hook m0)
          /\ coherent (hook (snd (fst (drive env sp m0 w0 steps)))))
    /\ (forall (cl : Closure) (data : SessionData)
               (forSessionId : option (option string))
               (current : ChatSession) (m : Machine) (w : world env)
               (settle : Oracle (sg := sg)) (m2 : Machine)
               (w2 : world env),
          currentSession (seen cl) = Some current ->
          staleTarget forSessionId cl = false ->
          (forall c s, savedBy c = Some s -> exists v, settle c = Ok v) ->
          let '(sp, m0, w0) :=
            start env (task cl (Save data forSessionId)) m w in
          let '(sp', m3, w3) := drive env sp m0 w0 [(settle, m2, w2)] in
          m0 = m
          /\ sp' = Finished (Returned tt)
          /\ (exists updated,
                currentSession (hook m3) = Some updated
                /\ id updated = id current)
          /\ currentSessionId (hook m3) = currentSessionId (hook m2)
          /\ (coherent (hook m3) <->
              currentSessionId (hook m2) = Some (id current))).
Proof.
  intro env.
  split; [| split].
  - intros steps w.
    assert (Hstep : forall m w', coherent (hook m) ->
                      coherent (hook (fst (history env steps m w')))).
    { induction steps as [| [[initial who] op] rest IH]; intros m w' H.
      - exact H.
      - cbn [history].
        pose proof (perform_coherent env initial who op m w' H) as Hp.
        destruct (perform env (render initial who m) op m w') as [m' w''].
        apply IH. exact Hp. }
    split; [apply Hstep; reflexivity | exact Hstep].
  - intros cl op m w steps Hsave Hm Hsteps.
    destruct (segments_start (sg := sg)
                (fun m : Machine => coherent (hook m)) env (task cl op)
                (fun m => m) m w (task_segments cl op Hsave) Hm)
      as [H0 Hcont].
    destruct (start env (task cl op) m w) as [[sp m0] w0].
    split; [exact H0 |].
    apply (segments_drive (sg := sg)
             (fun m : Machine => coherent (hook m)));
      assumption.
  - intros cl data forSessionId current m w settle m2 w2 Hcur Hstale
      Haccept.
    unfold task, saveCurrentSession. rewrite Hstale, Hcur.
    unfold persist, trustedIdentity, ignorePermissionDenied, resume.
    destruct m2 as [h2 rf2].
    destruct (String.eqb (title current) "New Chat"
              && (0 <? Z.of_nat (length (data_messages data))));
      (destruct (user cl) as [u |]; world_cases;
       match goal with
       | |- context [settle ?c] =>
           let v := fresh "v" in
           let E := fresh "E" in
           destruct (Haccept c _ eq_refl) as [v E]; rewrite E
       end;
       cbn; repeat split; try reflexivity;
       try (eexists; split; reflexivity);
       unfold coherent; cbn; intro H; rewrite H; reflexivity).
Qed.

End Invariants.

(* ================================================================== *)
(** * Further properties of the remote backend adapter *)
(* ================================================================== *)

Module FirestoreMore.
Import Firestore.
Import FirestoreFacts.
Import Objects.

(** [sanitizeForFirestore] (lines 452-469) replaces [undefined] and
    nothing else: its result holds no [undefined], at any depth; a value
    is returned unchanged exactly when it holds none; it is idempotent;
    and it keeps the length of an array and the keys of an object, in
    order. *)
Theorem sanitize_replaces_only_undefined :
  forall v : jsval,
    holdsUndefined (sanitizeForFirestore v) = false
    /\ (sanitizeForFirestore v = v <-> holdsUndefined v = false)
    /\ sanitizeForFirestore (sanitizeForFirestore v)
       = sanitizeForFirestore v
    /\ match v, sanitizeForFirestore v with
       | JArr items, JArr items' =>
           length items' = length items
           /\ forall i, nth i items' JNull
                        = sanitizeForFirestore (nth i items JNull)
       | JObj props, JObj props' =>
           keys props' = keys props
           /\ forall k, hasProp props k = true ->
                        getProp props' k
                        = sanitizeForFirestore (getProp props k)
       | JUndefined, r => r = JNull
       | _, r => r = v
       end.
Proof.
  intro v.
  pose proof (sanitize_removes_undefined v) as Hclean.
  split; [exact Hclean |].
  split.
  { split.
    - intro E. rewrite <- E. exact Hclean.
    - apply sanitize_fixes_defined. }
  split; [apply sanitize_fixes_defined; exact Hclean |].
  destruct v as [| | b | n | s | items | props]; cbn; try reflexivity.
  - split; [apply length_map |].
    intro i. change JNull with (sanitizeForFirestore JNull) at 1.
    apply map_nth.
  - split.
    + unfold keys. rewrite map_map. reflexivity.
    + clear Hclean. intros k Hk.
      induction props as [| [k' x] rest IH]; [discriminate |].
      cbn in *. destruct (String.eqb k' k); [reflexivity |].
      apply IH. exact Hk.
Qed.

Lemma samePath_sym (p q : string * string) : samePath p q = samePath q p.
Proof.
  unfold samePath.
  now rewrite (String.eqb_sym (fst p)), (String.eqb_sym (snd p)).
Qed.

Lemma samePath_true (p q : string * string) : samePath p q = true <-> p = q.
Proof.
  unfold samePath. destruct p as [a b], q as [c d]. cbn.
  rewrite andb_true_iff, !String.eqb_eq. split.
  - intros [-> ->]. reflexivity.
  - intro E. injection E as -> ->. auto.
Qed.

Lemma samePath_trans (p q r : string * string) :
  samePath p q = true -> samePath p r = samePath q r.
Proof. intro H. apply samePath_true in H. now subst. Qed.

(** Writing at one path leaves what is found at the others. *)
Lemma findDoc_elsewhere (p q : string * string) (data : object)
    (ds : list ((string * string) * object)) :
  samePath q p = false ->
  findDoc p ((q, data) :: withoutDoc q ds) = findDoc p ds.
Proof.
  intro Hne. unfold findDoc. cbn [find fst]. rewrite Hne.
  induction ds as [| [q' d'] rest IH]; [reflexivity |].
  cbn [withoutDoc filter fst]. fold (withoutDoc q rest).
  destruct (samePath q' q) eqn:Eq; cbn [negb find fst].
  - rewrite (samePath_trans q' q p Eq), Hne. exact IH.
  - destruct (samePath q' p); [reflexivity | exact IH].
Qed.

(** What [saveSessionToFirestore] writes (lines 483-501).  For every
    session the data handed to [setDoc] hold no [undefined] and no array
    inside an array, so sanitising changes nothing and the transport
    accepts them, whereas the tuples themselves are an array of arrays as
    soon as there is one.  The data carry no [id] (it is the document
    name), the owner as [userId], the clock reading as [updatedAt], and
    null for an optional field that is unset or null.  In a document
    store the save succeeds, replaces the document of that user and that
    session id, and leaves every other document. *)
Theorem written_document :
  forall (userId : string) (session : ChatSession) (w : Store),
    let data := sessionDataOf userId session (clock w) in
    let r := run storeEnv (saveSessionToFirestore userId session) tt w [] in
    sanitizeForFirestore (JObj data) = JObj data
    /\ holdsUndefined (JObj data) = false
    /\ holdsNestedArray (JObj data) = false
    /\ holdsNestedArray (js_of_snapshots (xmlSnapshots session))
       = negb (Nat.eqb (length (xmlSnapshots session)) 0)
    /\ hasProp data "id" = false
    /\ getProp data "userId" = JStr userId
    /\ getProp data "updatedAt" = JNum (clock w)
    /\ getProp data "thumbnailDataUrl"
       = match thumbnailDataUrl session with
         | Defined v => JStr v
         | Undefined | Null => JNull
         end
    /\ getProp data "diagramHistory"
       = match diagramHistory session with
         | Defined h => JArr (map js_of_historyEntry h)
         | Undefined | Null => JNull
         end
    /\ outcome r = Returned tt
    /\ findDoc (userId, id session) (docs (after r)) = Some data
    /\ forall p, samePath (userId, id session) p = false ->
                 findDoc p (docs (after r)) = findDoc p (docs w).
Proof.
  intros userId session w data r.
  pose proof (sessionData_defined userId session (clock w)) as Hdef.
  pose proof (sessionData_flat userId session (clock w)) as Hflat.
  pose proof (sanitize_fixes_defined _ Hdef) as Hsan.
  fold data in Hdef, Hflat, Hsan.
  assert (Eafter : outcome r = Returned tt
                   /\ docs (after r)
                      = ((userId, id session), data)
                          :: withoutDoc (userId, id session) (docs w)).
  { subst r. unfold saveSessionToFirestore.
    cbn [run bind try_catch ask read awaiting await on_read on_await
         storeEnv storeRead storeAwait].
    fold data. rewrite Hsan.
    cbn [run bind try_catch ask read awaiting await on_read on_await
         storeEnv storeRead storeAwait].
    rewrite Hdef, Hflat.
    cbn [orb run bind try_catch ask read awaiting await on_read on_await
         storeEnv storeRead storeAwait outcome after docs].
    split; reflexivity. }
  destruct Eafter as [Eout Edocs].
  split; [exact Hsan |]. split; [exact Hdef |]. split; [exact Hflat |].
  split.
  { destruct (xmlSnapshots session) as [| [ts x] rest]; reflexivity. }
  split; [reflexivity |]. split; [reflexivity |]. split; [reflexivity |].
  split.
  { subst data. unfold sessionDataOf, restOf.
    destruct (thumbnailDataUrl session); reflexivity. }
  split.
  { subst data. unfold sessionDataOf, restOf.
    destruct (diagramHistory session); reflexivity. }
  split; [exact Eout |].
  rewrite Edocs. split.
  - apply findDoc_head.
  - intros p Hp. apply findDoc_elsewhere. exact Hp.
Qed.

Lemma getProp_setProp (k k' : string) (v : jsval) (o : object) :
  getProp (setProp k v o) k' = if String.eqb k k' then v else getProp o k'.
Proof.
  induction o as [| [k0 v0] rest IH]; cbn.
  - destruct (String.eqb k k'); reflexivity.
  - destruct (String.eqb k0 k) eqn:E0; cbn.
    + apply String.eqb_eq in E0. subst k0.
      destruct (String.eqb k k'); reflexivity.
    + rewrite IH. destruct (String.eqb k0 k') eqn:E1; [| reflexivity].
      apply String.eqb_eq in E1. subst k'.
      apply String.eqb_neq in E0.
      destruct (String.eqb k k0) eqn:E2; [| reflexivity].
      apply String.eqb_eq in E2. subst. now elim E0.
Qed.

Lemma hasProp_false_in (o : object) (k : string) :
  ~ In k (keys o) -> hasProp o k = false.
Proof.
  induction o as [| [k0 v0] rest IH]; cbn; intro H; [reflexivity |].
  destruct (String.eqb k0 k) eqn:E.
  - apply String.eqb_eq in E. elim H. auto.
  - apply IH. intro Hin. apply H. auto.
Qed.

Lemma getProp_absent (o : object) (k : string) :
  hasProp o k = false -> getProp o k = JUndefined.
Proof.
  induction o as [| [k0 v0] rest IH]; cbn; intro H; [reflexivity |].
  destruct (String.eqb k0 k); [discriminate |]. apply IH. exact H.
Qed.

(** [{ ...a, ...b }] reads as [b] where [b] has the property and as [a]
    elsewhere (the keys of an object are distinct). *)
Lemma getProp_spread (a b : object) (k : string) :
  NoDup (keys b) ->
  getProp (spread a b) k = if hasProp b k then getProp b k else getProp a k.
Proof.
  unfold spread. revert a.
  induction b as [| [k0 v0] rest IH]; intros a Hnd; [reflexivity |].
  cbn [fold_left fst snd]. inversion Hnd as [| ? ? Hnot Hrest]; subst.
  rewrite (IH _ Hrest), getProp_setProp. cbn.
  destruct (String.eqb k0 k) eqn:E; cbn; [| reflexivity].
  apply String.eqb_eq in E. subst k0.
  now rewrite (hasProp_false_in rest k Hnot).
Qed.

(** What [getSessionFromFirestore] answers (lines 523-540).  A missing
    document gives [null] and logs nothing.  A document whose
    [xmlSnapshots] cannot be read as records gives [null].  Otherwise the
    loaded object has the tuples read from the records, every other
    property of the document as it is, and as [id] the document name,
    unless the document holds an [id] of its own, which then wins (the
    spread comes after).  A document whose [xmlSnapshots] is missing or
    falsy loads with no snapshots. *)
Theorem loaded_object :
  forall (env : Env sg) (userId sessionId : string) (w : world env),
    let r := run env (getSessionFromFirestore userId sessionId) tt w [] in
    match fst (on_await env (GetDoc userId sessionId) w) with
    | Err _ => outcome r = Returned None
    | Ok None =>
        outcome r = Returned None
        /\ trace r
           = [EvAwait (sg := sg) (GetDoc userId sessionId) (Ok None)]
    | Ok (Some data) =>
        (truthyJs (getProp data "xmlSnapshots") = false ->
         deserializeSnapshots data = Ok [])
        /\ match deserializeSnapshots data with
           | Err _ => outcome r = Returned None
           | Ok tuples =>
               exists obj,
                 outcome r = Returned (Some obj)
                 /\ getProp obj "xmlSnapshots" = JArr tuples
                 /\ (NoDup (keys data) ->
                     getProp obj "id"
                     = (if hasProp data "id" then getProp data "id"
                        else JStr sessionId)
                     /\ forall k, k <> "xmlSnapshots" -> k <> "id" ->
                                  getProp obj k = getProp data k)
           end
    end.
Proof.
  intros env userId sessionId w. cbv zeta.
  unfold getSessionFromFirestore. cbn.
  destruct (on_await env (GetDoc userId sessionId) w)
    as [[[data |] | e] w1]; cbn.
  - split.
    { intro H. unfold deserializeSnapshots. now rewrite H. }
    destruct (deserializeSnapshots data) as [tuples | e]; cbn.
    + eexists. split; [reflexivity |].
      split; [rewrite getProp_setProp; reflexivity |].
      intro Hnd. split.
      * rewrite getProp_setProp.
        change (String.eqb "xmlSnapshots" "id") with false. cbv iota.
        rewrite (getProp_spread _ _ _ Hnd).
        destruct (hasProp data "id"); reflexivity.
      * intros k Hx Hid. rewrite getProp_setProp.
        apply not_eq_sym, String.eqb_neq in Hx. rewrite Hx.
        rewrite (getProp_spread _ _ _ Hnd). cbn [getProp].
        apply not_eq_sym, String.eqb_neq in Hid. rewrite Hid.
        destruct (hasProp data k) eqn:Ek; [reflexivity |].
        symmetry. apply getProp_absent. exact Ek.
    + destruct (on_read env _ w1) as [[] w2]. reflexivity.
  - split; reflexivity.
  - destruct (on_read env _ w1) as [[] w2]. reflexivity.
Qed.

(** ** Listing (lines 547-574) *)

Lemma hasDiagramJs_fails (data : object) :
  (exists e, hasDiagramJs data = Err e)
  <-> truthyJs (getProp data "diagramXml") = true
      /\ forall s, getProp data "diagramXml" <> JStr s.
Proof.
  unfold hasDiagramJs.
  destruct (getProp data "diagramXml") as [| | b | n | s | items | props];
    cbn; split;
    try (intros [e H]; discriminate H);
    try (intros [H _]; discriminate H).
  - destruct b; [| intros [e H]; discriminate H].
    intros _. split; [reflexivity | discriminate].
  - destruct b; [eexists; reflexivity | intros [H _]; discriminate H].
  - destruct (negb (n =? 0)); [| intros [e H]; discriminate H].
    intros _. split; [reflexivity | discriminate].
  - destruct (negb (n =? 0)); [eexists; reflexivity |].
    intros [H _]; discriminate H.
  - destruct (negb (String.eqb s "")); intros [e H]; discriminate H.
  - intros [_ H]. now elim (H s).
  - intros _. split; [reflexivity | discriminate].
  - intros _. eexists; reflexivity.
  - intros _. split; [reflexivity | discriminate].
  - intros _. eexists; reflexivity.
Qed.

Lemma collectMetadata_ok (documents : list (string * object)) :
  forall ms,
    collectMetadata documents = Ok ms ->
    length ms = length documents
    /\ map (fun m => match m with
                     | JObj props => getProp props "id"
                     | _ => JUndefined
                     end) ms
       = map (fun d => JStr (fst d)) documents.
Proof.
  induction documents as [| [docId data] rest IH]; intros ms H; cbn in H.
  - injection H as <-. auto.
  - destruct (hasDiagramJs data) as [flag | e]; [| discriminate].
    destruct (collectMetadata rest) as [ms' | e]; [| discriminate].
    injection H as <-. destruct (IH ms' eq_refl) as [Hlen Hids].
    cbn. rewrite Hlen, Hids. auto.
Qed.

Lemma collectMetadata_fails (documents : list (string * object)) :
  (exists e, collectMetadata documents = Err e)
  <-> Exists (fun d => exists e, hasDiagramJs (snd d) = Err e) documents.
Proof.
  induction documents as [| [docId data] rest IH]; cbn.
  - split; [intros [e H]; discriminate | intro H; inversion H].
  - destruct (hasDiagramJs data) as [flag | e] eqn:E.
    + destruct (collectMetadata rest) as [ms' | e'].
      * split; [intros [e H]; discriminate |].
        intro H. inversion H as [? ? [e He] | ? ? Hrest]; subst.
        -- cbn in He. rewrite E in He. discriminate.
        -- apply IH in Hrest. destruct Hrest as [e He]. discriminate.
      * split; [| intros _; eexists; reflexivity].
        intros _. apply Exists_cons_tl, IH. eexists; reflexivity.
    + split; [| intros _; eexists; reflexivity].
      intros _. apply Exists_cons_hd. cbn. eexists; exact E.
Qed.

(** [getSessionsMetadataFromFirestore] is all or nothing.  It never
    throws.  When every document can be projected it answers one entry
    per document, in the order of the query, under the name of the
    document.  When [getDocs] fails, or when a single document holds a
    [diagramXml] that is truthy and not a string (so that [trim] is not a
    function), the whole list is lost: the answer is the empty list. *)
Theorem listing_is_all_or_nothing :
  forall (env : Env sg) (userId : string) (w : world env),
    let r := run env (getSessionsMetadataFromFirestore userId) tt w [] in
    match fst (on_await env (GetDocs userId) w) with
    | Err _ => outcome r = Returned []
    | Ok documents =>
        match collectMetadata documents with
        | Ok ms =>
            outcome r = Returned ms
            /\ length ms = length documents
            /\ map (fun m => match m with
                             | JObj props => getProp props "id"
                             | _ => JUndefined
                             end) ms
               = map (fun d => JStr (fst d)) documents
        | Err _ => outcome r = Returned []
        end
        /\ ((exists e, collectMetadata documents = Err e) <->
            Exists (fun d =>
                      truthyJs (getProp (snd d) "diagramXml") = true
                      /\ forall s, getProp (snd d) "diagramXml" <> JStr s)
                   documents)
    end.
Proof.
  intros env userId w. cbv zeta.
  unfold getSessionsMetadataFromFirestore. cbn.
  destruct (on_await env (GetDocs userId) w) as [[documents | e] w1]; cbn.
  - split.
    + destruct (collectMetadata documents) as [ms | e] eqn:E; cbn.
      * split; [reflexivity |]. apply collectMetadata_ok. exact E.
      * destruct (on_read env _ w1) as [[] w2]. reflexivity.
    + rewrite collectMetadata_fails. split; intro H.
      * eapply Exists_impl; [| exact H].
        intros d Hd. apply hasDiagramJs_fails. exact Hd.
      * eapply Exists_impl; [| exact H].
        intros d Hd. apply hasDiagramJs_fails. exact Hd.
  - destruct (on_read env _ w1) as [[] w2]. reflexivity.
Qed.

(** ** A saved session in the listing (lines 471-509 with 547-574) *)

Lemma collection_without (userId sessionId : string)
    (ds : list ((string * string) * object)) :
  (forall d, In d ds -> fst (fst d) = userId -> snd (fst d) = sessionId) ->
  collectionOf userId (withoutDoc (userId, sessionId) ds) = [].
Proof.
  intro Honly. unfold collectionOf.
  assert (E : flat_map
                (fun d : (string * string) * object =>
                   if String.eqb (fst (fst d)) userId then
                     match updatedAtOf (snd d) with
                     | Some t => [(t, (snd (fst d), snd d))]
                     | None => []
                     end
                   else [])
                (withoutDoc (userId, sessionId) ds) = []).
  { induction ds as [| [[u s] data] rest IH]; [reflexivity |].
    unfold withoutDoc, samePath in *. cbn [filter fst snd].
    assert (Hrest : forall d, In d rest -> fst (fst d) = userId ->
                              snd (fst d) = sessionId).
    { intros d Hd. apply Honly. right. exact Hd. }
    specialize (IH Hrest).
    destruct (String.eqb u userId) eqn:Eu; cbn [andb negb].
    - apply String.eqb_eq in Eu. subst u.
      pose proof (Honly ((userId, s), data) (or_introl eq_refl) eq_refl)
        as Hs.
      cbn in Hs. subst s.
      rewrite !String.eqb_refl. cbn [andb negb]. exact IH.
    - cbn [flat_map fst snd]. rewrite Eu. exact IH. }
  rewrite E. reflexivity.
Qed.

Lemma count_of_messages (ms : list StoredMessage) :
  (if truthyJs (JNum (Z.of_nat (length (map js_of_message ms))))
   then JNum (Z.of_nat (length (map js_of_message ms)))
   else JNum 0)
  = JNum (Z.of_nat (length ms)).
Proof.
  rewrite length_map. destruct ms as [| m rest]; reflexivity.
Qed.

(** Saving a session and then listing the sessions of the user, against
    a store that holds no other session of that user: the listing has
    exactly one entry, the one of the saved session.  Its [updatedAt] is
    the clock reading of the save, its [messageCount] the number of
    messages and its [hasDiagram] the flag the controller computes in
    memory ([hasDiagramOf]); an absent thumbnail is listed as [null]. *)
Theorem saved_session_is_listed :
  forall (userId : string) (session : ChatSession) (w : Store),
    (forall d, In d (docs w) ->
               fst (fst d) = userId -> snd (fst d) = id session) ->
    outcome
      (run storeEnv
           (bind (saveSessionToFirestore userId session)
                 (fun _ => getSessionsMetadataFromFirestore userId))
           tt w [])
    = Returned
        [JObj [("id", JStr (id session));
               ("title", JStr (title session));
               ("createdAt", JNum (createdAt session));
               ("updatedAt", JNum (clock w));
               ("messageCount",
                 JNum (Z.of_nat (length (messages session))));
               ("hasDiagram", JBool (hasDiagramOf (diagramXml session)));
               ("thumbnailDataUrl",
                 match thumbnailDataUrl session with
                 | Defined v => JStr v
                 | Undefined | Null => JNull
                 end)]].
Proof.
  intros userId session w Honly.
  pose proof (sessionData_defined userId session (clock w)) as Hdef.
  pose proof (sessionData_flat userId session (clock w)) as Hflat.
  pose proof (sanitize_fixes_defined _ Hdef) as Hsan.
  pose proof (collection_without userId (id session) (docs w) Honly)
    as Hnone.
  unfold saveSessionToFirestore, getSessionsMetadataFromFirestore.
  cbn [run bind try_catch ask read awaiting await on_read on_await
       storeEnv storeRead storeAwait world fst snd].
  rewrite Hsan, Hdef, Hflat.
  cbn [orb run bind try_catch ask read awaiting await on_read on_await
       storeEnv storeRead storeAwait world fst snd docs clock lift].
  unfold collectionOf in *.
  cbn [flat_map fst snd].
  rewrite String.eqb_refl.
  assert (Et : updatedAtOf (sessionDataOf userId session (clock w))
               = Some (clock w)).
  { unfold updatedAtOf, sessionDataOf, restOf.
    destruct (thumbnailDataUrl session), (diagramHistory session);
      reflexivity. }
  rewrite Et. cbn [app].
  match goal with
  | H : map snd (fold_right insertDesc [] ?l) = [] |- _ =>
      destruct (fold_right insertDesc [] l) eqn:Efold;
      [| discriminate H]
  end.
  cbn [fold_right app]. rewrite Efold.
  cbn [insertDesc map snd collectMetadata metadataOf].
  assert (Ed : hasDiagramJs (sessionDataOf userId session (clock w))
               = Ok (JBool (hasDiagramOf (diagramXml session)))).
  { unfold hasDiagramJs, hasDiagramOf, sessionDataOf, restOf.
    destruct (thumbnailDataUrl session), (diagramHistory session);
      cbn; destruct (String.eqb (diagramXml session) ""); reflexivity. }
  rewrite Ed.
  assert (Ec : messageCountOf (sessionDataOf userId session (clock w))
               = JNum (Z.of_nat (length (messages session)))).
  { unfold messageCountOf, sessionDataOf, restOf.
    destruct (thumbnailDataUrl session), (diagramHistory session);
      cbn [getProp setProp orNull js_of_optional String.eqb Ascii.eqb
           Bool.eqb js_of_messages];
      apply count_of_messages. }
  rewrite Ec.
  unfold sessionDataOf, restOf.
  destruct (thumbnailDataUrl session), (diagramHistory session);
    reflexivity.
Qed.

Lemma saved_session_is_listed_witness :
  outcome
    (run storeEnv
         (bind (saveSessionToFirestore "alice" Scripted.sessionA)
               (fun _ => getSessionsMetadataFromFirestore "alice"))
         tt (mkStore [(("bob", "b"), [("updatedAt", JNum 7)])] 50) [])
  = Returned
      [JObj [("id", JStr "a");
             ("title", JStr "Diagram of A");
             ("createdAt", JNum 100);
             ("updatedAt", JNum 50);
             ("messageCount", JNum 1);
             ("hasDiagram", JBool true);
             ("thumbnailDataUrl", JNull)]].
Proof.
  apply (saved_session_is_listed "alice" Scripted.sessionA
           (mkStore [(("bob", "b"), [("updatedAt", JNum 7)])] 50)).
  intros d [<- | []]. cbn. discriminate.
Defined.

End FirestoreMore.

(* ================================================================== *)
(** * The global AI configuration (lines 596-625) *)

Module ConfigFacts.
Import Firestore.
Import FirestoreFacts.
Import Objects.
Import GlobalConfig.

Lemma sanitize_keeps_kind (v : jsval) :
  isArray (sanitizeForFirestore v) = isArray v.
Proof.
  destruct v; reflexivity.
Qed.

(** [sanitizeForFirestore] does not flatten: an array inside an array
    stays one. *)
Lemma sanitize_keeps_nesting (v : jsval) :
  holdsNestedArray (sanitizeForFirestore v) = holdsNestedArray v.
Proof.
  induction v as [| | b | n | s | items IH | props IH]
    using jsval_induction; cbn; try reflexivity.
  - f_equal.
    + clear IH. induction items as [| x rest IHrest]; cbn;
        [reflexivity |].
      now rewrite sanitize_keeps_kind, IHrest.
    + induction IH as [| x rest Hx _ IHrest]; cbn; [reflexivity |].
      now rewrite Hx, IHrest.
  - induction IH as [| [k x] rest Hx _ IHrest]; cbn; [reflexivity |].
    cbn in Hx. now rewrite Hx, IHrest.
Qed.

Lemma getProp_sanitized (o : object) (k : string) :
  getProp (map (fun kv => (fst kv, sanitizeForFirestore (snd kv))) o) k
  = if hasProp o k then sanitizeForFirestore (getProp o k)
    else JUndefined.
Proof.
  induction o as [| [k0 v0] rest IH]; cbn; [reflexivity |].
  destruct (String.eqb k0 k); cbn; [reflexivity | exact IH].
Qed.

Lemma hasProp_setProp (k k' : string) (v : jsval) (o : object) :
  hasProp (setProp k v o) k' = String.eqb k k' || hasProp o k'.
Proof.
  unfold hasProp.
  induction o as [| [k0 v0] rest IH]; cbn.
  - reflexivity.
  - destruct (String.eqb k0 k) eqn:E0; cbn.
    + apply String.eqb_eq in E0. subst k0.
      now destruct (String.eqb k k'), (hasProp rest k').
    + rewrite IH.
      now destruct (String.eqb k0 k'), (String.eqb k k'),
        (hasProp rest k').
Qed.

(** Saving the configuration and reading it back, against a document
    that holds what was last written.  If the configuration, once
    stamped, holds an array directly inside an array, the write is
    refused, the error reaches the caller and the document is as before
    ([sanitizeForFirestore] does not repair that).  Otherwise the read
    returns an object with the keys of the stamped configuration, in
    order; its [updatedAt] is the clock reading of the save, whatever
    the caller had put there; every other property is the sanitized one
    of the caller, so that an [undefined] comes back as [null]. *)
Theorem config_round_trip :
  forall (config : object) (w : Slot),
    let written := setProp "updatedAt" (JNum (clock w)) config in
    let r := run slotEnv
                 (bind (saveGlobalAIConfig config)
                       (fun _ => getGlobalAIConfig)) tt w [] in
    if holdsNestedArray (JObj written) then
      outcome r = Thrown invalidArgument /\ after r = w
    else
      exists props,
        outcome r = Returned (Some props)
        /\ held (after r) = Some props
        /\ keys props = keys written
        /\ getProp props "updatedAt" = JNum (clock w)
        /\ forall k, k <> "updatedAt" ->
             getProp props k
             = if hasProp config k
               then sanitizeForFirestore (getProp config k)
               else JUndefined.
Proof.
  intros config w written r.
  pose proof (sanitize_removes_undefined (JObj written)) as Hclean.
  pose proof (sanitize_keeps_nesting (JObj written)) as Hnest.
  subst r. unfold saveGlobalAIConfig, getGlobalAIConfig.
  cbn [run bind try_catch ask awaiting read await slotEnv on_read
       on_await world slotRead slotAwait fst snd].
  fold written.
  change (sanitizeForFirestore (JObj written))
    with (JObj (map (fun kv => (fst kv, sanitizeForFirestore (snd kv)))
                    written)) in *.
  rewrite Hclean, Hnest.
  destruct (holdsNestedArray (JObj written)); cbn.
  - split; reflexivity.
  - eexists. split; [reflexivity |]. split; [reflexivity |].
    split.
    { unfold keys. rewrite map_map. reflexivity. }
    split.
    { rewrite getProp_sanitized. unfold written.
      rewrite hasProp_setProp, FirestoreMore.getProp_setProp. reflexivity. }
    intros k Hk. rewrite getProp_sanitized. unfold written.
    rewrite hasProp_setProp, FirestoreMore.getProp_setProp.
    destruct (String.eqb "updatedAt" k) eqn:E; [| reflexivity].
    apply String.eqb_eq in E. now elim Hk.
Qed.

(** How the two operations fail, in any environment.  Reading never
    throws: it returns the data of the document when [getDoc] answers
    one, and [null] both when the document is missing and when [getDoc]
    fails.  Saving returns exactly when [setDoc] accepts the write and
    otherwise throws the error of [setDoc]; what it hands to [setDoc]
    holds no [undefined] and is stamped with the clock reading. *)
Theorem config_failures :
  forall (env : Env sg) (config : object) (w : world env),
    let got := run env getGlobalAIConfig tt w [] in
    let saved := run env (saveGlobalAIConfig config) tt w [] in
    let now := fst (on_read env DateNow w) in
    let data :=
      sanitizeForFirestore (JObj (setProp "updatedAt" (JNum now) config)) in
    outcome got
    = Returned match fst (on_await env GetDoc w) with
               | Ok found => found
               | Err _ => None
               end
    /\ outcome saved
       = match fst (on_await env (SetDoc data)
                             (snd (on_read env DateNow w))) with
         | Ok _ => Returned tt
         | Err e => Thrown e
         end
    /\ (forall d reply,
          In (EvAwait (sg := sg) (SetDoc d) reply) (trace saved) ->
          d = data)
    /\ holdsUndefined data = false.
Proof.
  intros env config w. cbv zeta.
  unfold getGlobalAIConfig, saveGlobalAIConfig.
  split; [| split; [| split]].
  - cbn. destruct (on_await env GetDoc w) as [[[found |] | e] w1]; cbn;
      try reflexivity.
    destruct (on_read env _ w1) as [[] w2]. reflexivity.
  - cbn. destruct (on_read env DateNow w) as [now w1]. cbn.
    destruct (on_await env _ w1) as [[[] | e] w2]; cbn.
    + destruct (on_read env _ w2) as [[] w3]. reflexivity.
    + destruct (on_read env _ w2) as [[] w3]. reflexivity.
  - intros d reply. cbn.
    destruct (on_read env DateNow w) as [now w1]. cbn.
    destruct (on_await env _ w1) as [[[] | e] w2]; cbn;
      destruct (on_read env _ w2) as [[] w3]; cbn;
      intros [H | [H | [H | H]]];
      try discriminate H; try contradiction;
      injection H as <-; reflexivity.
  - apply sanitize_removes_undefined.
Qed.

End ConfigFacts.

(* ================================================================== *)
(** * The diagram flag (lines 408-409 and 564-565) *)

Module FlagFacts.
Import Text.

Lemma length_positive (s : list N) :
  (0 <? unitsLength s) = negb (Nat.eqb (length s) 0).
Proof.
  destruct s as [| u rest]; [reflexivity |].
  unfold unitsLength. cbn [length Nat.eqb negb].
  apply Z.ltb_lt. lia.
Qed.

Lemma empty_trimStart (s : list N) :
  negb (Nat.eqb (length (trimStart s)) 0) = existsb visible s.
Proof.
  induction s as [| u rest IH]; [reflexivity |].
  cbn [trimStart existsb]. unfold visible at 1.
  destruct (isWhiteSpace u); [exact IH | reflexivity].
Qed.

Lemma visible_trimStart (s : list N) :
  existsb visible (trimStart s) = existsb visible s.
Proof.
  induction s as [| u rest IH]; [reflexivity |].
  cbn [trimStart]. destruct (isWhiteSpace u) eqn:E; [| reflexivity].
  cbn [existsb]. unfold visible at 2. rewrite E. exact IH.
Qed.

Lemma visible_rev (s : list N) :
  existsb visible (rev s) = existsb visible s.
Proof.
  induction s as [| u rest IH]; [reflexivity |].
  cbn [rev existsb]. rewrite existsb_app, IH. cbn [existsb].
  now destruct (visible u), (existsb visible rest).
Qed.

(** [trim] leaves something exactly when a code unit is not white
    space. *)
Lemma trim_leaves_visible (s : list N) :
  (0 <? unitsLength (trim s)) = existsb visible s.
Proof.
  unfold trim.
  rewrite length_positive, length_rev, empty_trimStart, visible_rev.
  apply visible_trimStart.
Qed.

(** The flag [!!diagramXml && diagramXml.trim().length > 0] is set
    exactly when the string holds a code unit that [trim] does not
    remove: the test on the string itself adds nothing to the test on
    the trimmed one, and a diagram of blanks and line breaks (also the
    ones beyond ASCII, such as U+3000, U+2028 or U+FEFF) counts as no
    diagram. *)
Theorem diagram_flag_means_visible_content :
  forall s : string,
    hasDiagramOf s = existsb visible (codeUnits s)
    /\ hasDiagramOf s = (0 <? unitsLength (trim (codeUnits s)))
    /\ hasDiagramOf (String (ascii_of_nat 227)
                       (String (ascii_of_nat 128)
                          (String (ascii_of_nat 128) s)))
       = hasDiagramOf s.
Proof.
  intro s. unfold hasDiagramOf.
  rewrite !trim_leaves_visible.
  split; [| split].
  - destruct s as [| c rest]; reflexivity.
  - destruct s as [| c rest]; reflexivity.
  - cbn [String.eqb negb andb].
    destruct s as [| c rest]; reflexivity.
Qed.

End FlagFacts.
